(** * weekly-plan: a shallow embedding of the Excel add-in's cell logic

    The add-in (src/taskpane/js) reads and writes spreadsheet cells from
    event handlers.  The embedding below follows the JavaScript sources
    function by function:

    - JavaScript numbers are modelled by exact rationals ([Q]); [NaN] is the
      [None] of an [option Q].  IEEE rounding is outside the model.
    - A cell value is what [range.values] hands to the script: a number, a
      string (the empty string for an empty cell), a boolean, or [null].
    - A worksheet is a total grid of values and fill colours, indexed by
      (column number, row number); A1-style addresses built by the script
      are resolved the way the host resolves them.
    - [async] handlers run to completion one at a time, so they become
      state-passing functions on the workbook plus the session [state]. *)

From Stdlib Require Import ZArith QArith Qround Qpower List Bool Lia Lqa.
From Stdlib Require Import Strings.String Strings.Ascii Numbers.DecimalString.
Import ListNotations.

Open Scope string_scope.
Open Scope Z_scope.

(* ------------------------------------------------------------------ *)
(** ** JavaScript strings and numbers *)

Module Js.

Definition code (c : ascii) : Z := Z.of_nat (nat_of_ascii c).

Definition fromCharCode (z : Z) : ascii := ascii_of_nat (Z.to_nat z).

Definition isUpper (c : ascii) : bool := (65 <=? code c) && (code c <=? 90).

Definition isDigit (c : ascii) : bool := (48 <=? code c) && (code c <=? 57).

(** Longest prefix whose characters satisfy [p], and the rest. *)
Fixpoint span (p : ascii -> bool) (s : string) : string * string :=
  match s with
  | EmptyString => (EmptyString, EmptyString)
  | String c t =>
      if p c then let '(a, b) := span p t in (String c a, b)
      else (EmptyString, s)
  end.

Fixpoint allChars (p : ascii -> bool) (s : string) : bool :=
  match s with
  | EmptyString => true
  | String c t => p c && allChars p t
  end.

(** Value of a run of decimal digits, most significant first. *)
Fixpoint digitsValue (acc : Z) (s : string) : Z :=
  match s with
  | EmptyString => acc
  | String c t => digitsValue (acc * 10 + (code c - 48)) t
  end.

Definition isDigits (s : string) : bool :=
  negb (String.eqb s "") && allChars isDigit s.

(** [String(n)] for an integer [n] (below the 1e21 switch to exponents). *)
Definition intToString (z : Z) : string :=
  if z <? 0 then "-" ++ NilZero.string_of_uint (N.to_uint (Z.to_N (- z)))
  else NilZero.string_of_uint (N.to_uint (Z.to_N z)).

Fixpoint repeatChar (c : ascii) (n : nat) : string :=
  match n with
  | O => EmptyString
  | S k => String c (repeatChar c k)
  end.

(** [s.padStart(n, '0')] *)
Definition padStart0 (n : nat) (s : string) : string :=
  repeatChar "0"%char (n - String.length s) ++ s.

(** [s.includes(c)] for a one-character needle. *)
Fixpoint includesChar (c : ascii) (s : string) : bool :=
  match s with
  | EmptyString => false
  | String d t => Ascii.eqb c d || includesChar c t
  end.

(** [s.split(c)] for a one-character separator. *)
Fixpoint splitOn (c : ascii) (s : string) (cur : string) : list string :=
  match s with
  | EmptyString => [cur]
  | String d t =>
      if Ascii.eqb c d then cur :: splitOn c t EmptyString
      else splitOn c t (cur ++ String d EmptyString)
  end.

Definition split (c : ascii) (s : string) : list string := splitOn c s EmptyString.

Fixpoint join (sep : string) (l : list string) : string :=
  match l with
  | [] => EmptyString
  | [x] => x
  | x :: t => x ++ sep ++ join sep t
  end.

Definition dquote : ascii := ascii_of_nat 34.
Definition newline : ascii := ascii_of_nat 10.

(** [str.replace(/x/g, "xx")] for the double-quote character. *)
Fixpoint doubleQuotes (s : string) : string :=
  match s with
  | EmptyString => EmptyString
  | String c t =>
      if Ascii.eqb c dquote then String dquote (String dquote (doubleQuotes t))
      else String c (doubleQuotes t)
  end.

(** [str.replace(' ', '-')]: the first space only. *)
Fixpoint replaceFirstSpace (s : string) : string :=
  match s with
  | EmptyString => EmptyString
  | String c t => if Ascii.eqb c " " then String "-" t else String c (replaceFirstSpace t)
  end.

(** [Math.round] *)
Definition round (q : Q) : Z := Qfloor (q + (1 # 2))%Q.

End Js.

(* ------------------------------------------------------------------ *)
(** ** utils.js *)

Module Utils.
Import Js.

(** [columnLetterToIndex]: the [for] loop over the characters. *)
Fixpoint columnLetterToIndex_from (index : Z) (letter : string) : Z :=
  match letter with
  | EmptyString => index
  | String c t => columnLetterToIndex_from (index * 26 + (code c - code "A"%char)) t
  end.

Definition columnLetterToIndex (letter : string) : Z :=
  columnLetterToIndex_from 0 letter.

(** [indexToColumnLetter]: the [while (index >= 0)] loop.  [fuel] bounds the
    number of iterations; [indexToColumnLetter_fuel] shows the bound used by
    [indexToColumnLetter] is never reached. *)
Fixpoint indexToColumnLetter_loop (fuel : nat) (index : Z) (letter : string) : string :=
  match fuel with
  | O => letter
  | S f =>
      if 0 <=? index then
        indexToColumnLetter_loop f (index / 26 - 1)
          (String (fromCharCode (Z.rem index 26 + code "A"%char)) letter)
      else letter
  end.

Definition indexToColumnLetter (index : Z) : string :=
  indexToColumnLetter_loop (S (Z.to_nat index)) index EmptyString.

(** The column number (1-based) the host gives to a run of column letters in
    an A1 address: A..Z are 1..26, AA is 27, and so on. *)
Fixpoint hostColumn_from (acc : Z) (letters : string) : Z :=
  match letters with
  | EmptyString => acc
  | String c t => hostColumn_from (acc * 26 + (code c - 64)) t
  end.

Definition hostColumn (letters : string) : Z := hostColumn_from 0 letters.

(** A valid column string: a non-empty run of uppercase letters. *)
Definition validColumn (s : string) : bool :=
  negb (String.eqb s "") && allChars isUpper s.

Record address := { column : string; colIndex : Z; row : Z }.

(** One attempt of [/([A-Z]+)(\d+)/] at the start of [s]: the letters are
    taken greedily, and a shorter run could only be followed by a letter. *)
Definition matchAddressAt (s : string) : option (string * string) :=
  let '(letters, rest) := span isUpper s in
  if String.eqb letters "" then None
  else
    let '(digits, _) := span isDigit rest in
    if String.eqb digits "" then None else Some (letters, digits).

(** [address.match(/([A-Z]+)(\d+)/)]: leftmost match. *)
Fixpoint matchAddress (s : string) : option (string * string) :=
  match matchAddressAt s with
  | Some m => Some m
  | None =>
      match s with
      | EmptyString => None
      | String _ t => matchAddress t
      end
  end.

Definition parseAddress (addr : string) : option address :=
  match matchAddress addr with
  | None => None
  | Some (m1, m2) =>
      Some {| column := m1;
              colIndex := columnLetterToIndex m1 + 1;
              row := digitsValue 0 m2 |}
  end.

(** *** Dates

    A [Date] at local midnight is the number of days since 1970-01-01 in the
    proleptic Gregorian calendar; daylight-saving shifts are outside the
    model. *)

Definition daysFromCivil (y m d : Z) : Z :=
  let y' := if m <=? 2 then y - 1 else y in
  let era := y' / 400 in
  let yoe := y' - era * 400 in
  let doy := (153 * (if 2 <? m then m - 3 else m + 9) + 2) / 5 + d - 1 in
  let doe := yoe * 365 + yoe / 4 - yoe / 100 + doy in
  era * 146097 + doe - 719468.

Definition civilFromDays (z : Z) : Z * Z * Z :=
  let z' := z + 719468 in
  let era := z' / 146097 in
  let doe := z' - era * 146097 in
  let yoe := (doe - doe / 1460 + doe / 36524 - doe / 146096) / 365 in
  let doy := doe - (365 * yoe + yoe / 4 - yoe / 100) in
  let mp := (5 * doy + 2) / 153 in
  let d := doy - (153 * mp + 2) / 5 + 1 in
  let m := if mp <? 10 then mp + 3 else mp - 9 in
  ((yoe + era * 400) + (if m <=? 2 then 1 else 0), m, d).

(** [new Date(year, month, day)]: [month] is 0-based, out-of-range months
    and days carry over, and years 0..99 mean 1900..1999. *)
Definition newDate (year month day : Z) : Z :=
  let year := if (0 <=? year) && (year <=? 99) then 1900 + year else year in
  daysFromCivil (year + month / 12) (month mod 12 + 1) 1 + (day - 1).

Definition getFullYear (date : Z) : Z := let '(y, _, _) := civilFromDays date in y.
Definition getMonth (date : Z) : Z := let '(_, m, _) := civilFromDays date in m - 1.
Definition getDate (date : Z) : Z := let '(_, _, d) := civilFromDays date in d.

(** [getDay]: 0 is Sunday; 1970-01-01 was a Thursday. *)
Definition getDay (date : Z) : Z := (date + 4) mod 7.

Definition getMonday (date : Z) : Z :=
  let dayOfWeek := getDay date in
  let diff := if dayOfWeek =? 0 then 6 else dayOfWeek - 1 in
  date - diff.

(** [daysBetween] of two local midnights. *)
Definition daysBetween (date1 date2 : Z) : Z := date2 - date1.

Definition formatDateYYYYMMDD (date : Z) : string :=
  intToString (getFullYear date)
  ++ padStart0 2 (intToString (getMonth date + 1))
  ++ padStart0 2 (intToString (getDate date)).

End Utils.

(* ------------------------------------------------------------------ *)
(** ** Cell values and the conversions the scripts apply to them *)

Module Value.
Import Js.

Inductive jsval :=
| JNum (q : Q)
| JStr (s : string)
| JBool (b : bool)
| JNull.

(** The parts of [parseFloat], [parseInt] and [String] that depend on the
    full lexical grammar of numbers are left to the host.  Plain digit runs
    and integers are computed here. *)
Class Builtins := {
  parseFloat_text : string -> option Q;
  parseInt_text : string -> option Z;
  Number_toString : Q -> string
}.

Definition isInteger (q : Q) : bool := Qeq_bool (inject_Z (Qfloor q)) q.

Definition printsAsInteger (q : Q) : bool :=
  isInteger q && (Z.abs (Qfloor q) <? 10 ^ 21).

Section Conversions.
Context `{Builtins}.

(** [String(v)] *)
Definition toStr (v : jsval) : string :=
  match v with
  | JNum q => if printsAsInteger q then intToString (Qfloor q) else Number_toString q
  | JStr s => s
  | JBool true => "true"
  | JBool false => "false"
  | JNull => "null"
  end.

Definition parseFloatStr (s : string) : option Q :=
  if String.eqb s "" then None
  else if isDigits s then Some (inject_Z (digitsValue 0 s))
  else parseFloat_text s.

Definition parseIntStr (s : string) : option Z :=
  if String.eqb s "" then None
  else if isDigits s then Some (digitsValue 0 s)
  else parseInt_text s.

(** [parseFloat(v)]: [None] is [NaN]. *)
Definition parseFloat (v : jsval) : option Q :=
  match v with
  | JNum q => Some q
  | JStr s => parseFloatStr s
  | JBool _ | JNull => None
  end.

(** [parseInt(v)]: [None] is [NaN]. *)
Definition parseInt (v : jsval) : option Z :=
  match v with
  | JNum q => if printsAsInteger q then Some (Qfloor q) else parseInt_text (Number_toString q)
  | JStr s => parseIntStr s
  | JBool _ | JNull => None
  end.

End Conversions.

(** Truthiness, as tested by [if (v)], [!v] and [v || d]. *)
Definition truthy (v : jsval) : bool :=
  match v with
  | JNum q => negb (Qeq_bool q 0)
  | JStr s => negb (String.eqb s "")
  | JBool b => b
  | JNull => false
  end.

(** [v === '' || v === null] *)
Definition isBlank (v : jsval) : bool :=
  match v with
  | JStr s => String.eqb s ""
  | JNull => true
  | _ => false
  end.

(** [a === b] *)
Definition strictEq (a b : jsval) : bool :=
  match a, b with
  | JNum x, JNum y => Qeq_bool x y
  | JStr x, JStr y => String.eqb x y
  | JBool x, JBool y => Bool.eqb x y
  | JNull, JNull => true
  | _, _ => false
  end.

(** [x || d] for a possibly-[NaN] number. *)
Definition orQ (x : option Q) (d : Q) : Q :=
  match x with
  | Some q => if Qeq_bool q 0 then d else q
  | None => d
  end.

Definition orZ (x : option Z) (d : Z) : Z :=
  match x with
  | Some z => if z =? 0 then d else z
  | None => d
  end.

Definition Qgtb (a b : Q) : bool := negb (Qle_bool a b).
Definition Qltb (a b : Q) : bool := negb (Qle_bool b a).

End Value.

(* ------------------------------------------------------------------ *)
(** ** Worksheets, session state and effects *)

Module Grid.
Import Js Utils Value.

(** (column number, row number), both 1-based. *)
Definition cell : Type := Z * Z.

Definition cell_eqb (a b : cell) : bool :=
  (fst a =? fst b) && (snd a =? snd b).

Record sheet := {
  values : cell -> jsval;
  fill : cell -> option string
}.

(** [sheet.getRange(`${letters}${row}`)] *)
Definition at_ (letters : string) (row : Z) : cell := (hostColumn letters, row).

Definition setValue (sh : sheet) (c : cell) (v : jsval) : sheet :=
  {| values := fun c' => if cell_eqb c' c then v else values sh c';
     fill := fill sh |}.

Definition setFill (sh : sheet) (c : cell) (color : option string) : sheet :=
  {| values := values sh;
     fill := fun c' => if cell_eqb c' c then color else fill sh c' |}.

Definition inBox (c : cell) (c1 r1 c2 r2 : Z) : bool :=
  (c1 <=? fst c) && (fst c <=? c2) && (r1 <=? snd c) && (snd c <=? r2).

(** [range.format.fill.clear()] on the box of columns [c1..c2], rows [r1..r2]. *)
Definition clearFillBox (sh : sheet) (c1 r1 c2 r2 : Z) : sheet :=
  {| values := values sh;
     fill := fun c => if inBox c c1 r1 c2 r2 then None else fill sh c |}.

(** [range.clear(Excel.ClearApplyTo.contents)] on a box: the cells read back
    as the empty string. *)
Definition clearContentsBox (sh : sheet) (c1 r1 c2 r2 : Z) : sheet :=
  {| values := fun c => if inBox c c1 r1 c2 r2 then JStr "" else values sh c;
     fill := fill sh |}.

Definition clearContents (sh : sheet) (c : cell) : sheet := setValue sh c (JStr "").

Fixpoint zrange (start : Z) (n : nat) : list Z :=
  match n with
  | O => []
  | S k => start :: zrange (start + 1) k
  end.

(** Rows of the one-column range [`X${a}:X${b}`]; the host orders the two
    ends. *)
Definition rangeRows (a b : Z) : list Z :=
  zrange (Z.min a b) (Z.to_nat (Z.abs (b - a) + 1)).

(** [range.values] of a one-column range, flattened. *)
Definition columnValues (sh : sheet) (col : Z) (a b : Z) : list jsval :=
  map (fun r => values sh (col, r)) (rangeRows a b).

Record workbook := {
  weeklySheet : sheet;
  habitsSheet : sheet;
  tasksSheet : option sheet;
  summarySheet : option sheet
}.

(** state.js *)
Record session := {
  currentSheet : option string;
  habits_currentDayIndex : Z;
  habits_lastRow : Z;
  weekly_dIndex : Z;
  weekly_lastMonday : option Z;
  weekly_taskl : Z;
  weekly_summaryL : Z;
  weekly_lastInitDate : option string
}.

(** Messages of [showStatus] and [showWarningPopup], one constructor per
    call site, carrying the values that are formatted into the text. *)
Inductive status :=
| SelectTaskFromDropdown
| ScoreCantBeModified
| EnterAScore
| TasksSheetNotFound
| NoTasksAvailable
| FilledSlots (filledCount : Z)
| NoEmptySlots
| Scored (taskName : jsval) (weightedScore dailyTotal : Q)
| CurrentDateNotFound
| HabitDone (habitName : jsval) (weightedScore : Q) (streak : Z)
| NewWeekDetected
| ClearedForNewWeek
| WeekArchivedAndStarted
| ScriptError.

Inductive effect :=
| ShowStatus (s : status)
| WarnSelectTaskFirst
| ToggleSection (id : string)
| DownloadCSV (content filename : string).

(** What a handler sees and leaves behind. *)
Record world := {
  wb : workbook;
  st : session;
  out : list effect
}.

(** [new Date()] *)
Record clock := {
  today : Z;
  hours : Z;
  minutes : Z;
  seconds : Z
}.

Definition emit (w : world) (e : effect) : world :=
  {| wb := wb w; st := st w; out := out w ++ [e] |}.

Definition withWeekly (w : world) (sh : sheet) : world :=
  {| wb := {| weeklySheet := sh; habitsSheet := habitsSheet (wb w);
              tasksSheet := tasksSheet (wb w); summarySheet := summarySheet (wb w) |};
     st := st w; out := out w |}.

Definition withHabits (w : world) (sh : sheet) : world :=
  {| wb := {| weeklySheet := weeklySheet (wb w); habitsSheet := sh;
              tasksSheet := tasksSheet (wb w); summarySheet := summarySheet (wb w) |};
     st := st w; out := out w |}.

Definition withTasks (w : world) (sh : sheet) : world :=
  {| wb := {| weeklySheet := weeklySheet (wb w); habitsSheet := habitsSheet (wb w);
              tasksSheet := Some sh; summarySheet := summarySheet (wb w) |};
     st := st w; out := out w |}.

Definition withSummary (w : world) (sh : sheet) : world :=
  {| wb := {| weeklySheet := weeklySheet (wb w); habitsSheet := habitsSheet (wb w);
              tasksSheet := tasksSheet (wb w); summarySheet := Some sh |};
     st := st w; out := out w |}.

Definition withSession (w : world) (s : session) : world :=
  {| wb := wb w; st := s; out := out w |}.

Definition set_summaryL (s : session) (n : Z) : session :=
  {| currentSheet := currentSheet s;
     habits_currentDayIndex := habits_currentDayIndex s;
     habits_lastRow := habits_lastRow s;
     weekly_dIndex := weekly_dIndex s;
     weekly_lastMonday := weekly_lastMonday s;
     weekly_taskl := weekly_taskl s;
     weekly_summaryL := n;
     weekly_lastInitDate := weekly_lastInitDate s |}.

Definition set_taskl (s : session) (n : Z) : session :=
  {| currentSheet := currentSheet s;
     habits_currentDayIndex := habits_currentDayIndex s;
     habits_lastRow := habits_lastRow s;
     weekly_dIndex := weekly_dIndex s;
     weekly_lastMonday := weekly_lastMonday s;
     weekly_taskl := n;
     weekly_summaryL := weekly_summaryL s;
     weekly_lastInitDate := weekly_lastInitDate s |}.

Definition set_lastMonday (s : session) (d : Z) : session :=
  {| currentSheet := currentSheet s;
     habits_currentDayIndex := habits_currentDayIndex s;
     habits_lastRow := habits_lastRow s;
     weekly_dIndex := weekly_dIndex s;
     weekly_lastMonday := Some d;
     weekly_taskl := weekly_taskl s;
     weekly_summaryL := weekly_summaryL s;
     weekly_lastInitDate := weekly_lastInitDate s |}.

Definition set_dIndex (s : session) (d : Z) : session :=
  {| currentSheet := currentSheet s;
     habits_currentDayIndex := habits_currentDayIndex s;
     habits_lastRow := habits_lastRow s;
     weekly_dIndex := d;
     weekly_lastMonday := weekly_lastMonday s;
     weekly_taskl := weekly_taskl s;
     weekly_summaryL := weekly_summaryL s;
     weekly_lastInitDate := weekly_lastInitDate s |}.

Definition set_lastInitDate (s : session) (d : string) : session :=
  {| currentSheet := currentSheet s;
     habits_currentDayIndex := habits_currentDayIndex s;
     habits_lastRow := habits_lastRow s;
     weekly_dIndex := weekly_dIndex s;
     weekly_lastMonday := weekly_lastMonday s;
     weekly_taskl := weekly_taskl s;
     weekly_summaryL := weekly_summaryL s;
     weekly_lastInitDate := Some d |}.

Definition formatDateTime (now : clock) : string :=
  formatDateYYYYMMDD (today now) ++ " "
  ++ padStart0 2 (intToString (hours now)) ++ ":"
  ++ padStart0 2 (intToString (minutes now)) ++ ":"
  ++ padStart0 2 (intToString (seconds now)).

End Grid.

(* ------------------------------------------------------------------ *)
(** ** config.js *)

Module CONFIG.

Definition HABITS_SHEET := "Habits".
Definition WEEKLY_SHEET := "Weekly".

Module HABITS.
Definition DATA_START_ROW : Z := 4.
Definition DAY_START := "D".
Definition STREAK_MULTIPLIER : Q := 11 # 10.
End HABITS.

Module WEEKLY.
Definition DATA_START_ROW : Z := 5.
Definition CONTROL_ROW : Z := 2.
Definition lastTimeLine : Z := 36.
Definition scoreLine : Z := 38.
Definition BUTTON_HELP : Z := 3.
Definition BUTTON_ADD : Z := 5.
Definition BUTTON_DELETE : Z := 7.
Definition BUTTON_RANDOM : Z := 9.
Definition BUTTON_THANK : Z := 11.
Definition TASK_COLUMNS : list Z := [3; 5; 7; 9; 11; 13; 15].
Definition SCORE_COLUMNS : list Z := [4; 6; 8; 10; 12; 14; 16].
Definition DAYS_IN_WEEK : nat := 7.
End WEEKLY.

Module SUMMARY.
Definition DATE_COLUMN := "A".
Definition POSITIVE_SCORE_COLUMN := "D".
Definition NEGATIVE_SCORE_COLUMN := "E".
Definition TOTAL_SCORE_COLUMN := "F".
End SUMMARY.

Module COLORS.
Definition TODAY_HIGHLIGHT := "#FFFF00".
Definition POSITIVE := "#70AD47".
Definition NEGATIVE := "#ED7D31".
Definition NEUTRAL := "#FFC000".
Definition CURRENT_TIME := "#FFFF00".
End COLORS.

(** [list.includes(x)] on the column lists. *)
Definition includes (l : list Z) (x : Z) : bool := existsb (Z.eqb x) l.

End CONFIG.

(* ------------------------------------------------------------------ *)
(** ** weekly.js: score entry *)

Module Weekly.
Import Js Utils Value Grid.

Section Scripts.
Context `{Builtins}.

(** The [for] loop of [updateSummary] that looks for today's row. *)
Fixpoint findSummaryRow (vals : list jsval) (i : Z) (todayStr : string) : Z :=
  match vals with
  | [] => -1
  | v :: t =>
      if String.eqb (toStr v) todayStr then i + 1
      else findSummaryRow t (i + 1) todayStr
  end.

(** The row [updateSummary] settles on: today's row, or the one after the
    last used row. *)
Definition summaryRowFor (now : clock) (w : world) (sh : sheet) : Z :=
  let found :=
    findSummaryRow
      (columnValues sh (hostColumn CONFIG.SUMMARY.DATE_COLUMN) 1 (weekly_summaryL (st w) + 1))
      0 (formatDateYYYYMMDD (today now)) in
  if found =? -1 then weekly_summaryL (st w) + 1 else found.

(** [parseFloat(v) || 0] and [parseInt(v) || 0]: the number a script takes
    a cell to hold. *)
Definition numberIn (v : jsval) : Q := orQ (parseFloat v) 0.
Definition countIn (v : jsval) : Z := orZ (parseInt v) 0.

Definition addTo (sh : sheet) (c : cell) (amount : Q) : sheet :=
  setValue sh c (JNum (numberIn (values sh c) + amount)%Q).

Definition updateSummary (now : clock) (positiveScore negativeScore : Q) (w : world) : world :=
  match summarySheet (wb w) with
  | None => w
  | Some summary =>
      let todayStr := formatDateYYYYMMDD (today now) in
      let summaryRange :=
        columnValues summary (hostColumn CONFIG.SUMMARY.DATE_COLUMN) 1
          (weekly_summaryL (st w) + 1) in
      let found := findSummaryRow summaryRange 0 todayStr in
      let summaryRow := if found =? -1 then weekly_summaryL (st w) + 1 else found in
      let summary1 :=
        if found =? -1
        then setValue summary (at_ CONFIG.SUMMARY.DATE_COLUMN summaryRow) (JStr todayStr)
        else summary in
      let st1 := if found =? -1 then set_summaryL (st w) summaryRow else st w in
      let summary2 :=
        if Qgtb positiveScore 0
        then addTo summary1 (at_ CONFIG.SUMMARY.POSITIVE_SCORE_COLUMN summaryRow) positiveScore
        else summary1 in
      let summary3 :=
        if Qltb negativeScore 0
        then addTo summary2 (at_ CONFIG.SUMMARY.NEGATIVE_SCORE_COLUMN summaryRow) negativeScore
        else summary2 in
      let totalCell := at_ CONFIG.SUMMARY.TOTAL_SCORE_COLUMN summaryRow in
      let currentTotal := numberIn (values summary3 totalCell) in
      let summary4 :=
        setValue summary3 totalCell (JNum (currentTotal + positiveScore + negativeScore)%Q) in
      withSummary (withSession w st1) summary4
  end.

(** The scan of the Tasks name column in [processWeeklyScoreChange]:
    returns [(taskIndex, othersIndex)], each [-1] when not found. *)
Fixpoint findTask (vals : list jsval) (i : Z) (taskName : jsval) (othersIndex : Z) : Z * Z :=
  match vals with
  | [] => (-1, othersIndex)
  | v :: t =>
      if strictEq v taskName then (i + 4, othersIndex)
      else findTask t (i + 1) taskName
             (if strictEq v (JStr "others") then i + 4 else othersIndex)
  end.

Definition scoreColor (weightedScore : Q) : string :=
  if Qgtb weightedScore 0 then CONFIG.COLORS.POSITIVE
  else if Qltb weightedScore 0 then CONFIG.COLORS.NEGATIVE
  else CONFIG.COLORS.NEUTRAL.

(** [parseFloat(weightCell.values[0][0]) || 1] for the ledger row [taskIndex]. *)
Definition weightAt (tasks : sheet) (taskIndex : Z) : Q :=
  orQ (parseFloat (values tasks (at_ "B" taskIndex))) 1.

(** The ledger row and weight settled on for [taskName], with the Tasks
    sheet and session after a possible creation of the "others" row. *)
Definition resolveTask (now : clock) (tasks : sheet) (s : session) (taskName : jsval)
  : Z * Q * sheet * session :=
  let tasksRange := columnValues tasks (hostColumn "A") 4 (weekly_taskl s) in
  let '(found, othersIndex) := findTask tasksRange 0 taskName (-1) in
  if negb (found =? -1) then (found, weightAt tasks found, tasks, s)
  else if negb (othersIndex =? -1) then (othersIndex, weightAt tasks othersIndex, tasks, s)
  else
    let taskIndex := weekly_taskl s + 1 in
    let tasks1 := setValue tasks (at_ "A" taskIndex) (JStr "others") in
    let tasks2 := setValue tasks1 (at_ "B" taskIndex) (JNum 1) in
    let tasks3 := setValue tasks2 (at_ "C" taskIndex) (JStr (formatDateTime now)) in
    (taskIndex, 1%Q, tasks3, set_taskl s taskIndex).

Definition processWeeklyScoreChange (now : clock) (row col : Z) (newScore : Q) (w : world)
  : world :=
  match tasksSheet (wb w) with
  | None => w (* getItem fails at the first sync *)
  | Some tasks =>
      let weekly := weeklySheet (wb w) in
      let taskColLetter := indexToColumnLetter (col - 2) in
      let taskCell := at_ taskColLetter row in
      let taskName := values weekly taskCell in
      if negb (truthy taskName) then w
      else
        match weekly_lastMonday (st w) with
        | None => w (* lastMonday.getDate() throws on null *)
        | Some lastMonday =>
            let dayIndex := (col - 4) / 2 in
            let targetDay := lastMonday + dayIndex in
            let '(taskIndex, taskWeight, tasks1, st1) :=
              resolveTask now tasks (st w) taskName in
            let weightedScore := (taskWeight * newScore)%Q in
            let scoreColLetter := indexToColumnLetter (col - 1) in
            let scoreCell := at_ scoreColLetter row in
            let color := scoreColor weightedScore in
            let weekly1 := setFill weekly scoreCell (Some color) in
            let weekly2 := setFill weekly1 taskCell (Some color) in
            let dailyTotalCell := at_ scoreColLetter CONFIG.WEEKLY.scoreLine in
            let currentDailyTotal := numberIn (values weekly2 dailyTotalCell) in
            let weekly3 :=
              setValue weekly2 dailyTotalCell (JNum (currentDailyTotal + weightedScore)%Q) in
            let w1 := withTasks (withSession (withWeekly w weekly3) st1) tasks1 in
            let w2 :=
              updateSummary now
                (if Qgtb weightedScore 0 then weightedScore else 0%Q)
                (if Qltb weightedScore 0 then weightedScore else 0%Q) w1 in
            let tasks2 := setValue tasks1 (at_ "D" taskIndex) (JStr (formatDateTime now)) in
            let countCell := at_ "F" taskIndex in
            let taskScoreCell := at_ "G" taskIndex in
            let tasks3 :=
              setValue tasks2 countCell
                (JNum (inject_Z (countIn (values tasks2 countCell) + 1))) in
            let tasks4 :=
              setValue tasks3 taskScoreCell
                (JNum (numberIn (values tasks2 taskScoreCell) + weightedScore)%Q) in
            emit (withTasks w2 tasks4)
              (ShowStatus (Scored taskName weightedScore (currentDailyTotal + weightedScore)%Q))
        end
  end.

(** *** Highlighting *)

Definition dayTaskColumn (dIndex : Z) : string := indexToColumnLetter (dIndex * 2 + 3 - 1).
Definition dayScoreColumn (dIndex : Z) : string := indexToColumnLetter (dIndex * 2 + 4 - 1).

Definition highlightCurrentDay (w : world) : world :=
  let sheet := weeklySheet (wb w) in
  let sheet1 := clearFillBox sheet (hostColumn "A") 4 (hostColumn "P") 4 in
  let taskColLetter := dayTaskColumn (weekly_dIndex (st w)) in
  let scoreColLetter := dayScoreColumn (weekly_dIndex (st w)) in
  let sheet2 := setFill sheet1 (at_ taskColLetter 4) (Some CONFIG.COLORS.TODAY_HIGHLIGHT) in
  let sheet3 := setFill sheet2 (at_ scoreColLetter 4) (Some CONFIG.COLORS.TODAY_HIGHLIGHT) in
  withWeekly w sheet3.

(** [cellTime.match(/^(\d{1,2}):(\d{2})$/)] *)
Definition matchHHMM (s : string) : option (string * string) :=
  let '(h, rest) := span isDigit s in
  if (1 <=? String.length h)%nat && (String.length h <=? 2)%nat then
    match rest with
    | String ":" m =>
        if (String.length m =? 2)%nat && allChars isDigit m then Some (h, m) else None
    | _ => None
    end
  else None.

(** The time of day, in hours, a time cell stands for; [None] when the loop
    of [highlightCurrentTimeRow] skips the row. *)
Definition timeValueOf (cellTime : jsval) : option Q :=
  if isBlank cellTime then None
  else
    match cellTime with
    | JNum c =>
        if Qle_bool 0 c && Qle_bool c 1 then Some (c * 24)%Q
        else if Qle_bool 0 c && Qle_bool c 24 then Some c
        else None
    | JStr str =>
        match matchHHMM str with
        | Some (h, m) =>
            Some (inject_Z (digitsValue 0 h) + inject_Z (digitsValue 0 m) / 60)%Q
        | None => None
        end
    | _ => None
    end.

(** The scan for the best row: [(bestRowIndex, bestTimeValue)]. *)
Fixpoint bestTimeLoop (vals : list jsval) (i : Z) (currentTimeDecimal : Q)
    (bestRowIndex : Z) (bestTimeValue : Q) : Z * Q :=
  match vals with
  | [] => (bestRowIndex, bestTimeValue)
  | cellTime :: t =>
      match timeValueOf cellTime with
      | None => bestTimeLoop t (i + 1) currentTimeDecimal bestRowIndex bestTimeValue
      | Some timeValue =>
          if Qle_bool timeValue (currentTimeDecimal + (1 # 10))%Q
             && Qgtb timeValue bestTimeValue
          then bestTimeLoop t (i + 1) currentTimeDecimal i timeValue
          else bestTimeLoop t (i + 1) currentTimeDecimal bestRowIndex bestTimeValue
      end
  end.

Definition currentTimeDecimal (now : clock) : Q :=
  (inject_Z (hours now) + inject_Z (minutes now) / 60)%Q.

Definition timeColumnValues (weekly : sheet) : list jsval :=
  columnValues weekly (hostColumn "B") CONFIG.WEEKLY.DATA_START_ROW CONFIG.WEEKLY.lastTimeLine.

Definition bestTimeRow (now : clock) (weekly : sheet) : Z :=
  fst (bestTimeLoop (timeColumnValues weekly) 0 (currentTimeDecimal now) (-1) (-1)%Q).

Definition highlightCurrentTimeRow (now : clock) (w : world) : world :=
  let sheet := weeklySheet (wb w) in
  let sheet1 :=
    clearFillBox sheet (hostColumn "B") 5 (hostColumn "B") CONFIG.WEEKLY.lastTimeLine in
  let bestRowIndex := bestTimeRow now sheet1 in
  if 0 <=? bestRowIndex then
    let row := CONFIG.WEEKLY.DATA_START_ROW + bestRowIndex in
    let sheet2 := setFill sheet1 (at_ "B" row) (Some CONFIG.COLORS.CURRENT_TIME) in
    let taskColLetter := dayTaskColumn (weekly_dIndex (st w)) in
    let scoreColLetter := dayScoreColumn (weekly_dIndex (st w)) in
    if isBlank (values sheet2 (at_ scoreColLetter row)) then
      let sheet3 := setFill sheet2 (at_ taskColLetter row) (Some CONFIG.COLORS.CURRENT_TIME) in
      let sheet4 := setFill sheet3 (at_ scoreColLetter row) (Some CONFIG.COLORS.CURRENT_TIME) in
      withWeekly w sheet4
    else withWeekly w sheet2
  else withWeekly w sheet1.

(** *** Random fill *)

(** The loop of [randomPick] over the loaded time and task columns.
    [random k] is the result of the [k]-th call of [Math.random()].  Returns
    the sheet, [filledCount], and whether the loop ran to its end: indexing
    [tasks] out of range throws, which cannot happen while [Math.random()]
    stays in [0, 1). *)
Fixpoint randomPickLoop (random : nat -> Q) (tasks : list jsval) (taskColLetter : string)
    (timeVals taskVals : list jsval) (i : Z) (k : nat) (weekly : sheet) (filledCount : Z)
  : sheet * Z * bool :=
  match timeVals, taskVals with
  | time :: timeVals', task :: taskVals' =>
      let hasTime := negb (isBlank time) in
      let hasTask := negb (isBlank task) in
      if hasTime && negb hasTask then
        let randomIndex := Qfloor (random k * inject_Z (Z.of_nat (List.length tasks)))%Q in
        if randomIndex <? 0 then (weekly, filledCount, false)
        else
          match nth_error tasks (Z.to_nat randomIndex) with
          | None => (weekly, filledCount, false)
          | Some randomTask =>
              let row := CONFIG.WEEKLY.DATA_START_ROW + i in
              randomPickLoop random tasks taskColLetter timeVals' taskVals' (i + 1) (S k)
                (setValue weekly (at_ taskColLetter row) randomTask) (filledCount + 1)
          end
      else
        randomPickLoop random tasks taskColLetter timeVals' taskVals' (i + 1) k
          weekly filledCount
  | _, _ => (weekly, filledCount, true)
  end.

Definition randomPick (random : nat -> Q) (w : world) : world :=
  match tasksSheet (wb w) with
  | None => emit w (ShowStatus TasksSheetNotFound)
  | Some tasksSheet =>
      let tasksRange := columnValues tasksSheet (hostColumn "A") 4 (weekly_taskl (st w)) in
      let tasks := filter truthy tasksRange in
      if (List.length tasks =? 0)%nat then emit w (ShowStatus NoTasksAvailable)
      else
        let taskColLetter := dayTaskColumn (weekly_dIndex (st w)) in
        let weekly := weeklySheet (wb w) in
        let timeVals := timeColumnValues weekly in
        let taskVals :=
          columnValues weekly (hostColumn taskColLetter)
            CONFIG.WEEKLY.DATA_START_ROW CONFIG.WEEKLY.lastTimeLine in
        let '(weekly1, filledCount, finished) :=
          randomPickLoop random tasks taskColLetter timeVals taskVals 0 0 weekly 0 in
        if negb finished then emit (withWeekly w weekly1) (ShowStatus ScriptError)
        else if 0 <? filledCount
        then emit (withWeekly w weekly1) (ShowStatus (FilledSlots filledCount))
        else emit (withWeekly w weekly1) (ShowStatus NoEmptySlots)
  end.

(** *** Selection on the Weekly sheet *)

Definition handleWeeklySelection (random : nat -> Q) (column : string) (colIndex row : Z)
    (w : world) : world :=
  let sheet := weeklySheet (wb w) in
  if row =? CONFIG.WEEKLY.CONTROL_ROW then
    if colIndex =? CONFIG.WEEKLY.BUTTON_HELP then emit w (ToggleSection "weekly-help")
    else if colIndex =? CONFIG.WEEKLY.BUTTON_ADD then emit w (ToggleSection "add-task-section")
    else if colIndex =? CONFIG.WEEKLY.BUTTON_DELETE
    then emit w (ToggleSection "delete-task-section")
    else if colIndex =? CONFIG.WEEKLY.BUTTON_RANDOM then randomPick random w
    else if colIndex =? CONFIG.WEEKLY.BUTTON_THANK then emit w (ToggleSection "thank-section")
    else w
  else if CONFIG.includes CONFIG.WEEKLY.TASK_COLUMNS colIndex
          && (CONFIG.WEEKLY.DATA_START_ROW <=? row)
          && (row <=? CONFIG.WEEKLY.lastTimeLine)
  then emit w (ShowStatus SelectTaskFromDropdown)
  else if CONFIG.includes CONFIG.WEEKLY.SCORE_COLUMNS colIndex
          && (CONFIG.WEEKLY.DATA_START_ROW <=? row)
          && (row <? CONFIG.WEEKLY.scoreLine)
  then
    (* getRange(address).getOffsetRange(0, -1) *)
    let taskCell := (hostColumn column - 1, row) in
    if negb (truthy (values sheet taskCell)) then emit w WarnSelectTaskFirst
    else
      let scoreCell := at_ column row in
      if negb (isBlank (values sheet scoreCell)) then emit w (ShowStatus ScoreCantBeModified)
      else emit w (ShowStatus EnterAScore)
  else w.

(** *** Archive *)

Definition escapeCSV (str : string) : string :=
  if includesChar "," str || includesChar dquote str || includesChar newline str
  then String dquote (doubleQuotes str ++ String dquote EmptyString)
  else str.

Definition dayNames : list string := ["Mon"; "Tue"; "Wed"; "Thu"; "Fri"; "Sat"; "Sun"].

Definition csvHeader : string :=
  join "," ("Time" :: flat_map (fun d => [d ++ "_Task"; d ++ "_Score"]) dayNames)
  ++ String newline EmptyString.

(** The time column of a CSV row. *)
Definition formatTime (time : jsval) : string :=
  match time with
  | JNum t =>
      let hours := Qfloor (t * 24)%Q in
      let mins := round ((t * 24 - inject_Z hours) * 60)%Q in
      padStart0 2 (toStr (JNum (inject_Z hours))) ++ ":"
      ++ padStart0 2 (toStr (JNum (inject_Z mins)))
  | _ => toStr time
  end.

(** The task and score fields of day [d] in data row [i] of [C5:P36]. *)
Definition csvDayFields (weekly : sheet) (i : Z) (d : Z) : list string :=
  let taskCol := d * 2 in
  let scoreCol := d * 2 + 1 in
  let r := CONFIG.WEEKLY.DATA_START_ROW + i in
  let taskV := values weekly (hostColumn "C" + taskCol, r) in
  let task := if truthy taskV then taskV else JStr "" in
  let score := values weekly (hostColumn "C" + scoreCol, r) in
  [escapeCSV (toStr task); if negb (isBlank score) then toStr score else ""].

(** One pass of the row loop: nothing for an empty time cell. *)
Definition csvRow (weekly : sheet) (i : Z) : string :=
  let time := values weekly (hostColumn "B", CONFIG.WEEKLY.DATA_START_ROW + i) in
  if isBlank time then EmptyString
  else
    join "," (escapeCSV (formatTime time)
              :: flat_map (csvDayFields weekly i) (zrange 0 CONFIG.WEEKLY.DAYS_IN_WEEK))
    ++ String newline EmptyString.

Definition csvContentOf (weekly : sheet) : string :=
  csvHeader
  ++ String.concat EmptyString
       (map (csvRow weekly) (zrange 0 (List.length (timeColumnValues weekly)))).

Definition weekLabelOf (weekly : sheet) : string :=
  let dateV := values weekly (at_ "B" 4) in
  let dateStr := if truthy dateV then toStr dateV else EmptyString in
  let firstDayNum := values weekly (at_ "D" 4) in
  let lastDayNum := values weekly (at_ "P" 4) in
  replaceFirstSpace dateStr ++ "_" ++ toStr firstDayNum ++ "-" ++ toStr lastDayNum.

Definition archiveWeekAutomatically (w : world) : world :=
  let weekly := weeklySheet (wb w) in
  let csvContent := csvContentOf weekly in
  let weekLabel := weekLabelOf weekly in
  if negb (String.eqb csvContent EmptyString)
     && (2 <? List.length (split newline csvContent))%nat
  then emit w (DownloadCSV csvContent ("Weekly_" ++ weekLabel ++ ".csv"))
  else w.

(** *** New week *)

Definition clearDayRow (taskColLetter scoreColLetter : string) (weekly : sheet) (row : Z)
  : sheet :=
  if negb (isBlank (values weekly (at_ scoreColLetter row))) then
    clearContents (clearContents weekly (at_ taskColLetter row)) (at_ scoreColLetter row)
  else weekly.

Definition clearDay (weekly : sheet) (day : Z) : sheet :=
  let taskCol := day * 2 + 3 in
  let scoreCol := day * 2 + 4 in
  let taskColLetter := indexToColumnLetter (taskCol - 1) in
  let scoreColLetter := indexToColumnLetter (scoreCol - 1) in
  fold_left (clearDayRow taskColLetter scoreColLetter)
    (zrange CONFIG.WEEKLY.DATA_START_ROW
       (Z.to_nat (CONFIG.WEEKLY.scoreLine - CONFIG.WEEKLY.DATA_START_ROW)))
    weekly.

Definition clearForNewWeek (w : world) : world :=
  let weekly := weeklySheet (wb w) in
  let weekly1 :=
    clearFillBox weekly (hostColumn "C") 5 (hostColumn "Z") CONFIG.WEEKLY.scoreLine in
  let weekly2 :=
    clearContentsBox weekly1 (hostColumn "C") CONFIG.WEEKLY.scoreLine
      (hostColumn "P") CONFIG.WEEKLY.scoreLine in
  let weekly3 := fold_left clearDay (zrange 0 CONFIG.WEEKLY.DAYS_IN_WEEK) weekly2 in
  emit (withWeekly w weekly3) (ShowStatus ClearedForNewWeek).

Definition yearMonthOf (date : Z) : string :=
  intToString (getFullYear date) ++ " " ++ padStart0 2 (intToString (getMonth date + 1)).

Definition setDayHeader (newMonday : Z) (weekly : sheet) (i : Z) : sheet :=
  let dayDate := newMonday + i in
  let col := i * 2 + 4 in
  let colLetter := indexToColumnLetter (col - 1) in
  setValue weekly (at_ colLetter 4) (JNum (inject_Z (getDate dayDate))).

Definition setNewWeekDates (now : clock) (w : world) : world :=
  let newMonday := getMonday (today now) in
  let weekly := weeklySheet (wb w) in
  let weekly1 := setValue weekly (at_ "B" 4) (JStr (yearMonthOf newMonday)) in
  let weekly2 :=
    fold_left (setDayHeader newMonday) (zrange 0 CONFIG.WEEKLY.DAYS_IN_WEEK) weekly1 in
  withSession (withWeekly w weekly2) (set_lastMonday (st w) newMonday).

(** The anchor read back from B4 and D4: [None] when there is no date,
    [Some None] for an invalid [Date], [Some (Some d)] otherwise. *)
Definition sheetLastMondayOf (weekly : sheet) : option (option Z) :=
  let dateV := values weekly (at_ "B" 4) in
  let dateStr := if truthy dateV then toStr dateV else EmptyString in
  let firstDay := countIn (values weekly (at_ "D" 4)) in
  if String.eqb dateStr EmptyString then None
  else
    let parts := split " " dateStr in
    if (2 <=? List.length parts)%nat then
      match parseIntStr (nth 0 parts EmptyString), parseIntStr (nth 1 parts EmptyString) with
      | Some year, Some month1 => Some (Some (newDate year (month1 - 1) firstDay))
      | _, _ => Some None
      end
    else None.

Definition dayIndexOf (date : Z) : Z :=
  let dayOfWeek := getDay date in
  if dayOfWeek =? 0 then 6 else dayOfWeek - 1.

(** The tail of [initializeWeeklyOnOpen], after the new-week check. *)
Definition finishInitialization (now : clock) (w : world) : world :=
  let w1 := withSession w (set_dIndex (st w) (dayIndexOf (today now))) in
  let w2 := withSession w1 (set_lastMonday (st w1) (getMonday (today now))) in
  let w3 := highlightCurrentDay w2 in
  let w4 := highlightCurrentTimeRow now w3 in
  withSession w4 (set_lastInitDate (st w4) (formatDateYYYYMMDD (today now))).

Definition initializeWeeklyOnOpen (now : clock) (w : world) : world :=
  let w1 :=
    match sheetLastMondayOf (weeklySheet (wb w)) with
    | Some sheetLastMonday =>
        match sheetLastMonday with
        | Some anchor =>
            let diffDays := daysBetween anchor (today now) in
            if 7 <=? diffDays then
              let w_detected := emit w (ShowStatus NewWeekDetected) in
              let w_archived := archiveWeekAutomatically w_detected in
              let w_cleared := clearForNewWeek w_archived in
              let w_dated := setNewWeekDates now w_cleared in
              emit w_dated (ShowStatus WeekArchivedAndStarted)
            else w
        | None => w (* NaN >= 7 is false *)
        end
    | None => setNewWeekDates now w
    end in
  finishInitialization now w1.

End Scripts.
End Weekly.

(* ------------------------------------------------------------------ *)
(** ** habits.js *)

Module Habits.
Import Js Utils Value Grid.

Section Scripts.
Context `{Builtins}.

(** The cell of day column [d] (0-based within the 14-day window). *)
Definition dayCellOf (d row : Z) : cell :=
  at_ (indexToColumnLetter (columnLetterToIndex CONFIG.HABITS.DAY_START + d)) row.

(** The streak loop, [d] running down from [currentDayIndex - 1]; [n] bounds
    the iterations left and starts at [currentDayIndex]. *)
Fixpoint streakLoop (habits : sheet) (row : Z) (n : nat) (d : Z) (streak : Z) : Z :=
  match n with
  | O => streak
  | S n' =>
      if 0 <=? d then
        let prev := values habits (dayCellOf d row) in
        if truthy prev && negb (strictEq prev (JNum 0))
        then streakLoop habits row n' (d - 1) (streak + 1)
        else streak
      else streak
  end.

Definition streakOf (habits : sheet) (row currentDayIndex : Z) : Z :=
  streakLoop habits row (Z.to_nat currentDayIndex) (currentDayIndex - 1) 0.

Definition baseScoreOf (habits : sheet) (row : Z) : Q :=
  orQ (parseFloat (values habits (at_ "C" row))) 1.


Definition recordHabitDone (now : clock) (row : Z) (w : world) : world :=
  let habits := habitsSheet (wb w) in
  let currentDayIndex := habits_currentDayIndex (st w) in
  if currentDayIndex <? 0 then emit w (ShowStatus CurrentDateNotFound)
  else
    let habitName := values habits (at_ "A" row) in
    if negb (truthy habitName) then w
    else
      let streak := streakOf habits row currentDayIndex in
      let baseScore := baseScoreOf habits row in
      let weightedScore := (baseScore * CONFIG.HABITS.STREAK_MULTIPLIER ^ streak)%Q in
      let dayCell := dayCellOf currentDayIndex row in
      let currentCount := Weekly.countIn (values habits dayCell) in
      let habits1 := setValue habits dayCell (JNum (inject_Z (currentCount + 1))) in
      let totalCell := at_ "R" row in
      let total := Weekly.countIn (values habits1 totalCell) in
      let habits2 := setValue habits1 totalCell (JNum (inject_Z (total + 1))) in
      let habits3 := setFill habits2 (at_ "B" row) (Some CONFIG.COLORS.POSITIVE) in
      let w1 := Weekly.updateSummary now weightedScore 0 (withHabits w habits3) in
      emit w1 (ShowStatus (HabitDone habitName weightedScore streak)).

Definition handleHabitsSelection (now : clock) (column : string) (colIndex row : Z) (w : world)
  : world :=
  if String.eqb column "A" && (CONFIG.HABITS.DATA_START_ROW <=? row)
     && (row <=? habits_lastRow (st w))
  then recordHabitDone now row w
  else if String.eqb column "A" && (row =? 2) then emit w (ToggleSection "habits-help")
  else w.

End Scripts.
End Habits.

(* ------------------------------------------------------------------ *)
(** ** events.js *)

Module Events.
Import Js Utils Value Grid Weekly.

Section Scripts.
Context `{Builtins}.

Definition handleSelectionChanged (now : clock) (random : nat -> Q) (address : string)
    (w : world) : world :=
  match parseAddress address with
  | None => w
  | Some parsed =>
      match currentSheet (st w) with
      | None => w
      | Some name =>
          if String.eqb name CONFIG.HABITS_SHEET then
            Habits.handleHabitsSelection now (column parsed) (colIndex parsed) (row parsed) w
          else if String.eqb name CONFIG.WEEKLY_SHEET then
            handleWeeklySelection random (column parsed) (colIndex parsed) (row parsed) w
          else w
      end
  end.

(** [handleCellChanged].  [sheet.getRange(address)] is the cell
    whose letters and digits the regular expression found. *)
Definition handleCellChanged (now : clock) (address : string) (w : world) : world :=
  match currentSheet (st w) with
  | None => w
  | Some name =>
      if negb (String.eqb name CONFIG.WEEKLY_SHEET) then w
      else
        match parseAddress address with
        | None => w
        | Some parsed =>
            if CONFIG.includes CONFIG.WEEKLY.SCORE_COLUMNS (colIndex parsed)
               && (CONFIG.WEEKLY.DATA_START_ROW <=? row parsed)
               && (row parsed <=? CONFIG.WEEKLY.lastTimeLine)
            then
              let scoreCell := at_ (column parsed) (row parsed) in
              match parseFloat (values (weeklySheet (wb w)) scoreCell) with
              | None => w
              | Some scoreValue =>
                  processWeeklyScoreChange now (row parsed) (colIndex parsed) scoreValue w
              end
            else w
        end
  end.

End Scripts.
End Events.

(* ------------------------------------------------------------------ *)
(** ** Sample workbooks *)

Module Examples.
Import Js Utils Value Grid.

(** A host whose number grammar knows plain digit runs and integers only. *)
Definition plainBuiltins : Builtins :=
  {| parseFloat_text := fun _ => None;
     parseInt_text := fun _ => None;
     Number_toString := fun _ => "NaN" |}.

Definition emptySheet : sheet :=
  {| values := fun _ => JStr ""; fill := fun _ => None |}.

Definition sheetOf (l : list (cell * jsval)) : sheet :=
  fold_left (fun sh cv => setValue sh (fst cv) (snd cv)) l emptySheet.

Definition session0 : session :=
  {| currentSheet := Some "Weekly";
     habits_currentDayIndex := 2;
     habits_lastRow := 6;
     weekly_dIndex := 1;
     weekly_lastMonday := Some (newDate 2024 11 16);
     weekly_taskl := 5;
     weekly_summaryL := 1;
     weekly_lastInitDate := None |}.

Definition worldOf (weekly habits tasks summary : sheet) : world :=
  {| wb := {| weeklySheet := weekly; habitsSheet := habits;
              tasksSheet := Some tasks; summarySheet := Some summary |};
     st := session0;
     out := [] |}.

(** Tuesday 2024-12-17, 10:00:00. *)
Definition tenOClock : clock :=
  {| today := newDate 2024 11 17; hours := 10; minutes := 0; seconds := 0 |}.

(** Two slots with the same time, 9:00, in rows 5 and 6. *)
Definition tieWeekly : sheet := sheetOf [((2, 5), JNum 9); ((2, 6), JNum 9)].

Definition tieWorld : world := worldOf tieWeekly emptySheet emptySheet emptySheet.

(** Tuesday's task column is E.  Row 5 already has a task, row 6 has a time
    but no task, row 7 has neither. *)
Definition pickWeekly : sheet :=
  sheetOf [((2, 5), JNum 9); ((5, 5), JStr "Keep"); ((2, 6), JNum 10)].

Definition pickTasks : sheet := sheetOf [((1, 4), JStr "Deep Work"); ((2, 4), JNum 2)].

Definition pickWorld : world := worldOf pickWeekly emptySheet pickTasks emptySheet.

(** "Deep Work" is planned on Monday at row 5 and has just been given the
    score 0.6; the ledger lists it in row 4 with weight 2. *)
Definition deepWeekly : sheet :=
  sheetOf [((2, 5), JNum 9); ((3, 5), JStr "Deep Work"); ((4, 5), JNum (6 # 10))].

Definition deepTasks : sheet :=
  sheetOf [((1, 4), JStr "Deep Work"); ((2, 4), JNum 2); ((1, 5), JStr "Read")].

Definition deepWorld : world := worldOf deepWeekly emptySheet deepTasks emptySheet.




(** A time column holding the raw hour decimal 15.5 in row 5. *)
Definition hourWeekly : sheet := sheetOf [((2, 5), JNum (31 # 2))].

(** Day index 2: "Run" (base score 5) was done on both earlier days. *)
Definition runHabits : sheet :=
  sheetOf [((1, 4), JStr "Run"); ((3, 4), JNum 5); ((4, 4), JNum 1); ((5, 4), JNum 1)].

Definition runWorld : world := worldOf emptySheet runHabits emptySheet emptySheet.







(** The week of Monday 2024-12-09, opened on Tuesday 2024-12-17: "Deep
    Work" in C5 has the score 1, "Read" in E6 has no score yet. *)
Definition staleWeekly : sheet :=
  sheetOf [((2, 4), JStr "2024 12"); ((4, 4), JNum 9); ((6, 4), JNum 10);
           ((2, 5), JNum 9); ((3, 5), JStr "Deep Work"); ((4, 5), JNum 1);
           ((2, 6), JNum 10); ((5, 6), JStr "Read"); ((4, 38), JNum 2)].

Definition staleWorld : world := worldOf staleWeekly emptySheet deepTasks emptySheet.


End Examples.

(* ------------------------------------------------------------------ *)
(** ** Notions used in the statements *)

Module Notions.
Import Js Utils Value Grid Weekly.

(** Row [k] of the loaded time column [vals] holds a time [t], in hours,
    that is not after [limit]. *)
Definition qualifies (limit : Q) (vals : list jsval) (k : nat) (t : Q) : Prop :=
  exists v, nth_error vals k = Some v /\ timeValueOf v = Some t /\ (t <= limit)%Q.

Section WithBuiltins.
Context `{Builtins}.




(** The score column of the task/score pair a column belongs to: task
    columns are odd, their score column is the next one. *)
Definition scoreColumnOf (col : Z) : Z := if Z.even col then col else col + 1.

Definition scoreCellOf (c : cell) : cell := (scoreColumnOf (fst c), snd c).

(** The rows 5..37 that the new-week loop visits. *)
Definition visitedRow (r : Z) : bool := (5 <=? r) && (r <? 38).

(** The task/score cells C5:P37 that the new-week loop visits. *)
Definition inPairs (c : cell) : bool :=
  (3 <=? fst c) && (fst c <=? 16) && (5 <=? snd c) && (snd c <? 38).

(** A cell of the Weekly sheet after [clearForNewWeek]: the totals row
    C38:P38 is emptied, and so is every task/score pair whose score cell
    held a value; a task without a score stays. *)
Definition clearedValue (weekly : sheet) (c : cell) : jsval :=
  if inBox c 3 38 16 38 then JStr ""
  else if inPairs c && negb (isBlank (values weekly (scoreCellOf c))) then JStr ""
  else values weekly c.

(** What [archiveWeekAutomatically] hands to the browser for a grid: one
    CSV file when some row has a time, nothing otherwise. *)
Definition archiveEffects (weekly : sheet) : list effect :=
  if negb (String.eqb (csvContentOf weekly) EmptyString)
     && (2 <? List.length (split newline (csvContentOf weekly)))%nat
  then [DownloadCSV (csvContentOf weekly) ("Weekly_" ++ weekLabelOf weekly ++ ".csv")]
  else [].




End WithBuiltins.

End Notions.

(* ------------------------------------------------------------------ *)
(** ** Task-pane commands and sheet activation *)

Module Commands.
Import Js Utils Value Grid Weekly Habits.

(** [CONFIG.HABITS.DAYS_COUNT] *)
Definition DAYS_COUNT : Z := 14.

(** Status lines of the commands below, one constructor per [showStatus]
    call site. *)
Inductive notice :=
| SwitchedTo (name : option string)
| StartingNewWeek
| NewWeekStarted
| DatesRefreshed (startDate : Z).

(** What a command lets the user see, in order: the effects of the scripts
    it runs, its own status lines, and [updateUI()]. *)
Inductive shown :=
| Script (e : effect)
| Notice (n : notice)
| UpdateUI.

(** The effects a run from [w] to [w'] has added to the output. *)
Definition news (w w' : world) : list shown :=
  map Script (skipn (List.length (out w)) (out w')).

Definition set_currentSheet (s : session) (name : string) : session :=
  {| currentSheet := Some name;
     habits_currentDayIndex := habits_currentDayIndex s;
     habits_lastRow := habits_lastRow s;
     weekly_dIndex := weekly_dIndex s;
     weekly_lastMonday := weekly_lastMonday s;
     weekly_taskl := weekly_taskl s;
     weekly_summaryL := weekly_summaryL s;
     weekly_lastInitDate := weekly_lastInitDate s |}.

Definition set_currentDayIndex (s : session) (i : Z) : session :=
  {| currentSheet := currentSheet s;
     habits_currentDayIndex := i;
     habits_lastRow := habits_lastRow s;
     weekly_dIndex := weekly_dIndex s;
     weekly_lastMonday := weekly_lastMonday s;
     weekly_taskl := weekly_taskl s;
     weekly_summaryL := weekly_summaryL s;
     weekly_lastInitDate := weekly_lastInitDate s |}.

Definition set_lastRow (s : session) (n : Z) : session :=
  {| currentSheet := currentSheet s;
     habits_currentDayIndex := habits_currentDayIndex s;
     habits_lastRow := n;
     weekly_dIndex := weekly_dIndex s;
     weekly_lastMonday := weekly_lastMonday s;
     weekly_taskl := weekly_taskl s;
     weekly_summaryL := weekly_summaryL s;
     weekly_lastInitDate := weekly_lastInitDate s |}.

(** [range.values[0]] of a one-row range, columns [c1] to [c2]. *)
Definition rowValues (sh : sheet) (row : Z) (c1 c2 : Z) : list jsval :=
  map (fun c => values sh (c, row)) (rangeRows c1 c2).

Section Scripts.
Context `{Builtins}.

(** weekly.js, [initializeWeeklySheet]. *)
Definition initializeWeeklySheet (now : clock) (w : world) : world :=
  let dayOfWeek := getDay (today now) in
  let w1 :=
    withSession w (set_dIndex (st w) (if dayOfWeek =? 0 then 6 else dayOfWeek - 1)) in
  withSession w1 (set_lastMonday (st w1) (getMonday (today now))).

(** habits.js, the loop of [findHabitsDayIndex]:
    [parseInt(values[i]) === todayDay]. *)
Fixpoint findDayLoop (vals : list jsval) (i todayDay : Z) : Z :=
  match vals with
  | [] => -1
  | v :: t =>
      if match parseInt v with
         | Some z => z =? todayDay
         | None => false
         end
      then i
      else findDayLoop t (i + 1) todayDay
  end.

Definition findHabitsDayIndex (now : clock) (habits : sheet) : Z :=
  findDayLoop (rowValues habits 3 (hostColumn "D") (hostColumn "Q")) 0 (getDate (today now)).

(** [initializeHabitsSheet]; [rowCount] is that of the sheet's used
    range. *)
Definition initializeHabitsSheet (now : clock) (rowCount : Z) (w : world) : world :=
  let w1 :=
    withSession w (set_lastRow (st w) (Z.max rowCount CONFIG.HABITS.DATA_START_ROW)) in
  withSession w1
    (set_currentDayIndex (st w1) (findHabitsDayIndex now (habitsSheet (wb w1)))).

(** One cell of the [days] array written to D3:Q3. *)
Definition setHabitsDay (startDate : Z) (habits : sheet) (i : Z) : sheet :=
  setValue habits (hostColumn "D" + i, 3) (JNum (inject_Z (getDate (startDate + i)))).

Definition refreshHabitsDates (now : clock) (w : world) : world * list shown :=
  let sheet := habitsSheet (wb w) in
  let startDate := getMonday (today now) in
  let sheet1 := setValue sheet (at_ "B" 3) (JStr (yearMonthOf startDate)) in
  let sheet2 :=
    fold_left (setHabitsDay startDate) (zrange 0 (Z.to_nat DAYS_COUNT)) sheet1 in
  let sheet3 :=
    if CONFIG.HABITS.DATA_START_ROW <=? habits_lastRow (st w)
    then clearContentsBox sheet2 (hostColumn "D") CONFIG.HABITS.DATA_START_ROW
           (hostColumn "Q") (habits_lastRow (st w))
    else sheet2 in
  let w1 := withHabits w sheet3 in
  let w2 := withSession w1 (set_currentDayIndex (st w1) (findHabitsDayIndex now sheet3)) in
  (w2, [Notice (DatesRefreshed startDate)]).

(** weekly.js, [startNewWeekFromUI]. *)
Definition startNewWeekFromUI (now : clock) (w : world) : world * list shown :=
  let w1 := clearForNewWeek w in
  let w2 := setNewWeekDates now w1 in
  let w3 := highlightCurrentDay w2 in
  let w4 := highlightCurrentTimeRow now w3 in
  (w4, ([Notice StartingNewWeek] ++ news w w4 ++ [Notice NewWeekStarted])%list).

(** events.js, [handleSheetActivated], the new-day check made when the
    Weekly sheet is activated: [lastInit !== today]. *)
Definition activateWeekly (now : clock) (w : world) : world :=
  let today := formatDateYYYYMMDD (today now) in
  let lastInit := weekly_lastInitDate (st w) in
  if match lastInit with
     | Some lastInit => negb (String.eqb lastInit today)
     | None => true
     end
  then initializeWeeklyOnOpen now w
  else highlightCurrentTimeRow now w.

(** [handleSheetActivated]; [newSheetName] is the name of the sheet the
    host reports as active.  Which sheet's events reach the handlers is the
    host's business; the handlers route on [state.currentSheet]. *)
Definition handleSheetActivated (now : clock) (newSheetName : string) (w : world)
  : world * list shown :=
  let w1 :=
    if String.eqb newSheetName CONFIG.WEEKLY_SHEET then activateWeekly now w else w in
  let w2 := withSession w1 (set_currentSheet (st w1) newSheetName) in
  (w2, (news w w2 ++ [UpdateUI; Notice (SwitchedTo (currentSheet (st w2)))])%list).

End Scripts.
End Commands.

(* ------------------------------------------------------------------ *)
(** ** Further notions *)

Module MoreNotions.
Import Js Utils Value Grid Weekly.

(** 1 + 26 + ... + 26^(n-1): how many column names are shorter than [n]
    letters, plus one. *)
Fixpoint repunit26 (n : nat) : Z :=
  match n with
  | O => 0
  | S k => 26 * repunit26 k + 1
  end.

(** The rows 5..36 of the Weekly sheet with a time in column B and no task
    in column [taskCol]: the slots [randomPick] is to fill. *)
Definition emptySlots (weekly : sheet) (taskCol : Z) : list Z :=
  filter
    (fun r => negb (isBlank (values weekly (2, r))) && isBlank (values weekly (taskCol, r)))
    (zrange 5 32).

(** How often a character occurs in a string. *)
Fixpoint countChar (c : ascii) (s : string) : nat :=
  match s with
  | EmptyString => O
  | String d t => (if Ascii.eqb c d then 1 else 0) + countChar c t
  end.

(** Everything but the Weekly sheet and the Weekly part of the session is
    as before. *)
Definition keptOutsideWeekly (w w' : world) : Prop :=
  habitsSheet (wb w') = habitsSheet (wb w)
  /\ tasksSheet (wb w') = tasksSheet (wb w)
  /\ summarySheet (wb w') = summarySheet (wb w)
  /\ currentSheet (st w') = currentSheet (st w)
  /\ habits_currentDayIndex (st w') = habits_currentDayIndex (st w)
  /\ habits_lastRow (st w') = habits_lastRow (st w)
  /\ weekly_taskl (st w') = weekly_taskl (st w)
  /\ weekly_summaryL (st w') = weekly_summaryL (st w).

(** The steps of [civilFromDays], named: the day of the 400-year era, the
    year of the era, the day of the year (counted from 1 March) and the day
    of the month; [yearStart y] is the day of the era on which year [y] of
    the era begins. *)
Definition doeOf (z : Z) : Z := (z + 719468) mod 146097.
Definition yoeOf (doe : Z) : Z := (doe - doe / 1460 + doe / 36524 - doe / 146096) / 365.
Definition doyOf (doe : Z) : Z := doe - (365 * yoeOf doe + yoeOf doe / 4 - yoeOf doe / 100).
Definition domOf (doy : Z) : Z := doy - (153 * ((5 * doy + 2) / 153) + 2) / 5 + 1.
Definition yearStart (y : Z) : Z := 365 * y + y / 4 - y / 100.

End MoreNotions.

(* ------------------------------------------------------------------ *)
(** ** Further sample data *)

Module MoreExamples.
Import Js Utils Value Grid Examples.

(** "Nap" is planned on Monday at row 5 with the score 2; no ledger below
    lists it. *)
Definition napWeekly : sheet :=
  sheetOf [((2, 5), JNum 9); ((3, 5), JStr "Nap"); ((4, 5), JNum 2)].

(** A ledger with two "others" rows, of weights 3 and 2. *)
Definition othersTasks : sheet :=
  sheetOf [((1, 4), JStr "others"); ((2, 4), JNum 3);
           ((1, 5), JStr "others"); ((2, 5), JNum 2)].

Definition othersWorld : world := worldOf napWeekly emptySheet othersTasks emptySheet.

(** The ledger of [deepTasks] has no "others" row. *)
Definition napWorld : world := worldOf napWeekly emptySheet deepTasks emptySheet.

(** The same world while the Habits sheet is the current one. *)
Definition onHabits (w : world) : world :=
  withSession w
    {| currentSheet := Some "Habits";
       habits_currentDayIndex := habits_currentDayIndex (st w);
       habits_lastRow := habits_lastRow (st w);
       weekly_dIndex := weekly_dIndex (st w);
       weekly_lastMonday := weekly_lastMonday (st w);
       weekly_taskl := weekly_taskl (st w);
       weekly_summaryL := weekly_summaryL (st w);
       weekly_lastInitDate := weekly_lastInitDate (st w) |}.

(** Tuesday 2024-12-24, 10:00:00: a week after [tenOClock]. *)
Definition nextTuesday : clock :=
  {| today := newDate 2024 11 24; hours := 10; minutes := 0; seconds := 0 |}.

End MoreExamples.

(* ------------------------------------------------------------------ *)
(** * Properties *)

(** ** Cells and grids *)

Module GridFacts.
Import Js Utils Value Grid.

Lemma cell_eqb_eq (a b : cell) : cell_eqb a b = true <-> a = b.
Proof.
  destruct a as [a1 a2], b as [b1 b2]; unfold cell_eqb; simpl.
  rewrite andb_true_iff, !Z.eqb_eq. split.
  - intros [-> ->]; reflexivity.
  - intros E; inversion E; auto.
Qed.

Lemma cell_eqb_refl (a : cell) : cell_eqb a a = true.
Proof. apply cell_eqb_eq; reflexivity. Qed.

Lemma cell_eqb_neq (a b : cell) : a <> b -> cell_eqb a b = false.
Proof.
  intros N. destruct (cell_eqb a b) eqn:E; [|reflexivity].
  apply cell_eqb_eq in E. contradiction.
Qed.

Lemma values_setValue_same sh c v : values (setValue sh c v) c = v.
Proof. simpl. now rewrite cell_eqb_refl. Qed.

Lemma values_setValue_other sh c v c' : c' <> c -> values (setValue sh c v) c' = values sh c'.
Proof. intros N; simpl. now rewrite cell_eqb_neq. Qed.

Lemma values_setFill sh c col c' : values (setFill sh c col) c' = values sh c'.
Proof. reflexivity. Qed.

Lemma fill_setFill_same sh c col : fill (setFill sh c col) c = col.
Proof. simpl. now rewrite cell_eqb_refl. Qed.

Lemma fill_setFill_other sh c col c' : c' <> c -> fill (setFill sh c col) c' = fill sh c'.
Proof. intros N; simpl. now rewrite cell_eqb_neq. Qed.

Lemma in_zrange n : forall a x, In x (zrange a n) <-> a <= x < a + Z.of_nat n.
Proof.
  induction n as [|n IH]; intros a x; simpl zrange.
  - simpl. lia.
  - simpl In. rewrite IH. lia.
Qed.

End GridFacts.

(* ------------------------------------------------------------------ *)
(** ** Column letters *)

Module ColumnFacts.
Import Js Utils Value Grid.

Lemma hostColumn_from_acc letters :
  forall acc,
    hostColumn_from acc letters
    = acc * 26 ^ Z.of_nat (String.length letters) + hostColumn_from 0 letters.
Proof.
  induction letters as [|c t IH]; intros acc.
  - simpl. lia.
  - cbn [hostColumn_from String.length].
    rewrite IH. rewrite (IH (0 * 26 + (code c - 64))).
    rewrite Nat2Z.inj_succ, Z.pow_succ_r by lia. ring.
Qed.

Lemma hostColumn_String c t :
  hostColumn (String c t) = (code c - 64) * 26 ^ Z.of_nat (String.length t) + hostColumn t.
Proof.
  unfold hostColumn. cbn [hostColumn_from]. rewrite hostColumn_from_acc.
  f_equal.
Qed.

Lemma code_fromCharCode z : 0 <= z < 256 -> code (fromCharCode z) = z.
Proof.
  intros Hz. unfold code, fromCharCode.
  rewrite nat_ascii_embedding by lia. lia.
Qed.

Lemma indexToColumnLetter_loop_neg fuel index letter :
  index < 0 -> indexToColumnLetter_loop fuel index letter = letter.
Proof.
  intros Hneg. destruct fuel; simpl; [reflexivity|].
  destruct (0 <=? index) eqn:E; [apply Z.leb_le in E; lia | reflexivity].
Qed.

(** The host reads the letters written by the loop as column [index + 1],
    in front of whatever was accumulated. *)
Lemma hostColumn_loop fuel :
  forall index letter,
    0 <= index < Z.of_nat fuel ->
    hostColumn (indexToColumnLetter_loop fuel index letter)
    = (index + 1) * 26 ^ Z.of_nat (String.length letter) + hostColumn letter.
Proof.
  induction fuel as [|f IH]; intros index letter Hi; [lia|].
  cbn [indexToColumnLetter_loop].
  destruct (0 <=? index) eqn:E; [|apply Z.leb_gt in E; lia].
  rewrite Z.rem_mod_nonneg by lia.
  pose proof (Z.mod_pos_bound index 26 ltac:(lia)) as Hm.
  pose proof (Z.div_mod index 26 ltac:(lia)) as Hd.
  set (c := fromCharCode (index mod 26 + code "A")).
  assert (Hc : code c - 64 = index mod 26 + 1).
  { unfold c. rewrite code_fromCharCode; change (code "A") with 65; lia. }
  destruct (Z_lt_ge_dec index 26) as [Hlt|Hge].
  - rewrite indexToColumnLetter_loop_neg.
    + rewrite hostColumn_String, Hc.
      rewrite Z.mod_small by lia. reflexivity.
    + assert (index / 26 = 0) by (apply Z.div_small; lia). lia.
  - assert (1 <= index / 26) by (apply Z.div_le_lower_bound; lia).
    assert (index / 26 <= index) by (apply Z.div_le_upper_bound; lia).
    rewrite IH by lia.
    rewrite hostColumn_String, Hc.
    cbn [String.length]. rewrite Nat2Z.inj_succ, Z.pow_succ_r by lia.
    set (p := 26 ^ Z.of_nat (String.length letter)).
    replace (index / 26 - 1 + 1) with (index / 26) by lia.
    rewrite Hd at 3. ring.
Qed.

(** [indexToColumnLetter] is a right inverse of the host's reading of
    column letters. *)
Lemma hostColumn_indexToColumnLetter index :
  0 <= index -> hostColumn (indexToColumnLetter index) = index + 1.
Proof.
  intros Hi. unfold indexToColumnLetter.
  rewrite hostColumn_loop by lia. cbn. lia.
Qed.

(** The loop leaves through its guard: more fuel changes nothing. *)
Lemma indexToColumnLetter_fuel fuel :
  forall index letter,
    index < Z.of_nat fuel ->
    indexToColumnLetter_loop (S fuel) index letter
    = indexToColumnLetter_loop fuel index letter.
Proof.
  induction fuel as [|f IH]; intros index letter Hi.
  - rewrite !indexToColumnLetter_loop_neg by lia. reflexivity.
  - destruct (Z_lt_ge_dec index 0) as [Hneg|Hpos].
    + rewrite !indexToColumnLetter_loop_neg by lia. reflexivity.
    + change (indexToColumnLetter_loop (S (S f)) index letter)
        with (if 0 <=? index
              then indexToColumnLetter_loop (S f) (index / 26 - 1)
                     (String (fromCharCode (Z.rem index 26 + code "A")) letter)
              else letter).
      cbn [indexToColumnLetter_loop].
      destruct (0 <=? index); [|reflexivity].
      apply IH.
      assert (index / 26 <= index) by (apply Z.div_le_upper_bound; lia). lia.
Qed.

(** Within one letter the two conversions do invert each other. *)
Lemma columnLetterToIndex_single index :
  0 <= index < 26 -> columnLetterToIndex (indexToColumnLetter index) = index.
Proof.
  intros Hi.
  assert (Hcases : In index (zrange 0 26)) by (apply GridFacts.in_zrange; lia).
  cbn in Hcases.
  repeat (destruct Hcases as [<-|Hcases]; [reflexivity|]).
  contradiction.
Qed.

End ColumnFacts.

(* ------------------------------------------------------------------ *)
(** ** utils.js: addresses *)

Module UtilsSpec.
Import Js Utils Value Grid.

(** C1.  The round trip between column letters and indices is claimed for
    every valid column string and every non-negative index.  The code breaks
    it as soon as a second letter appears: [columnLetterToIndex] reads "AA"
    as plain base 26 with A = 0 and returns 0, so "AA" comes back as "A",
    and index 26, written "AA" by [indexToColumnLetter], is read back as 0. *)
Theorem columnLetter_roundtrip_breaks_at_AA :
  validColumn "AA" = true
  /\ columnLetterToIndex "AA" = 0
  /\ indexToColumnLetter (columnLetterToIndex "AA") = "A"
  /\ indexToColumnLetter 26 = "AA"
  /\ columnLetterToIndex (indexToColumnLetter 26) = 0.
Proof. repeat split; reflexivity. Qed.



End UtilsSpec.

(* ------------------------------------------------------------------ *)
(** ** weekly.js: the current-time row *)

Module TimeRowFacts.
Import Js Utils Value Grid Weekly Notions.

Lemma Qgtb_lt a b : Qgtb a b = true <-> (b < a)%Q.
Proof.
  unfold Qgtb. rewrite negb_true_iff. split.
  - intros E. apply Qnot_le_lt. intros L. apply Qle_bool_iff in L. congruence.
  - intros L. destruct (Qle_bool a b) eqn:E; [|reflexivity].
    apply Qle_bool_iff in E. exfalso. exact (Qlt_not_le _ _ L E).
Qed.

Lemma Qgtb_le a b : Qgtb a b = false <-> (a <= b)%Q.
Proof.
  unfold Qgtb. rewrite negb_false_iff. apply Qle_bool_iff.
Qed.

Lemma Qltb_lt a b : Qltb a b = true <-> (a < b)%Q.
Proof. apply Qgtb_lt. Qed.

Lemma span_all p s : allChars p (fst (span p s)) = true.
Proof.
  induction s as [|c t IH]; simpl; [reflexivity|].
  destruct (p c) eqn:E.
  - destruct (span p t) as [a b]. simpl in *. now rewrite E.
  - reflexivity.
Qed.

Lemma digitsValue_nonneg s :
  forall acc, allChars isDigit s = true -> 0 <= acc -> 0 <= digitsValue acc s.
Proof.
  induction s as [|c t IH]; intros acc Hall Hacc; simpl in *; [assumption|].
  apply andb_true_iff in Hall as [Hc Ht].
  apply IH; [assumption|].
  unfold isDigit in Hc. apply andb_true_iff in Hc as [Hlo _].
  apply Z.leb_le in Hlo. lia.
Qed.



(** The scan keeps the first row that reaches the largest qualifying time. *)
Lemma bestTimeLoop_spec (now : Q) vals :
  forall i bi bt,
    let r := bestTimeLoop vals i now bi bt in
    let limit := (now + (1 # 10))%Q in
    (fst r = bi /\ snd r = bt
     /\ forall k t, qualifies limit vals k t -> (t <= bt)%Q)
    \/ (exists k,
          fst r = i + Z.of_nat k
          /\ qualifies limit vals k (snd r)
          /\ (bt < snd r)%Q
          /\ forall k' t',
               qualifies limit vals k' t' ->
               (t' <= snd r)%Q /\ (t' == snd r -> (k <= k')%nat)).
Proof.
  induction vals as [|v vals IH]; intros i bi bt; cbn zeta.
  - left. repeat split; try reflexivity.
    intros k t (v & Hn & _). destruct k; discriminate Hn.
  - cbn [bestTimeLoop].
    destruct (timeValueOf v) as [tv|] eqn:Etv.
    + destruct (Qle_bool tv (now + (1 # 10)) && Qgtb tv bt) eqn:Econd.
      * apply andb_true_iff in Econd as [Hq Hgt].
        apply Qle_bool_iff in Hq. apply Qgtb_lt in Hgt.
        specialize (IH (i + 1) i tv). cbn zeta in IH.
        destruct IH as [(Hi & Ht & Hrest) | (k & Hi & Hqual & Hlt & Hrest)].
        -- right. exists 0%nat. rewrite Hi, Ht.
           split; [simpl; lia|]. split; [exists v; auto|]. split; [assumption|].
           intros k' t' (v' & Hn & Hv' & Hq').
           destruct k' as [|k'].
           ++ injection Hn as <-. rewrite Etv in Hv'. injection Hv' as <-.
              split; [apply Qle_refl | intros; lia].
           ++ split; [|intros; lia]. apply (Hrest k'). exists v'; auto.
        -- right. exists (S k).
           split; [rewrite Hi; lia|].
           split; [destruct Hqual as (v' & ? & ? & ?); exists v'; auto|].
           split; [eapply Qlt_trans; eassumption|].
           intros k' t' (v' & Hn & Hv' & Hq').
           destruct k' as [|k'].
           ++ injection Hn as <-. rewrite Etv in Hv'. injection Hv' as <-.
              split; [apply Qlt_le_weak; assumption|].
              intros Heq. exfalso. exact (Qlt_not_eq _ _ Hlt Heq).
           ++ destruct (Hrest k' t') as [Hle Htie]; [exists v'; auto|].
              split; [assumption|]. intros Heq. specialize (Htie Heq). lia.
      * assert (Hnot : (tv <= now + (1 # 10))%Q -> (tv <= bt)%Q).
        { intros Hq. apply Qle_bool_iff in Hq. rewrite Hq in Econd.
          simpl in Econd. now apply Qgtb_le. }
        specialize (IH (i + 1) bi bt). cbn zeta in IH.
        destruct IH as [(Hi & Ht & Hrest) | (k & Hi & Hqual & Hlt & Hrest)].
        -- left. repeat split; try assumption.
           intros k' t' (v' & Hn & Hv' & Hq').
           destruct k' as [|k'].
           ++ injection Hn as <-. rewrite Etv in Hv'. injection Hv' as <-. auto.
           ++ apply (Hrest k'). exists v'; auto.
        -- right. exists (S k).
           split; [rewrite Hi; lia|].
           split; [destruct Hqual as (v' & ? & ? & ?); exists v'; auto|].
           split; [assumption|].
           intros k' t' (v' & Hn & Hv' & Hq').
           destruct k' as [|k'].
           ++ injection Hn as <-. rewrite Etv in Hv'. injection Hv' as <-.
              assert (Hlt' : (tv < snd (bestTimeLoop vals (i + 1) now bi bt))%Q)
                by (eapply Qle_lt_trans; [apply Hnot; assumption | assumption]).
              split; [apply Qlt_le_weak; assumption|].
              intros Heq. exfalso. exact (Qlt_not_eq _ _ Hlt' Heq).
           ++ destruct (Hrest k' t') as [Hle Htie]; [exists v'; auto|].
              split; [assumption|]. intros Heq. specialize (Htie Heq). lia.
    + specialize (IH (i + 1) bi bt). cbn zeta in IH.
      destruct IH as [(Hi & Ht & Hrest) | (k & Hi & Hqual & Hlt & Hrest)].
      * left. repeat split; try assumption.
        intros k' t' (v' & Hn & Hv' & Hq').
        destruct k' as [|k'].
        -- injection Hn as <-. rewrite Etv in Hv'. discriminate.
        -- apply (Hrest k'). exists v'; auto.
      * right. exists (S k).
        split; [rewrite Hi; lia|].
        split; [destruct Hqual as (v' & ? & ? & ?); exists v'; auto|].
        split; [assumption|].
        intros k' t' (v' & Hn & Hv' & Hq').
        destruct k' as [|k'].
        -- injection Hn as <-. rewrite Etv in Hv'. discriminate.
        -- destruct (Hrest k' t') as [Hle Htie]; [exists v'; auto|].
           split; [assumption|]. intros Heq. specialize (Htie Heq). lia.
Qed.

End TimeRowFacts.

Module TimeRowSpec.
Import Js Utils Value Grid Weekly Notions Examples.




End TimeRowSpec.

(* ------------------------------------------------------------------ *)
(** ** weekly.js: random fill *)

Module RandomPickFacts.
Import Js Utils Value Grid Weekly.

(** The loop writes only into rows of the task column that were loaded with
    a time and without a task, and what it writes comes from [tasks]. *)
Lemma randomPickLoop_frame random tasks tl (ft fk : Z -> jsval) n :
  forall a k sh filled c,
    let r :=
      randomPickLoop random tasks tl (map ft (zrange a n)) (map fk (zrange a n))
        (a - 5) k sh filled in
    let sh' := fst (fst r) in
    fill sh' = fill sh
    /\ (values sh' c = values sh c
        \/ (fst c = hostColumn tl
            /\ a <= snd c < a + Z.of_nat n
            /\ isBlank (ft (snd c)) = false
            /\ isBlank (fk (snd c)) = true
            /\ In (values sh' c) tasks)).
Proof.
  induction n as [|n IH]; intros a k sh filled c; cbn zeta.
  - cbn. auto.
  - cbn [zrange map randomPickLoop].
    destruct (negb (isBlank (ft a)) && negb (negb (isBlank (fk a)))) eqn:Econd.
    + apply andb_true_iff in Econd as [Ht Hk].
      apply negb_true_iff in Ht. rewrite negb_involutive in Hk.
      destruct (Qfloor _ <? 0); [cbn; auto|].
      destruct (nth_error tasks _) as [randomTask|] eqn:Enth; [|cbn; auto].
      apply nth_error_In in Enth.
      change CONFIG.WEEKLY.DATA_START_ROW with 5.
      replace (5 + (a - 5)) with a by lia.
      replace (a - 5 + 1) with (a + 1 - 5) by lia.
      specialize (IH (a + 1) (S k) (setValue sh (at_ tl a) randomTask) (filled + 1) c).
      cbn zeta in IH. destruct IH as [Hfill Hval].
      split; [exact Hfill|].
      destruct Hval as [Hsame | (Hc & Hr & Hft & Hfk & Hin)].
      * rewrite Hsame.
        destruct (cell_eqb c (at_ tl a)) eqn:Ec.
        -- apply GridFacts.cell_eqb_eq in Ec. subst c.
           right. rewrite GridFacts.values_setValue_same. cbn [at_ fst snd].
           repeat split; try assumption; lia.
        -- left. cbn. now rewrite Ec.
      * right. repeat split; try assumption; lia.
    + replace (a - 5 + 1) with (a + 1 - 5) by lia.
      specialize (IH (a + 1) k sh filled c).
      cbn zeta in IH. destruct IH as [Hfill Hval].
      split; [exact Hfill|].
      destruct Hval as [Hsame | (Hc & Hr & Hft & Hfk & Hin)]; [left; assumption|].
      right. repeat split; try assumption; lia.
Qed.

End RandomPickFacts.

Module RandomPickSpec.
Import Js Utils Value Grid Weekly Examples.

(** C7.  [randomPick] changes a cell of the Weekly sheet only if it lies in
    the active weekday's task column, in rows 5..36, in a row whose time
    cell is non-empty and whose task cell was empty, and what it writes
    there is a non-empty name from column A of the Tasks sheet; so every
    cell that already held a non-empty value keeps it.  Nothing else in the
    workbook changes. *)
Theorem randomPick_only_fills_empty_slots :
  forall (random : nat -> Q) (w : world) (c : cell),
    let weekly := weeklySheet (wb w) in
    let w' := randomPick random w in
    let weekly' := weeklySheet (wb w') in
    let taskCol := hostColumn (dayTaskColumn (weekly_dIndex (st w))) in
    (values weekly' c = values weekly c
     \/ (fst c = taskCol
         /\ 5 <= snd c <= 36
         /\ isBlank (values weekly (2, snd c)) = false
         /\ isBlank (values weekly c) = true
         /\ truthy (values weekly' c) = true
         /\ exists tasks r,
              tasksSheet (wb w) = Some tasks /\ values weekly' c = values tasks (1, r)))
    /\ (isBlank (values weekly c) = false -> values weekly' c = values weekly c)
    /\ (0 <= weekly_dIndex (st w) -> taskCol = weekly_dIndex (st w) * 2 + 3)
    /\ fill weekly' = fill weekly
    /\ habitsSheet (wb w') = habitsSheet (wb w)
    /\ tasksSheet (wb w') = tasksSheet (wb w)
    /\ summarySheet (wb w') = summarySheet (wb w).
Proof.
  intros random w c weekly w' weekly' taskCol.
  assert (Hcol : 0 <= weekly_dIndex (st w) -> taskCol = weekly_dIndex (st w) * 2 + 3).
  { intros Hd. unfold taskCol, dayTaskColumn.
    rewrite ColumnFacts.hostColumn_indexToColumnLetter by lia. lia. }
  assert (Hmain :
    (values weekly' c = values weekly c
     \/ (fst c = taskCol
         /\ 5 <= snd c <= 36
         /\ isBlank (values weekly (2, snd c)) = false
         /\ isBlank (values weekly c) = true
         /\ truthy (values weekly' c) = true
         /\ exists tasks r,
              tasksSheet (wb w) = Some tasks /\ values weekly' c = values tasks (1, r)))
    /\ fill weekly' = fill weekly
    /\ habitsSheet (wb w') = habitsSheet (wb w)
    /\ tasksSheet (wb w') = tasksSheet (wb w)
    /\ summarySheet (wb w') = summarySheet (wb w)).
  { unfold weekly', w', randomPick.
    destruct (tasksSheet (wb w)) as [tasks|] eqn:Etasks.
    2:{ cbn. rewrite Etasks. auto 10. }
    set (names := filter truthy _).
    destruct (List.length names =? 0)%nat.
    { cbn. rewrite Etasks. auto 10. }
    unfold timeColumnValues, columnValues, rangeRows.
    change (hostColumn "B") with 2.
    change (Z.min CONFIG.WEEKLY.DATA_START_ROW CONFIG.WEEKLY.lastTimeLine) with 5.
    change (Z.to_nat (Z.abs (CONFIG.WEEKLY.lastTimeLine - CONFIG.WEEKLY.DATA_START_ROW) + 1))
      with 32%nat.
    fold weekly. fold taskCol.
    pose proof (RandomPickFacts.randomPickLoop_frame random names
                  (dayTaskColumn (weekly_dIndex (st w)))
                  (fun r => values weekly (2, r)) (fun r => values weekly (taskCol, r))
                  32 5 0%nat weekly 0 c) as Hloop.
    cbn zeta in Hloop. change (5 - 5) with 0 in Hloop.
    destruct (randomPickLoop _ _ _ _ _ _ _ _ _) as [[weekly1 filledCount] finished].
    cbn [fst] in Hloop. destruct Hloop as [Hfill Hval].
    assert (Hgoal :
      values weekly1 c = values weekly c
      \/ (fst c = taskCol
          /\ 5 <= snd c <= 36
          /\ isBlank (values weekly (2, snd c)) = false
          /\ isBlank (values weekly c) = true
          /\ truthy (values weekly1 c) = true
          /\ exists tasks0 r,
               Some tasks = Some tasks0 /\ values weekly1 c = values tasks0 (1, r))).
    { destruct Hval as [Hsame | (Hc & Hr & Ht & Hk & Hin)]; [left; exact Hsame|].
      right. fold taskCol in Hc.
      assert (Ec : c = (taskCol, snd c)) by (destruct c; cbn in *; congruence).
      apply filter_In in Hin as [Hin Htruthy].
      apply in_map_iff in Hin as (r & Hr' & _).
      repeat split; try assumption; try lia.
      - rewrite Ec at 1. exact Hk.
      - exists tasks, r. split; [reflexivity|]. symmetry. exact Hr'. }
    destruct (negb finished); [|destruct (0 <? filledCount)];
      cbn [wb emit withWeekly weeklySheet habitsSheet tasksSheet summarySheet];
      rewrite ?Etasks; auto 10. }
  destruct Hmain as (Hval & Hfill & Hh & Ht & Hs).
  repeat split; try assumption.
  intros Hnb. destruct Hval as [Hsame | (_ & _ & _ & Hb & _)]; [exact Hsame|].
  congruence.
Qed.

(** Row 5 of Tuesday's column holds "Keep" before the fill and after it. *)
Lemma randomPick_only_fills_empty_slots_witness :
  isBlank (values pickWeekly (5, 5)) = false
  /\ values (weeklySheet (wb (randomPick (fun _ => 0%Q) pickWorld))) (5, 5)
     = values pickWeekly (5, 5).
Proof.
  split; [reflexivity|].
  apply (randomPick_only_fills_empty_slots (fun _ => 0%Q) pickWorld (5, 5)).
  reflexivity.
Defined.

End RandomPickSpec.

(* ------------------------------------------------------------------ *)
(** ** weekly.js: score entry *)

Module ScoreFacts.
Import Js Utils Value Grid Weekly.

Section WithBuiltins.
Context `{Builtins}.

(** What [updateSummary] does to the row it settles on, and what it leaves
    alone. *)
Lemma updateSummary_effect now pos neg w summary :
  summarySheet (wb w) = Some summary ->
  let w' := updateSummary now pos neg w in
  let sr := summaryRowFor now w summary in
  exists summary',
    summarySheet (wb w') = Some summary'
    /\ weeklySheet (wb w') = weeklySheet (wb w)
    /\ habitsSheet (wb w') = habitsSheet (wb w)
    /\ tasksSheet (wb w') = tasksSheet (wb w)
    /\ out w' = out w
    /\ values summary' (4, sr)
       = (if Qgtb pos 0 then JNum (numberIn (values summary (4, sr)%Z) + pos)%Q
          else values summary (4, sr))
    /\ values summary' (5, sr)
       = (if Qltb neg 0 then JNum (numberIn (values summary (5, sr)%Z) + neg)%Q
          else values summary (5, sr))
    /\ values summary' (6, sr)
       = JNum (numberIn (values summary (6, sr)%Z) + pos + neg)%Q.
Proof.
  intros Hsum. cbn zeta. unfold updateSummary, summaryRowFor. rewrite Hsum.
  set (found := findSummaryRow _ _ _).
  set (sr := if found =? -1 then weekly_summaryL (st w) + 1 else found).
  change (at_ CONFIG.SUMMARY.DATE_COLUMN sr) with (1, sr).
  change (at_ CONFIG.SUMMARY.POSITIVE_SCORE_COLUMN sr) with (4, sr).
  change (at_ CONFIG.SUMMARY.NEGATIVE_SCORE_COLUMN sr) with (5, sr).
  change (at_ CONFIG.SUMMARY.TOTAL_SCORE_COLUMN sr) with (6, sr).
  eexists. split; [reflexivity|].
  repeat (split; [reflexivity|]).
  destruct (found =? -1), (Qgtb pos 0), (Qltb neg 0);
    cbn [values setValue addTo cell_eqb fst snd andb Z.eqb Pos.eqb];
    rewrite ?Z.eqb_refl; cbn [andb]; repeat split; reflexivity.
Qed.


(** The scan of the ledger stops at the first row holding the name. *)
Lemma findTask_first (f : Z -> jsval) taskName n :
  forall a o r,
    a <= r < a + Z.of_nat n ->
    strictEq (f r) taskName = true ->
    (forall r', a <= r' < r -> strictEq (f r') taskName = false) ->
    fst (findTask (map f (zrange a n)) (a - 4) taskName o) = r.
Proof.
  induction n as [|n IH]; intros a o r Hr Hhit Hmiss; [lia|].
  cbn [zrange map findTask].
  destruct (Z.eq_dec a r) as [->|Hne].
  - rewrite Hhit. cbn. lia.
  - rewrite (Hmiss a) by lia.
    replace (a - 4 + 1) with (a + 1 - 4) by lia.
    apply IH; [lia | assumption | intros; apply Hmiss; lia].
Qed.

Lemma resolveTask_found now tasks s taskName r :
  4 <= r <= weekly_taskl s ->
  strictEq (values tasks (1, r)) taskName = true ->
  (forall r', 4 <= r' < r -> strictEq (values tasks (1, r')) taskName = false) ->
  resolveTask now tasks s taskName = (r, weightAt tasks r, tasks, s).
Proof.
  intros Hr Hhit Hmiss. unfold resolveTask, columnValues, rangeRows.
  change (hostColumn "A") with 1.
  rewrite Z.min_l by lia.
  pose proof (findTask_first (fun r => values tasks (1, r)) taskName
                (Z.to_nat (Z.abs (weekly_taskl s - 4) + 1)) 4 (-1) r) as Hfind.
  change (4 - 4) with 0 in Hfind.
  destruct (findTask _ _ _ _) as [found othersIndex].
  cbn [fst] in Hfind. rewrite Hfind; [|lia|assumption|assumption].
  destruct (r =? -1) eqn:E; [apply Z.eqb_eq in E; lia|].
  reflexivity.
Qed.


End WithBuiltins.
End ScoreFacts.

Module ScoreSpec.
Import Js Utils Value Grid Weekly Notions Examples.






End ScoreSpec.

(* ------------------------------------------------------------------ *)
(** ** weekly.js: the archive *)

Module ArchiveSpec.
Import Js Utils Value Grid Weekly Notions Examples.

(** C8.  The archive is claimed to render every numeric time, day fraction
    or raw hour decimal, as HH:MM, 15.5 becoming "15:30".  [formatTime]
    multiplies every number by 24: the day fraction 31/48 does come out as
    "15:30", but the hour decimal 15.5 comes out as "372:00", and that is
    the first field of its CSV row.  A row with an empty time cell
    contributes nothing. *)
Theorem archive_writes_hour_decimal_as_372 :
  forall `{Builtins},
    formatTime (JNum (31 # 48)) = "15:30"
    /\ formatTime (JNum (31 # 2)) = "372:00"
    /\ csvRow hourWeekly 0 = "372:00,,,,,,,,,,,,,," ++ String newline EmptyString
    /\ csvRow hourWeekly 1 = "".
Proof. intros B. repeat split; reflexivity. Qed.

End ArchiveSpec.

(* ------------------------------------------------------------------ *)
(** ** habits.js *)

Module HabitsFacts.
Import Js Utils Value Grid Weekly Habits Notions.





Section WithBuiltins.
Context `{Builtins}.


End WithBuiltins.
End HabitsFacts.

Module HabitsSpec.
Import Js Utils Value Grid Weekly Habits Notions Examples.






End HabitsSpec.

(* ------------------------------------------------------------------ *)
(** ** weekly.js: the new week *)

Module NewWeekFacts.
Import Js Utils Value Grid Weekly Notions.

Lemma at_indexToColumnLetter index r :
  0 <= index -> at_ (indexToColumnLetter index) r = (index + 1, r).
Proof.
  intros Hi. unfold at_. now rewrite ColumnFacts.hostColumn_indexToColumnLetter.
Qed.

Lemma even_scoreColumnOf col : Z.even (scoreColumnOf col) = true.
Proof.
  unfold scoreColumnOf. destruct (Z.even col) eqn:E; [exact E|].
  rewrite Z.even_add, E. reflexivity.
Qed.

Lemma scoreColumnOf_even col : Z.even col = true -> scoreColumnOf col = col.
Proof. intros E. unfold scoreColumnOf. now rewrite E. Qed.

Lemma scoreColumnOf_idem col : scoreColumnOf (scoreColumnOf col) = scoreColumnOf col.
Proof. apply scoreColumnOf_even, even_scoreColumnOf. Qed.

Lemma scoreCellOf_idem c : scoreCellOf (scoreCellOf c) = scoreCellOf c.
Proof. unfold scoreCellOf. cbn [fst snd]. now rewrite scoreColumnOf_idem. Qed.

(** The cells of the pair with score column [sc] (even) in row [r]. *)
Lemma scoreCellOf_pair sc r c :
  Z.even sc = true ->
  scoreCellOf c = (sc, r) <-> c = (sc - 1, r) \/ c = (sc, r).
Proof.
  intros Hsc. destruct c as [col row]. unfold scoreCellOf, scoreColumnOf. cbn [fst snd].
  destruct (Z.even col) eqn:E; split.
  - intros [= -> ->]. right; reflexivity.
  - intros [[= -> ->] | [= -> ->]]; [|reflexivity].
    exfalso. replace sc with (sc - 1 + 1) in Hsc by lia.
    rewrite Z.even_add, E in Hsc. discriminate Hsc.
  - intros [= <- ->]. left. f_equal. lia.
  - intros [[= -> ->] | [= -> ->]]; [f_equal; lia | congruence].
Qed.

Section Pair.
Variables (tl sl : string) (sc : Z).
Hypothesis Htl : hostColumn tl = sc - 1.
Hypothesis Hsl : hostColumn sl = sc.
Hypothesis Hsc : Z.even sc = true.

Lemma clearDayRow_values weekly r c :
  values (clearDayRow tl sl weekly r) c
  = if cell_eqb (scoreCellOf c) (sc, r) && negb (isBlank (values weekly (sc, r)))
    then JStr "" else values weekly c.
Proof.
  unfold clearDayRow, at_. rewrite Htl, Hsl.
  destruct (negb (isBlank (values weekly (sc, r)))) eqn:Eb.
  - rewrite andb_true_r. unfold clearContents.
    destruct (cell_eqb (scoreCellOf c) (sc, r)) eqn:Ec.
    + apply GridFacts.cell_eqb_eq, scoreCellOf_pair in Ec; [|exact Hsc].
      destruct Ec as [-> | ->].
      * rewrite GridFacts.values_setValue_other;
          [apply GridFacts.values_setValue_same|].
        intros E. apply (f_equal fst) in E. cbn in E. lia.
      * apply GridFacts.values_setValue_same.
    + assert (Hn : ~ (c = (sc - 1, r) \/ c = (sc, r))).
      { intros Hc. apply (scoreCellOf_pair sc r c Hsc) in Hc.
        apply GridFacts.cell_eqb_eq in Hc. congruence. }
      rewrite !GridFacts.values_setValue_other; [reflexivity| |]; intros E; apply Hn; auto.
  - rewrite andb_false_r. reflexivity.
Qed.

Lemma clearDayRows_values rows :
  NoDup rows ->
  forall weekly c,
    values (fold_left (clearDayRow tl sl) rows weekly) c
    = if (fst (scoreCellOf c) =? sc) && existsb (Z.eqb (snd c)) rows
         && negb (isBlank (values weekly (scoreCellOf c)))
      then JStr "" else values weekly c.
Proof.
  induction 1 as [|r rows Hnotin Hnodup IH]; intros weekly c.
  - cbn. rewrite andb_false_r. reflexivity.
  - cbn [fold_left existsb]. rewrite IH.
    rewrite !clearDayRow_values, scoreCellOf_idem.
    destruct (fst (scoreCellOf c) =? sc) eqn:Ecol; cbn [andb].
    2:{ unfold cell_eqb at 1. cbn [fst snd] in *. rewrite Ecol. reflexivity. }
    apply Z.eqb_eq in Ecol.
    assert (Escore : scoreCellOf c = (sc, snd c)).
    { unfold scoreCellOf in *. cbn [fst] in Ecol. now rewrite Ecol. }
    rewrite Escore.
    destruct (Z.eq_dec (snd c) r) as [Hr | Hr].
    + rewrite Hr, GridFacts.cell_eqb_refl, Z.eqb_refl. cbn [andb orb].
      replace (existsb (Z.eqb r) rows) with false.
      2:{ symmetry. apply not_true_is_false. intros Hex. apply existsb_exists in Hex.
          destruct Hex as (x & Hx & Ex). apply Z.eqb_eq in Ex. subst x. contradiction. }
      cbn [andb]. reflexivity.
    + replace (cell_eqb (sc, snd c) (sc, r)) with false.
      2:{ symmetry. apply GridFacts.cell_eqb_neq. intros [= E]. contradiction. }
      replace (snd c =? r) with false by (symmetry; apply Z.eqb_neq; exact Hr).
      cbn [andb orb]. reflexivity.
Qed.

End Pair.

Lemma fold_left_cons {A B : Type} (f : A -> B -> A) x l a :
  fold_left f (x :: l) a = fold_left f l (f a x).
Proof. reflexivity. Qed.

Lemma existsb_cons {A : Type} (f : A -> bool) x l :
  existsb f (x :: l) = f x || existsb f l.
Proof. reflexivity. Qed.

Lemma NoDup_zrange n : forall a, NoDup (zrange a n).
Proof.
  induction n as [|n IH]; intros a; cbn [zrange]; constructor.
  - rewrite GridFacts.in_zrange. lia.
  - apply IH.
Qed.

Lemma existsb_rows r :
  existsb (Z.eqb r)
    (zrange CONFIG.WEEKLY.DATA_START_ROW
       (Z.to_nat (CONFIG.WEEKLY.scoreLine - CONFIG.WEEKLY.DATA_START_ROW)))
  = visitedRow r.
Proof.
  change (zrange CONFIG.WEEKLY.DATA_START_ROW
            (Z.to_nat (CONFIG.WEEKLY.scoreLine - CONFIG.WEEKLY.DATA_START_ROW)))
    with (zrange 5 33).
  unfold visitedRow. apply eq_true_iff_eq. rewrite existsb_exists, !andb_true_iff.
  rewrite Z.leb_le, Z.ltb_lt. split.
  - intros (x & Hx & Ex). apply Z.eqb_eq in Ex. subst x.
    apply GridFacts.in_zrange in Hx. lia.
  - intros Hr. exists r. split; [|apply Z.eqb_refl].
    apply GridFacts.in_zrange. lia.
Qed.

Lemma clearDay_values weekly day c :
  0 <= day ->
  values (clearDay weekly day) c
  = if (fst (scoreCellOf c) =? day * 2 + 4) && visitedRow (snd c)
       && negb (isBlank (values weekly (scoreCellOf c)))
    then JStr "" else values weekly c.
Proof.
  intros Hday. unfold clearDay.
  rewrite (clearDayRows_values _ _ (day * 2 + 4)).
  - now rewrite existsb_rows.
  - rewrite ColumnFacts.hostColumn_indexToColumnLetter by lia. lia.
  - rewrite ColumnFacts.hostColumn_indexToColumnLetter by lia. lia.
  - rewrite Z.even_add, Z.even_mul. cbn [Z.even]. rewrite orb_true_r. reflexivity.
  - apply NoDup_zrange.
Qed.

Lemma clearDays_values days :
  NoDup days ->
  (forall d, In d days -> 0 <= d) ->
  forall weekly c,
    values (fold_left clearDay days weekly) c
    = if existsb (fun d => fst (scoreCellOf c) =? d * 2 + 4) days && visitedRow (snd c)
         && negb (isBlank (values weekly (scoreCellOf c)))
      then JStr "" else values weekly c.
Proof.
  induction 1 as [|d days Hnotin Hnodup IH]; intros Hpos weekly c.
  - reflexivity.
  - rewrite fold_left_cons, existsb_cons.
    rewrite IH by (intros; apply Hpos; now right).
    rewrite !clearDay_values by (apply Hpos; now left).
    rewrite scoreCellOf_idem.
    destruct (visitedRow (snd c)) eqn:Erow;
      [|cbn [snd scoreCellOf]; rewrite Erow, !andb_false_r; reflexivity].
    replace (visitedRow (snd (scoreCellOf c))) with true by (symmetry; exact Erow).
    rewrite !andb_true_r.
    destruct (fst (scoreCellOf c) =? d * 2 + 4) eqn:Ed; cbn [orb andb].
    + replace (existsb (fun d0 => fst (scoreCellOf c) =? d0 * 2 + 4) days) with false.
      2:{ symmetry. apply not_true_is_false. intros Hex. apply existsb_exists in Hex.
          destruct Hex as (x & Hx & Ex). apply Z.eqb_eq in Ex, Ed.
          assert (x = d) by lia. subst x. contradiction. }
      cbn [andb]. reflexivity.
    + reflexivity.
Qed.

(** Which columns the seven days cover. *)
Lemma existsb_days col :
  Z.even col = true ->
  existsb (fun d => col =? d * 2 + 4) (zrange 0 CONFIG.WEEKLY.DAYS_IN_WEEK)
  = (4 <=? col) && (col <=? 16).
Proof.
  intros Heven. apply eq_true_iff_eq.
  rewrite existsb_exists, andb_true_iff, !Z.leb_le. split.
  - intros (d & Hd & Ed). apply Z.eqb_eq in Ed. apply GridFacts.in_zrange in Hd.
    change (Z.of_nat CONFIG.WEEKLY.DAYS_IN_WEEK) with 7 in Hd. lia.
  - intros Hc. exists ((col - 4) / 2).
    apply Z.even_spec in Heven as [m Hm].
    assert (Hd : (col - 4) / 2 = m - 2).
    { replace (col - 4) with ((m - 2) * 2) by lia. apply Z.div_mul. lia. }
    split.
    + apply GridFacts.in_zrange. change (Z.of_nat CONFIG.WEEKLY.DAYS_IN_WEEK) with 7. lia.
    + apply Z.eqb_eq. lia.
Qed.

Lemma scoreColumnOf_range col :
  (4 <=? scoreColumnOf col) && (scoreColumnOf col <=? 16) = (3 <=? col) && (col <=? 16).
Proof.
  unfold scoreColumnOf. destruct (Z.even col) eqn:E.
  - apply eq_true_iff_eq. rewrite !andb_true_iff, !Z.leb_le.
    split; [lia|]. intros [H3 H16]. split; [|lia].
    destruct (Z.eq_dec col 3) as [->|]; [discriminate E | lia].
  - apply eq_true_iff_eq. rewrite !andb_true_iff, !Z.leb_le.
    split; [lia|]. intros [H3 H16]. split; [lia|].
    destruct (Z.eq_dec col 16) as [->|]; [discriminate E | lia].
Qed.

(** The sheet after [clearForNewWeek], cell by cell. *)
Lemma clearForNewWeek_values w c :
  values (weeklySheet (wb (clearForNewWeek w))) c = clearedValue (weeklySheet (wb w)) c.
Proof.
  unfold clearForNewWeek. cbn [wb emit withWeekly weeklySheet].
  rewrite clearDays_values.
  2:{ apply NoDup_zrange. }
  2:{ intros d Hd. apply GridFacts.in_zrange in Hd. lia. }
  unfold clearedValue.
  change (hostColumn "C") with 3. change (hostColumn "P") with 16.
  change (hostColumn "Z") with 26. change CONFIG.WEEKLY.scoreLine with 38.
  rewrite existsb_days by apply even_scoreColumnOf.
  cbn [scoreCellOf fst snd]. rewrite scoreColumnOf_range.
  unfold clearContentsBox, clearFillBox. cbn [values].
  unfold inPairs, visitedRow, inBox. cbn [fst snd scoreCellOf].
  destruct c as [col row]. cbn [fst snd].
  destruct (3 <=? col) eqn:E3, (col <=? 16) eqn:E16, (5 <=? row) eqn:E5,
           (row <? 38) eqn:E38, (38 <=? row) eqn:E38a, (row <=? 38) eqn:E38b;
    cbn [andb negb]; try reflexivity;
    try (apply Z.ltb_lt in E38; apply Z.leb_le in E38a; lia);
    rewrite ?andb_false_r; cbn [andb]; reflexivity.
Qed.

Lemma clearDayRow_fill tl sl weekly r : fill (clearDayRow tl sl weekly r) = fill weekly.
Proof. unfold clearDayRow. destruct (negb _); reflexivity. Qed.

Lemma clearDayRows_fill tl sl rows :
  forall weekly, fill (fold_left (clearDayRow tl sl) rows weekly) = fill weekly.
Proof.
  induction rows as [|r rows IH]; intros weekly; [reflexivity|].
  rewrite fold_left_cons, IH. apply clearDayRow_fill.
Qed.

Lemma clearDay_fill weekly day : fill (clearDay weekly day) = fill weekly.
Proof. unfold clearDay. apply clearDayRows_fill. Qed.

Lemma clearDays_fill days :
  forall weekly, fill (fold_left clearDay days weekly) = fill weekly.
Proof.
  induction days as [|d days IH]; intros weekly; [reflexivity|].
  rewrite fold_left_cons, IH. apply clearDay_fill.
Qed.


Section WithBuiltins.
Context `{Builtins}.

Lemma archiveWeekAutomatically_effect w :
  wb (archiveWeekAutomatically w) = wb w
  /\ st (archiveWeekAutomatically w) = st w
  /\ out (archiveWeekAutomatically w) = (out w ++ archiveEffects (weeklySheet (wb w)))%list.
Proof.
  unfold archiveWeekAutomatically, archiveEffects.
  destruct (negb _ && _); cbn [wb st out emit]; repeat split; try reflexivity.
  symmetry. apply app_nil_r.
Qed.

End WithBuiltins.

Lemma clearForNewWeek_out w :
  out (clearForNewWeek w) = (out w ++ [ShowStatus ClearedForNewWeek])%list.
Proof. reflexivity. Qed.

Lemma setNewWeekDates_effect now w :
  let w' := setNewWeekDates now w in
  let monday := getMonday (today now) in
  out w' = out w
  /\ weekly_lastMonday (st w') = Some monday
  /\ values (weeklySheet (wb w')) (2, 4) = JStr (yearMonthOf monday)
  /\ (forall i,
        0 <= i < 7 ->
        values (weeklySheet (wb w')) (2 * i + 4, 4) = JNum (inject_Z (getDate (monday + i))))
  /\ (forall c, snd c <> 4 -> values (weeklySheet (wb w')) c = values (weeklySheet (wb w)) c).
Proof.
  cbn zeta. unfold setNewWeekDates.
  cbn [wb st out withSession withWeekly weeklySheet set_lastMonday weekly_lastMonday].
  split; [reflexivity|]. split; [reflexivity|].
  change (zrange 0 CONFIG.WEEKLY.DAYS_IN_WEEK) with [0; 1; 2; 3; 4; 5; 6].
  rewrite !fold_left_cons. cbn [fold_left]. unfold setDayHeader.
  rewrite !at_indexToColumnLetter by lia.
  change (at_ "B" 4) with (2, 4).
  cbn [Z.add Z.mul Z.sub Z.opp Pos.add Pos.mul Pos.succ Z.pos_sub Pos.pred_double
       Z.succ_double Z.pred_double Z.double].
  split; [reflexivity|]. split.
  - intros i Hi.
    assert (Hcases : i = 0 \/ i = 1 \/ i = 2 \/ i = 3 \/ i = 4 \/ i = 5 \/ i = 6) by lia.
    destruct Hcases as [-> | [-> | [-> | [-> | [-> | [-> | ->]]]]]]; reflexivity.
  - intros [col row] Hrow. cbn [snd] in Hrow.
    cbn [values setValue]. unfold cell_eqb. cbn [fst snd].
    replace (row =? 4) with false by (symmetry; apply Z.eqb_neq; exact Hrow).
    rewrite !andb_false_r. reflexivity.
Qed.

Lemma weekly_withSession w s : weeklySheet (wb (withSession w s)) = weeklySheet (wb w).
Proof. reflexivity. Qed.

Lemma out_withSession w s : out (withSession w s) = out w.
Proof. reflexivity. Qed.

Lemma st_withSession w s : st (withSession w s) = s.
Proof. reflexivity. Qed.

Lemma highlightCurrentDay_effect w :
  values (weeklySheet (wb (highlightCurrentDay w))) = values (weeklySheet (wb w))
  /\ out (highlightCurrentDay w) = out w
  /\ st (highlightCurrentDay w) = st w.
Proof. repeat split; reflexivity. Qed.

Lemma highlightCurrentTimeRow_effect now w :
  values (weeklySheet (wb (highlightCurrentTimeRow now w))) = values (weeklySheet (wb w))
  /\ out (highlightCurrentTimeRow now w) = out w
  /\ st (highlightCurrentTimeRow now w) = st w.
Proof.
  unfold highlightCurrentTimeRow.
  destruct (0 <=? _); [destruct (isBlank _)|]; repeat split; reflexivity.
Qed.

Lemma finishInitialization_effect now w :
  (forall c,
      values (weeklySheet (wb (finishInitialization now w))) c = values (weeklySheet (wb w)) c)
  /\ out (finishInitialization now w) = out w
  /\ weekly_lastMonday (st (finishInitialization now w)) = Some (getMonday (today now)).
Proof.
  unfold finishInitialization.
  set (w1 := withSession w _).
  set (w2 := withSession w1 _).
  destruct (highlightCurrentDay_effect w2) as (Hv3 & Ho3 & Hs3).
  destruct (highlightCurrentTimeRow_effect now (highlightCurrentDay w2)) as (Hv4 & Ho4 & Hs4).
  set (w4 := highlightCurrentTimeRow now (highlightCurrentDay w2)) in *.
  rewrite weekly_withSession, out_withSession, st_withSession.
  rewrite Hv4, Hv3, Ho4, Ho3, Hs4, Hs3.
  unfold w2, w1.
  rewrite !weekly_withSession, !out_withSession, !st_withSession.
  repeat split; reflexivity.
Qed.

End NewWeekFacts.

Module NewWeekSpec.
Import Js Utils Value Grid Weekly Notions Examples.




End NewWeekSpec.

(* ------------------------------------------------------------------ *)
(** * Further properties *)

(** ** utils.js: column letters and addresses *)

Module ColumnSpec.
Import Js Utils Value Grid MoreNotions.

Lemma loop_keeps_upper fuel :
  forall index letter,
    allChars isUpper letter = true ->
    allChars isUpper (indexToColumnLetter_loop fuel index letter) = true.
Proof.
  induction fuel as [|f IH]; intros index letter Hl; cbn [indexToColumnLetter_loop];
    [exact Hl|].
  destruct (0 <=? index) eqn:E; [|exact Hl].
  apply Z.leb_le in E. apply IH. cbn [allChars]. rewrite Hl, andb_true_r.
  rewrite Z.rem_mod_nonneg by lia.
  pose proof (Z.mod_pos_bound index 26 ltac:(lia)) as Hm.
  unfold isUpper. rewrite ColumnFacts.code_fromCharCode; change (code "A") with 65; [|lia].
  apply andb_true_iff. split; apply Z.leb_le; lia.
Qed.

Lemma loop_length fuel :
  forall index letter,
    (String.length letter <= String.length (indexToColumnLetter_loop fuel index letter))%nat.
Proof.
  induction fuel as [|f IH]; intros index letter; cbn [indexToColumnLetter_loop]; [lia|].
  destruct (0 <=? index); [|lia].
  etransitivity; [|apply IH]. cbn [String.length]. lia.
Qed.

(** X1.  For every non-negative index, [indexToColumnLetter] returns a
    non-empty run of uppercase letters, the one the host reads as column
    number index + 1; different indices get different letters. *)
Theorem indexToColumnLetter_is_the_column_name :
  forall i j : Z,
    0 <= i -> 0 <= j ->
    validColumn (indexToColumnLetter i) = true
    /\ hostColumn (indexToColumnLetter i) = i + 1
    /\ (indexToColumnLetter i = indexToColumnLetter j -> i = j).
Proof.
  intros i j Hi Hj. split; [|split].
  - unfold validColumn. apply andb_true_iff. split.
    + pose proof (loop_length (Z.to_nat i) (i / 26 - 1)
                    (String (fromCharCode (Z.rem i 26 + code "A")) EmptyString)) as Hlen.
      unfold indexToColumnLetter. cbn [indexToColumnLetter_loop].
      replace (0 <=? i) with true by (symmetry; apply Z.leb_le; lia).
      destruct (indexToColumnLetter_loop _ _ _); [cbn in Hlen; lia | reflexivity].
    + apply loop_keeps_upper. reflexivity.
  - apply ColumnFacts.hostColumn_indexToColumnLetter. exact Hi.
  - intros E. apply (f_equal hostColumn) in E.
    rewrite !ColumnFacts.hostColumn_indexToColumnLetter in E by assumption. lia.
Qed.

Lemma indexToColumnLetter_is_the_column_name_witness :
  validColumn (indexToColumnLetter 27) = true
  /\ hostColumn (indexToColumnLetter 27) = 27 + 1
  /\ (indexToColumnLetter 27 = indexToColumnLetter 701 -> 27 = 701).
Proof. apply indexToColumnLetter_is_the_column_name; lia. Defined.

Lemma columnLetterToIndex_from_app s :
  forall t acc,
    columnLetterToIndex_from acc (s ++ t)
    = columnLetterToIndex_from (columnLetterToIndex_from acc s) t.
Proof. induction s as [|c s IH]; intros t acc; cbn; [reflexivity | apply IH]. Qed.

Lemma columnLetterToIndex_from_acc t :
  forall acc,
    columnLetterToIndex_from acc t
    = acc * 26 ^ Z.of_nat (String.length t) + columnLetterToIndex_from 0 t.
Proof.
  induction t as [|c t IH]; intros acc.
  - cbn. lia.
  - cbn [columnLetterToIndex_from String.length].
    rewrite IH, (IH (0 * 26 + _)).
    rewrite Nat2Z.inj_succ, Z.pow_succ_r by lia. ring.
Qed.

Lemma upper_digit c : isUpper c = true -> 0 <= code c - code "A"%char <= 25.
Proof.
  unfold isUpper. rewrite andb_true_iff, !Z.leb_le. change (code "A") with 65. lia.
Qed.

Lemma columnLetterToIndex_from_bounds s :
  forall acc,
    allChars isUpper s = true ->
    acc * 26 ^ Z.of_nat (String.length s)
    <= columnLetterToIndex_from acc s
    < (acc + 1) * 26 ^ Z.of_nat (String.length s).
Proof.
  induction s as [|c s IH]; intros acc Hall.
  - cbn. lia.
  - cbn [allChars] in Hall. apply andb_true_iff in Hall as [Hc Hs].
    cbn [columnLetterToIndex_from String.length].
    specialize (IH (acc * 26 + (code c - code "A")) Hs).
    pose proof (upper_digit c Hc) as Hd.
    rewrite Nat2Z.inj_succ, Z.pow_succ_r by lia.
    assert (0 < 26 ^ Z.of_nat (String.length s)) by (apply Z.pow_pos_nonneg; lia).
    set (p := 26 ^ Z.of_nat (String.length s)) in *.
    nia.
Qed.

Lemma columnLetterToIndex_bounds s :
  allChars isUpper s = true ->
  0 <= columnLetterToIndex s < 26 ^ Z.of_nat (String.length s).
Proof.
  intros Hs. pose proof (columnLetterToIndex_from_bounds s 0 Hs).
  unfold columnLetterToIndex. lia.
Qed.

Lemma hostColumn_minus_index s :
  forall a b,
    hostColumn_from a s - columnLetterToIndex_from b s
    = (a - b) * 26 ^ Z.of_nat (String.length s) + repunit26 (String.length s).
Proof.
  induction s as [|c s IH]; intros a b.
  - cbn. lia.
  - cbn [hostColumn_from columnLetterToIndex_from String.length repunit26].
    rewrite IH. change (code "A") with 65.
    rewrite Nat2Z.inj_succ, Z.pow_succ_r by lia.
    assert (Hrep : forall n, 26 ^ Z.of_nat n = 25 * repunit26 n + 1).
    { induction n as [|n IHn]; [reflexivity|].
      rewrite Nat2Z.inj_succ, Z.pow_succ_r by lia. cbn [repunit26]. lia. }
    rewrite (Hrep (String.length s)). ring.
Qed.

(** X2.  [columnLetterToIndex] is the plain base-26 value of the letters
    (A = 0), below 26^n for n letters; the one-based [colIndex] built from
    it falls short of the host's column number by 26 + ... + 26^(n-1), so
    the two agree exactly on one-letter columns, where both conversions
    invert each other. *)
Theorem columnLetterToIndex_is_plain_base_26 :
  forall s t : string,
    allChars isUpper s = true ->
    columnLetterToIndex (s ++ t)
    = columnLetterToIndex s * 26 ^ Z.of_nat (String.length t) + columnLetterToIndex t
    /\ 0 <= columnLetterToIndex s < 26 ^ Z.of_nat (String.length s)
    /\ hostColumn s = columnLetterToIndex s + repunit26 (String.length s)
    /\ (String.length s = 1%nat ->
        hostColumn s = columnLetterToIndex s + 1
        /\ indexToColumnLetter (columnLetterToIndex s) = s).
Proof.
  intros s t Hs. split; [|split; [|split]].
  - unfold columnLetterToIndex.
    rewrite columnLetterToIndex_from_app. apply columnLetterToIndex_from_acc.
  - apply columnLetterToIndex_bounds. exact Hs.
  - pose proof (hostColumn_minus_index s 0 0) as Hd.
    unfold hostColumn, columnLetterToIndex. lia.
  - intros Hlen. destruct s as [|c [|c' s]]; try discriminate Hlen.
    cbn [allChars] in Hs. rewrite andb_true_r in Hs.
    pose proof (upper_digit c Hs) as Hd.
    split; [unfold hostColumn, columnLetterToIndex; cbn; change (code "A") with 65; lia|].
    unfold columnLetterToIndex. cbn [columnLetterToIndex_from].
    set (i := 0 * 26 + (code c - code "A")).
    assert (Hi : 0 <= i < 26) by (unfold i; lia).
    unfold indexToColumnLetter. cbn [indexToColumnLetter_loop].
    replace (0 <=? i) with true by (symmetry; apply Z.leb_le; lia).
    rewrite ColumnFacts.indexToColumnLetter_loop_neg.
    2:{ assert (i / 26 = 0) by (apply Z.div_small; lia). lia. }
    f_equal. rewrite Z.rem_small by lia.
    unfold i, fromCharCode, code.
    replace (0 * 26 + (Z.of_nat (nat_of_ascii c) - Z.of_nat (nat_of_ascii "A"))
             + Z.of_nat (nat_of_ascii "A")) with (Z.of_nat (nat_of_ascii c)) by lia.
    rewrite Nat2Z.id. apply ascii_nat_embedding.
Qed.

Lemma columnLetterToIndex_is_plain_base_26_witness :
  columnLetterToIndex ("AD" ++ "Z")
  = columnLetterToIndex "AD" * 26 ^ Z.of_nat (String.length "Z") + columnLetterToIndex "Z"
  /\ 0 <= columnLetterToIndex "AD" < 26 ^ Z.of_nat (String.length "AD")
  /\ hostColumn "AD" = columnLetterToIndex "AD" + repunit26 (String.length "AD")
  /\ (String.length "AD" = 1%nat ->
      hostColumn "AD" = columnLetterToIndex "AD" + 1
      /\ indexToColumnLetter (columnLetterToIndex "AD") = "AD").
Proof. apply columnLetterToIndex_is_plain_base_26. reflexivity. Defined.

End ColumnSpec.

Module AddressSpec.
Import Js Utils Value Grid MoreNotions.

Lemma span_app p s t :
  allChars p s = true ->
  match t with String c _ => p c = false | EmptyString => True end ->
  span p (s ++ t) = (s, t).
Proof.
  intros Hs Ht. induction s as [|c s IH].
  - cbn [append]. destruct t as [|c t]; [reflexivity|]. cbn [span]. now rewrite Ht.
  - cbn [allChars] in Hs. apply andb_true_iff in Hs as [Hc Hs].
    cbn [append span]. rewrite Hc, (IH Hs). reflexivity.
Qed.

Lemma span_snd p s :
  match snd (span p s) with String c _ => p c = false | EmptyString => True end.
Proof.
  induction s as [|c s IH]; cbn [span]; [exact I|].
  destruct (p c) eqn:E; [|cbn; exact E].
  destruct (span p s) as [a b]. exact IH.
Qed.

Lemma upper_not_digit c : isUpper c = true -> isDigit c = false.
Proof.
  unfold isUpper, isDigit. rewrite andb_true_iff, !Z.leb_le. intros [H1 H2].
  apply andb_false_iff. right. apply Z.leb_gt. lia.
Qed.

Lemma digit_not_upper c : isDigit c = true -> isUpper c = false.
Proof.
  unfold isUpper, isDigit. rewrite andb_true_iff, !Z.leb_le. intros [H1 H2].
  apply andb_false_iff. left. apply Z.leb_gt. lia.
Qed.

Lemma eqb_empty_false s : s <> "" -> String.eqb s "" = false.
Proof. intros Hs. now apply String.eqb_neq. Qed.

Lemma matchAddressAt_sound s m1 m2 :
  matchAddressAt s = Some (m1, m2) ->
  validColumn m1 = true /\ isDigits m2 = true.
Proof.
  unfold matchAddressAt, validColumn, isDigits.
  pose proof (TimeRowFacts.span_all isUpper s) as Hu.
  destruct (span isUpper s) as [letters rest]. cbn [fst] in Hu.
  destruct (String.eqb letters "") eqn:El; [discriminate|].
  pose proof (TimeRowFacts.span_all isDigit rest) as Hd.
  destruct (span isDigit rest) as [digits rest']. cbn [fst] in Hd.
  destruct (String.eqb digits "") eqn:Ed; [discriminate|].
  intros [= <- <-]. now rewrite El, Ed, Hu, Hd.
Qed.

Lemma matchAddress_sound s :
  forall m1 m2,
    matchAddress s = Some (m1, m2) ->
    validColumn m1 = true /\ isDigits m2 = true.
Proof.
  induction s as [|c s IH]; intros m1 m2; cbn [matchAddress].
  - destruct (matchAddressAt "") as [[a b]|] eqn:E; [|discriminate].
    intros [= <- <-]. now apply matchAddressAt_sound in E.
  - destruct (matchAddressAt (String c s)) as [[a b]|] eqn:E; [|apply IH].
    intros [= <- <-]. now apply matchAddressAt_sound in E.
Qed.

Lemma matchAddress_skip p :
  forall s,
    allChars (fun c => negb (isUpper c)) p = true ->
    matchAddress (p ++ s) = matchAddress s.
Proof.
  induction p as [|c p IH]; intros s Hp; [reflexivity|].
  cbn [allChars] in Hp. apply andb_true_iff in Hp as [Hc Hp].
  apply negb_true_iff in Hc.
  cbn [append matchAddress]. unfold matchAddressAt at 1. cbn [span]. rewrite Hc.
  cbn. apply IH, Hp.
Qed.

Lemma matchAddress_none s :
  allChars (fun c => negb (isUpper c)) s = true
  \/ allChars (fun c => negb (isDigit c)) s = true ->
  matchAddress s = None.
Proof.
  induction s as [|c s IH]; intros Hs; [reflexivity|].
  cbn [matchAddress].
  assert (E : matchAddressAt (String c s) = None).
  { destruct (matchAddressAt (String c s)) as [[a b]|] eqn:E; [|reflexivity]. exfalso.
    revert E. unfold matchAddressAt.
    destruct Hs as [Hs|Hs].
    - cbn [allChars] in Hs. apply andb_true_iff in Hs as [Hc _].
      apply negb_true_iff in Hc.
      cbn [span]. rewrite Hc. cbn. discriminate.
    - assert (Hnd : forall t, allChars (fun c => negb (isDigit c)) t = true ->
                              forall u, allChars (fun c => negb (isDigit c)) (snd (span u t)) = true).
      { induction t as [|d t IHt]; intros Ht u; [reflexivity|].
        cbn [span]. destruct (u d); [|exact Ht].
        cbn [allChars] in Ht. apply andb_true_iff in Ht as [_ Ht].
        specialize (IHt Ht u). destruct (span u t). exact IHt. }
      specialize (Hnd _ Hs isUpper).
      destruct (span isUpper (String c s)) as [letters rest]. cbn [snd] in Hnd.
      destruct (String.eqb letters ""); [discriminate|].
      destruct rest as [|d rest]; [cbn; discriminate|].
      cbn [allChars] in Hnd. apply andb_true_iff in Hnd as [Hd _].
      apply negb_true_iff in Hd. cbn [span]. rewrite Hd. cbn. discriminate. }
  rewrite E. apply IH.
  destruct Hs as [Hs|Hs]; [left|right];
    cbn [allChars] in Hs; apply andb_true_iff in Hs as [_ Hs]; exact Hs.
Qed.

(** The match found after a prefix without uppercase letters. *)
Lemma parseAddress_at :
  forall prefix letters digits rest : string,
    allChars (fun c => negb (isUpper c)) prefix = true ->
    validColumn letters = true ->
    isDigits digits = true ->
    match rest with String c _ => isDigit c = false | EmptyString => True end ->
    parseAddress (prefix ++ letters ++ digits ++ rest)
    = Some {| column := letters;
              colIndex := columnLetterToIndex letters + 1;
              row := digitsValue 0 digits |}.
Proof.
  intros prefix letters digits rest Hp Hl Hd Hr.
  unfold validColumn in Hl. apply andb_true_iff in Hl as [Hl1 Hl2].
  unfold isDigits in Hd. apply andb_true_iff in Hd as [Hd1 Hd2].
  apply negb_true_iff in Hl1, Hd1.
  unfold parseAddress. rewrite matchAddress_skip by exact Hp.
  assert (E : matchAddressAt (letters ++ digits ++ rest) = Some (letters, digits)).
  { unfold matchAddressAt. rewrite (span_app isUpper letters (digits ++ rest) Hl2).
    - rewrite Hl1, (span_app isDigit digits rest Hd2 Hr), Hd1. reflexivity.
    - destruct digits as [|d digits]; [discriminate|].
      cbn [append]. cbn [allChars] in Hd2. apply andb_true_iff in Hd2 as [Hd2 _].
      now apply digit_not_upper. }
  destruct (letters ++ digits ++ rest) eqn:Es; cbn [matchAddress]; rewrite E; reflexivity.
Qed.

(** X3.  [parseAddress] reads the first cell reference of an address: after
    any prefix without uppercase letters, a run of uppercase letters followed
    by a run of digits that ends the string or stops at a non-digit is
    returned as the column, its base-26 value plus one, and the decimal value
    of the digits, whatever follows (so a range yields its top-left cell). *)
Theorem parseAddress_reads_first_cell :
  forall prefix letters digits rest : string,
    allChars (fun c => negb (isUpper c)) prefix = true ->
    validColumn letters = true ->
    isDigits digits = true ->
    match rest with String c _ => isDigit c = false | EmptyString => True end ->
    parseAddress (prefix ++ letters ++ digits ++ rest)
    = Some {| column := letters;
              colIndex := columnLetterToIndex letters + 1;
              row := digitsValue 0 digits |}.
Proof. exact parseAddress_at. Qed.

Lemma parseAddress_reads_first_cell_witness :
  parseAddress ("week!" ++ "AC" ++ "12" ++ ":AD20")
  = Some {| column := "AC";
            colIndex := columnLetterToIndex "AC" + 1;
            row := digitsValue 0 "12" |}.
Proof. apply parseAddress_reads_first_cell; reflexivity || exact I. Defined.

(** X4.  Whatever [parseAddress] returns is well formed: the column is a
    non-empty run of uppercase letters, [colIndex] is its base-26 value plus
    one and at least 1, and the row is not negative.  An address without an
    uppercase letter, or without a digit, gives null. *)
Theorem parseAddress_result_well_formed :
  forall addr : string,
    (forall parsed,
        parseAddress addr = Some parsed ->
        validColumn (column parsed) = true
        /\ colIndex parsed = columnLetterToIndex (column parsed) + 1
        /\ 1 <= colIndex parsed
        /\ 0 <= row parsed)
    /\ (allChars (fun c => negb (isUpper c)) addr = true -> parseAddress addr = None)
    /\ (allChars (fun c => negb (isDigit c)) addr = true -> parseAddress addr = None).
Proof.
  intros addr. split; [|split].
  - intros parsed. unfold parseAddress.
    destruct (matchAddress addr) as [[m1 m2]|] eqn:E; [|discriminate].
    apply matchAddress_sound in E as [H1 H2]. intros [= <-]. cbn [column colIndex row].
    split; [exact H1|]. split; [reflexivity|].
    unfold validColumn in H1. apply andb_true_iff in H1 as [_ H1].
    unfold isDigits in H2. apply andb_true_iff in H2 as [_ H2].
    pose proof (ColumnSpec.columnLetterToIndex_bounds m1 H1).
    split; [lia|]. apply TimeRowFacts.digitsValue_nonneg; [exact H2 | lia].
  - intros Hn. unfold parseAddress. rewrite matchAddress_none; [reflexivity|].
    now left.
  - intros Hn. unfold parseAddress. rewrite matchAddress_none; [reflexivity|].
    now right.
Qed.

Lemma parseAddress_result_well_formed_witness :
  (validColumn "C" = true
   /\ 3 = columnLetterToIndex "C" + 1
   /\ 1 <= 3
   /\ 0 <= 5)
  /\ parseAddress "c5" = None
  /\ parseAddress "ABC" = None.
Proof.
  split; [|split].
  - exact (proj1 (parseAddress_result_well_formed "Sheet1!C5")
             {| column := "C"; colIndex := 3; row := 5 |} eq_refl).
  - apply (proj1 (proj2 (parseAddress_result_well_formed "c5"))). reflexivity.
  - apply (proj2 (proj2 (parseAddress_result_well_formed "ABC"))). reflexivity.
Defined.

End AddressSpec.

(** ** utils.js: weeks *)

Module WeekSpec.
Import Js Utils Value Grid Weekly.

Lemma getDay_range d : 0 <= getDay d <= 6.
Proof. unfold getDay. pose proof (Z.mod_pos_bound (d + 4) 7). lia. Qed.

Lemma getMonday_offset d : daysBetween (getMonday d) d = (d + 3) mod 7.
Proof.
  unfold daysBetween, getMonday, getDay.
  destruct (Z.eqb_spec ((d + 4) mod 7) 0) as [E|E];
    pose proof (Z.mod_pos_bound (d + 4) 7 ltac:(lia));
    pose proof (Z.mod_pos_bound (d + 3) 7 ltac:(lia));
    pose proof (Z.div_mod (d + 4) 7 ltac:(lia));
    pose proof (Z.div_mod (d + 3) 7 ltac:(lia)); lia.
Qed.

Lemma dayIndexOf_offset d : dayIndexOf d = (d + 3) mod 7.
Proof.
  rewrite <- getMonday_offset. unfold dayIndexOf, daysBetween, getMonday. cbn zeta.
  destruct (getDay d =? 0); lia.
Qed.

Lemma dayIndexOf_range d : 0 <= dayIndexOf d <= 6.
Proof. rewrite dayIndexOf_offset. pose proof (Z.mod_pos_bound (d + 3) 7). lia. Qed.

Lemma getMonday_within d k : 0 <= k <= 6 -> getMonday (getMonday d + k) = getMonday d.
Proof.
  intros Hk.
  pose proof (getMonday_offset d) as H1.
  pose proof (getMonday_offset (getMonday d + k)) as H2.
  unfold daysBetween in *.
  assert (E : (getMonday d + k + 3) mod 7 = k).
  { replace (getMonday d + k + 3) with (k + ((d + 3) / 7) * 7).
    - rewrite Z.mod_add by lia. apply Z.mod_small. lia.
    - pose proof (Z.div_mod (d + 3) 7 ltac:(lia)). lia. }
  lia.
Qed.

(** X5.  [getMonday] returns the Monday of the date's week: a day that
    [getDay] reports as 1, at most six days back, and the same one for all
    seven days from it; the day index the Weekly scripts compute from
    [getDay] (0 for Monday, 6 for Sunday) is the number of days
    [daysBetween] counts from that Monday. *)
Theorem getMonday_is_the_monday_of_the_week :
  forall d k : Z,
    0 <= k <= 6 ->
    getDay (getMonday d) = 1
    /\ 0 <= daysBetween (getMonday d) d <= 6
    /\ dayIndexOf d = daysBetween (getMonday d) d
    /\ getMonday (getMonday d + k) = getMonday d
    /\ dayIndexOf (getMonday d + k) = k.
Proof.
  intros d k Hk.
  pose proof (getMonday_offset d) as Ho.
  pose proof (Z.mod_pos_bound (d + 3) 7 ltac:(lia)) as Hb.
  split; [|split; [|split; [|split]]].
  - unfold getDay. unfold daysBetween in Ho.
    replace (getMonday d + 4) with (1 + ((d + 3) / 7) * 7)
      by (pose proof (Z.div_mod (d + 3) 7 ltac:(lia)); lia).
    rewrite Z.mod_add by lia. reflexivity.
  - lia.
  - rewrite dayIndexOf_offset. lia.
  - apply getMonday_within, Hk.
  - pose proof (getMonday_offset (getMonday d + k)) as Hk'.
    rewrite getMonday_within in Hk' by exact Hk.
    rewrite dayIndexOf_offset, <- Hk'. unfold daysBetween. lia.
Qed.

(** Tuesday 2024-12-17 and the Sunday of its week. *)
Lemma getMonday_is_the_monday_of_the_week_witness :
  getDay (getMonday (newDate 2024 11 17)) = 1
  /\ 0 <= daysBetween (getMonday (newDate 2024 11 17)) (newDate 2024 11 17) <= 6
  /\ dayIndexOf (newDate 2024 11 17)
     = daysBetween (getMonday (newDate 2024 11 17)) (newDate 2024 11 17)
  /\ getMonday (getMonday (newDate 2024 11 17) + 6) = getMonday (newDate 2024 11 17)
  /\ dayIndexOf (getMonday (newDate 2024 11 17) + 6) = 6.
Proof. apply getMonday_is_the_monday_of_the_week. lia. Defined.

End WeekSpec.

(** ** weekly.js: the Summary sheet *)

Module SummaryFacts.
Import Js Utils Value Grid Weekly.

Lemma numberIn_JNum `{Builtins} q : (numberIn (JNum q) == q)%Q.
Proof.
  unfold numberIn, orQ, parseFloat.
  destruct (Qeq_bool q 0) eqn:E; [|reflexivity].
  apply Qeq_bool_iff in E. symmetry. exact E.
Qed.

Section WithBuiltins.
Context `{Builtins}.

(** The search for today's row stops at the first row holding the date. *)
Lemma findSummaryRow_spec (f : Z -> jsval) todayStr n :
  forall a,
    0 <= a ->
    let found := findSummaryRow (map f (zrange a n)) (a - 1) todayStr in
    (found = -1 /\ forall r, a <= r < a + Z.of_nat n -> toStr (f r) <> todayStr)
    \/ (a <= found < a + Z.of_nat n
        /\ toStr (f found) = todayStr
        /\ forall r, a <= r < found -> toStr (f r) <> todayStr).
Proof.
  induction n as [|n IH]; intros a Ha; cbn zeta; cbn [zrange map findSummaryRow].
  - left. split; [reflexivity | intros r Hr; lia].
  - destruct (String.eqb (toStr (f a)) todayStr) eqn:E.
    + right. apply String.eqb_eq in E.
      replace (a - 1 + 1) with a by lia.
      split; [lia|]. split; [exact E | intros r Hr; lia].
    + apply String.eqb_neq in E.
      replace (a - 1 + 1) with (a + 1 - 1) by lia.
      destruct (IH (a + 1) ltac:(lia)) as [[Hn Hall] | (Hr & Hs & Hall)].
      * left. split; [exact Hn|]. intros r Hr.
        destruct (Z.eq_dec r a) as [->|Hne]; [exact E | apply Hall; lia].
      * right. split; [lia|]. split; [exact Hs|]. intros r Hr'.
        destruct (Z.eq_dec r a) as [->|Hne]; [exact E | apply Hall; lia].
Qed.

Lemma dateColumn_rows summary L :
  0 <= L ->
  columnValues summary (hostColumn CONFIG.SUMMARY.DATE_COLUMN) 1 (L + 1)
  = map (fun r => values summary (1, r)) (zrange 1 (Z.to_nat (L + 1))).
Proof.
  intros HL. unfold columnValues, rangeRows.
  change (hostColumn CONFIG.SUMMARY.DATE_COLUMN) with 1.
  rewrite Z.min_l by lia. do 2 f_equal. lia.
Qed.

(** Where [updateSummary] settles, and what the session and the date column
    look like afterwards. *)
Lemma updateSummary_row now pos neg w summary :
  summarySheet (wb w) = Some summary ->
  0 <= weekly_summaryL (st w) ->
  let w' := updateSummary now pos neg w in
  let r := summaryRowFor now w summary in
  let todayStr := formatDateYYYYMMDD (today now) in
  exists summary',
    summarySheet (wb w') = Some summary'
    /\ 1 <= r <= weekly_summaryL (st w') + 1
    /\ weekly_summaryL (st w) <= weekly_summaryL (st w') <= weekly_summaryL (st w) + 1
    /\ (forall r', 1 <= r' < r -> toStr (values summary (1, r')) <> todayStr)
    /\ (r <> weekly_summaryL (st w) + 1 -> toStr (values summary (1, r)) = todayStr)
    /\ toStr (values summary' (1, r)) = todayStr
    /\ (forall c,
          ~ (snd c = r /\ (fst c = 1 \/ fst c = 4 \/ fst c = 5 \/ fst c = 6)) ->
          values summary' c = values summary c)
    /\ fill summary' = fill summary
    /\ ((exists r', 1 <= r' <= weekly_summaryL (st w) + 1
                    /\ toStr (values summary (1, r')) = todayStr) ->
        st w' = st w).
Proof.
  intros Hsum HL. cbn zeta. unfold updateSummary, summaryRowFor. rewrite Hsum.
  rewrite dateColumn_rows by exact HL.
  pose proof (findSummaryRow_spec (fun r => values summary (1, r))
                (formatDateYYYYMMDD (today now))
                (Z.to_nat (weekly_summaryL (st w) + 1)) 1 ltac:(lia)) as Hfound.
  cbn zeta in Hfound. change (1 - 1) with 0 in Hfound.
  rewrite Z2Nat.id in Hfound by lia.
  set (found := findSummaryRow _ _ _) in *.
  set (todayStr := formatDateYYYYMMDD (today now)) in *.
  set (L := weekly_summaryL (st w)) in *.
  set (sr := if found =? -1 then L + 1 else found).
  change (at_ CONFIG.SUMMARY.DATE_COLUMN sr) with (1, sr).
  change (at_ CONFIG.SUMMARY.POSITIVE_SCORE_COLUMN sr) with (4, sr).
  change (at_ CONFIG.SUMMARY.NEGATIVE_SCORE_COLUMN sr) with (5, sr).
  change (at_ CONFIG.SUMMARY.TOTAL_SCORE_COLUMN sr) with (6, sr).
  eexists. split; [reflexivity|].
  cbn [st withSummary withSession].
  assert (Hframe : forall c : cell,
             ~ (snd c = sr /\ (fst c = 1 \/ fst c = 4 \/ fst c = 5 \/ fst c = 6)) ->
             cell_eqb c (1, sr) = false /\ cell_eqb c (4, sr) = false
             /\ cell_eqb c (5, sr) = false /\ cell_eqb c (6, sr) = false).
  { intros [cc cr] Hc. cbn [fst snd] in Hc. unfold cell_eqb. cbn [fst snd].
    destruct (Z.eqb_spec cr sr) as [->|Hr]; rewrite ?andb_false_r; [|tauto].
    rewrite !andb_true_r.
    repeat split; apply Z.eqb_neq; intros ->; apply Hc; tauto. }
  destruct Hfound as [[Hnone Hall] | (Hr & Hstr & Hall)].
  - assert (E : (found =? -1) = true) by (apply Z.eqb_eq; exact Hnone).
    assert (Hsr : sr = L + 1) by (unfold sr; rewrite E; reflexivity).
    rewrite E. clearbody sr. subst sr. cbn [weekly_summaryL set_summaryL]. fold L.
    split; [lia|]. split; [lia|].
    split; [intros r' Hr'; apply Hall; lia|].
    split; [intros Hne; exfalso; apply Hne; reflexivity|].
    split; [|split; [|split]].
    + destruct (Qgtb pos 0), (Qltb neg 0);
        cbn [values setValue addTo cell_eqb fst snd andb Z.eqb Pos.eqb];
        rewrite ?Z.eqb_refl; reflexivity.
    + intros c Hc.
      destruct (Hframe c Hc) as (H1 & H4 & H5 & H6).
      destruct (Qgtb pos 0), (Qltb neg 0);
        cbn [values setValue addTo]; rewrite ?H1, ?H4, ?H5, ?H6; reflexivity.
    + destruct (Qgtb pos 0), (Qltb neg 0); reflexivity.
    + intros (r' & Hr' & Hs'). exfalso. apply (Hall r'); [lia | exact Hs'].
  - assert (E : (found =? -1) = false) by (apply Z.eqb_neq; lia).
    assert (Hsr : sr = found) by (unfold sr; rewrite E; reflexivity).
    rewrite E. clearbody sr. subst sr. fold L.
    split; [lia|]. split; [lia|].
    split; [exact Hall|].
    split; [intros _; exact Hstr|].
    split; [|split; [|split]].
    + destruct (Qgtb pos 0), (Qltb neg 0);
        cbn [values setValue addTo cell_eqb fst snd andb Z.eqb Pos.eqb];
        exact Hstr.
    + intros c Hc.
      destruct (Hframe c Hc) as (H1 & H4 & H5 & H6).
      destruct (Qgtb pos 0), (Qltb neg 0);
        cbn [values setValue addTo]; rewrite ?H1, ?H4, ?H5, ?H6; reflexivity.
    + destruct (Qgtb pos 0), (Qltb neg 0); reflexivity.
    + intros _. reflexivity.
Qed.

End WithBuiltins.
End SummaryFacts.

Module SummarySpec.
Import Js Utils Value Grid Weekly Examples.

(** X6.  With a Summary sheet, [updateSummary] books a non-negative
    [positiveScore] and a non-positive [negativeScore] on one row, the one
    it settles on: the date column reads as today's date there, the numbers
    in the positive, negative and total columns grow by the positive score,
    the negative score and their sum, so a row whose total was the sum of
    the other two stays so; no other cell of the sheet and no fill colour
    changes. *)
Theorem updateSummary_books_one_row :
  forall `{Builtins} (now : clock) (pos neg : Q) (w : world) (summary : sheet),
    summarySheet (wb w) = Some summary ->
    0 <= weekly_summaryL (st w) ->
    (0 <= pos)%Q -> (neg <= 0)%Q ->
    let w' := updateSummary now pos neg w in
    let r := summaryRowFor now w summary in
    exists summary',
      summarySheet (wb w') = Some summary'
      /\ toStr (values summary' (1, r)) = formatDateYYYYMMDD (today now)
      /\ (numberIn (values summary' (4, r)%Z) == numberIn (values summary (4, r)%Z) + pos)%Q
      /\ (numberIn (values summary' (5, r)%Z) == numberIn (values summary (5, r)%Z) + neg)%Q
      /\ (numberIn (values summary' (6, r)%Z)
          == numberIn (values summary (6, r)%Z) + pos + neg)%Q
      /\ ((numberIn (values summary (6, r)%Z)
           == numberIn (values summary (4, r)%Z) + numberIn (values summary (5, r)%Z))%Q ->
          (numberIn (values summary' (6, r)%Z)
           == numberIn (values summary' (4, r)%Z) + numberIn (values summary' (5, r)%Z))%Q)
      /\ (forall c,
            ~ (snd c = r /\ (fst c = 1 \/ fst c = 4 \/ fst c = 5 \/ fst c = 6)) ->
            values summary' c = values summary c)
      /\ fill summary' = fill summary.
Proof.
  intros B now pos neg w summary Hsum HL Hpos Hneg. cbn zeta.
  destruct (SummaryFacts.updateSummary_row now pos neg w summary Hsum HL)
    as (summary' & Hsum' & _ & _ & _ & _ & Hdate & Hframe & Hfill & _).
  destruct (ScoreFacts.updateSummary_effect now pos neg w summary Hsum)
    as (summary'' & Hsum'' & _ & _ & _ & _ & HD & HE & HF).
  cbn zeta in *. rewrite Hsum' in Hsum''. injection Hsum'' as <-.
  set (r := summaryRowFor now w summary) in *.
  assert (HD' : (numberIn (values summary' (4, r)%Z)
                 == numberIn (values summary (4, r)%Z) + pos)%Q).
  { rewrite HD. destruct (Qgtb pos 0) eqn:E; [apply SummaryFacts.numberIn_JNum|].
    unfold Qgtb in E. apply negb_false_iff, Qle_bool_iff in E.
    assert (pos == 0)%Q as -> by (apply Qle_antisym; assumption).
    symmetry. apply Qplus_0_r. }
  assert (HE' : (numberIn (values summary' (5, r)%Z)
                 == numberIn (values summary (5, r)%Z) + neg)%Q).
  { rewrite HE. destruct (Qltb neg 0) eqn:E; [apply SummaryFacts.numberIn_JNum|].
    unfold Qltb in E. apply negb_false_iff, Qle_bool_iff in E.
    assert (neg == 0)%Q as -> by (apply Qle_antisym; assumption).
    symmetry. apply Qplus_0_r. }
  assert (HF' : (numberIn (values summary' (6, r)%Z)
                 == numberIn (values summary (6, r)%Z) + pos + neg)%Q).
  { rewrite HF. apply SummaryFacts.numberIn_JNum. }
  exists summary'. split; [exact Hsum'|]. split; [exact Hdate|].
  split; [exact HD'|]. split; [exact HE'|]. split; [exact HF'|].
  split; [|split; [exact Hframe | exact Hfill]].
  intros Hbal. rewrite HF', HD', HE', Hbal. ring.
Qed.

Lemma updateSummary_books_one_row_witness :
  let w' := @updateSummary plainBuiltins tenOClock 3 0 deepWorld in
  let r := @summaryRowFor plainBuiltins tenOClock deepWorld emptySheet in
  exists summary',
    summarySheet (wb w') = Some summary'
    /\ @toStr plainBuiltins (values summary' (1, r)) = formatDateYYYYMMDD (today tenOClock)
    /\ (@numberIn plainBuiltins (values summary' (4, r)%Z)
        == @numberIn plainBuiltins (values emptySheet (4, r)%Z) + 3)%Q
    /\ (@numberIn plainBuiltins (values summary' (5, r)%Z)
        == @numberIn plainBuiltins (values emptySheet (5, r)%Z) + 0)%Q
    /\ (@numberIn plainBuiltins (values summary' (6, r)%Z)
        == @numberIn plainBuiltins (values emptySheet (6, r)%Z) + 3 + 0)%Q
    /\ ((@numberIn plainBuiltins (values emptySheet (6, r)%Z)
         == @numberIn plainBuiltins (values emptySheet (4, r)%Z)
            + @numberIn plainBuiltins (values emptySheet (5, r)%Z))%Q ->
        (@numberIn plainBuiltins (values summary' (6, r)%Z)
         == @numberIn plainBuiltins (values summary' (4, r)%Z)
            + @numberIn plainBuiltins (values summary' (5, r)%Z))%Q)
    /\ (forall c,
          ~ (snd c = r /\ (fst c = 1 \/ fst c = 4 \/ fst c = 5 \/ fst c = 6)) ->
          values summary' c = values emptySheet c)
    /\ fill summary' = fill emptySheet.
Proof.
  apply (@updateSummary_books_one_row plainBuiltins tenOClock 3 0 deepWorld emptySheet).
  - reflexivity.
  - vm_compute. discriminate.
  - vm_compute. discriminate.
  - vm_compute. discriminate.
Defined.

(** X7.  With a Summary sheet and a non-negative row counter, a second
    [updateSummary] on the same day settles on the row of the first one and
    adds no row: the counter, which the first call raised by at most one,
    stays, and the total of that row has grown by both bookings. *)
Theorem updateSummary_same_day_same_row :
  forall `{Builtins} (now1 now2 : clock) (pos1 neg1 pos2 neg2 : Q) (w : world)
         (summary : sheet),
    summarySheet (wb w) = Some summary ->
    0 <= weekly_summaryL (st w) ->
    today now2 = today now1 ->
    let w1 := updateSummary now1 pos1 neg1 w in
    let w2 := updateSummary now2 pos2 neg2 w1 in
    let r := summaryRowFor now1 w summary in
    exists summary1 summary2,
      summarySheet (wb w1) = Some summary1
      /\ summarySheet (wb w2) = Some summary2
      /\ summaryRowFor now2 w1 summary1 = r
      /\ weekly_summaryL (st w) <= weekly_summaryL (st w1) <= weekly_summaryL (st w) + 1
      /\ st w2 = st w1
      /\ (numberIn (values summary2 (6, r)%Z)
          == numberIn (values summary (6, r)%Z) + pos1 + neg1 + pos2 + neg2)%Q.
Proof.
  intros B now1 now2 pos1 neg1 pos2 neg2 w summary Hsum HL Hday. cbn zeta.
  destruct (SummaryFacts.updateSummary_row now1 pos1 neg1 w summary Hsum HL)
    as (summary1 & Hsum1 & Hr & HL1 & Hfirst & _ & Hdate & Hframe & _ & _).
  destruct (ScoreFacts.updateSummary_effect now1 pos1 neg1 w summary Hsum)
    as (summary1' & Hsum1' & _ & _ & _ & _ & _ & _ & HF1).
  cbn zeta in *. rewrite Hsum1 in Hsum1'. injection Hsum1' as <-.
  set (w1 := updateSummary now1 pos1 neg1 w) in *.
  set (r := summaryRowFor now1 w summary) in *.
  assert (HL1' : 0 <= weekly_summaryL (st w1)) by lia.
  destruct (SummaryFacts.updateSummary_row now2 pos2 neg2 w1 summary1 Hsum1 HL1')
    as (summary2 & Hsum2 & Hr2 & _ & Hfirst2 & Hold2 & _ & _ & _ & Hknown).
  destruct (ScoreFacts.updateSummary_effect now2 pos2 neg2 w1 summary1 Hsum1)
    as (summary2' & Hsum2' & _ & _ & _ & _ & _ & _ & HF2).
  cbn zeta in *. rewrite Hsum2 in Hsum2'. injection Hsum2' as <-.
  rewrite Hday in *.
  assert (Hsame : summaryRowFor now2 w1 summary1 = r).
  { set (r2 := summaryRowFor now2 w1 summary1) in *.
    destruct (Z.lt_trichotomy r2 r) as [Hlt | [Heq | Hgt]]; [|exact Heq|].
    - exfalso. apply (Hfirst r2); [lia|].
      rewrite <- (Hframe (1, r2)) by (cbn [fst snd]; lia).
      apply Hold2. lia.
    - exfalso. apply (Hfirst2 r); [lia | exact Hdate]. }
  exists summary1, summary2.
  split; [exact Hsum1|]. split; [exact Hsum2|]. split; [exact Hsame|].
  split; [exact HL1|]. split.
  - apply Hknown. exists r. split; [lia | exact Hdate].
  - rewrite Hsame in HF2. rewrite HF2, HF1.
    rewrite SummaryFacts.numberIn_JNum, SummaryFacts.numberIn_JNum. ring.
Qed.

Lemma updateSummary_same_day_same_row_witness :
  let w1 := @updateSummary plainBuiltins tenOClock 3 0 deepWorld in
  let w2 := @updateSummary plainBuiltins tenOClock 0 (-1) w1 in
  let r := @summaryRowFor plainBuiltins tenOClock deepWorld emptySheet in
  exists summary1 summary2,
    summarySheet (wb w1) = Some summary1
    /\ summarySheet (wb w2) = Some summary2
    /\ @summaryRowFor plainBuiltins tenOClock w1 summary1 = r
    /\ weekly_summaryL (st deepWorld) <= weekly_summaryL (st w1)
       <= weekly_summaryL (st deepWorld) + 1
    /\ st w2 = st w1
    /\ (@numberIn plainBuiltins (values summary2 (6, r)%Z)
        == @numberIn plainBuiltins (values emptySheet (6, r)%Z) + 3 + 0 + 0 + (-1))%Q.
Proof.
  apply (@updateSummary_same_day_same_row plainBuiltins tenOClock tenOClock 3 0 0 (-1)
           deepWorld emptySheet).
  - reflexivity.
  - vm_compute. discriminate.
  - reflexivity.
Defined.

End SummarySpec.

(** ** weekly.js: score entries *)

Module ScoreMoreFacts.
Import Js Utils Value Grid Weekly.

Section WithBuiltins.
Context `{Builtins}.

(** [updateSummary] writes to the Summary sheet and the row counter only. *)
Lemma updateSummary_frame now pos neg w :
  let w' := updateSummary now pos neg w in
  weeklySheet (wb w') = weeklySheet (wb w)
  /\ habitsSheet (wb w') = habitsSheet (wb w)
  /\ tasksSheet (wb w') = tasksSheet (wb w)
  /\ out w' = out w
  /\ currentSheet (st w') = currentSheet (st w)
  /\ habits_currentDayIndex (st w') = habits_currentDayIndex (st w)
  /\ habits_lastRow (st w') = habits_lastRow (st w)
  /\ weekly_dIndex (st w') = weekly_dIndex (st w)
  /\ weekly_lastMonday (st w') = weekly_lastMonday (st w)
  /\ weekly_taskl (st w') = weekly_taskl (st w)
  /\ weekly_lastInitDate (st w') = weekly_lastInitDate (st w)
  /\ (summarySheet (wb w) = None -> w' = w).
Proof.
  cbn zeta. unfold updateSummary.
  destruct (summarySheet (wb w)) as [summary|]; [|repeat split; reflexivity].
  destruct (findSummaryRow _ _ _ =? -1); repeat split; try reflexivity; discriminate.
Qed.

(** The Summary sheet after [updateSummary] depends on the world through
    the Summary sheet and the row counter only. *)
Lemma updateSummary_ext now pos neg w1 w2 :
  summarySheet (wb w1) = summarySheet (wb w2) ->
  weekly_summaryL (st w1) = weekly_summaryL (st w2) ->
  summarySheet (wb (updateSummary now pos neg w1))
  = summarySheet (wb (updateSummary now pos neg w2))
  /\ weekly_summaryL (st (updateSummary now pos neg w1))
     = weekly_summaryL (st (updateSummary now pos neg w2)).
Proof.
  intros Hs HL. unfold updateSummary. rewrite Hs, HL.
  destruct (summarySheet (wb w2)) as [summary|] eqn:E2; [|split; congruence].
  destruct (findSummaryRow _ _ _ =? -1); split; try reflexivity.
  cbn [st withSummary withSession]. exact HL.
Qed.

(** The scan of the ledger when no row holds the name: the last row
    holding "others" is remembered. *)
Lemma findTask_missing (f : Z -> jsval) taskName n :
  forall a o,
    (forall r, a <= r < a + Z.of_nat n -> strictEq (f r) taskName = false) ->
    let res := findTask (map f (zrange a n)) (a - 4) taskName o in
    fst res = -1
    /\ ((snd res = o
         /\ forall r, a <= r < a + Z.of_nat n -> strictEq (f r) (JStr "others") = false)
        \/ (a <= snd res < a + Z.of_nat n
            /\ strictEq (f (snd res)) (JStr "others") = true
            /\ forall r, snd res < r < a + Z.of_nat n ->
                         strictEq (f r) (JStr "others") = false)).
Proof.
  induction n as [|n IH]; intros a o Hmiss; cbn zeta; cbn [zrange map findTask].
  - cbn [fst snd]. split; [reflexivity|]. left. split; [reflexivity | intros r Hr; lia].
  - rewrite (Hmiss a) by lia.
    replace (a - 4 + 1) with (a + 1 - 4) by lia.
    specialize (IH (a + 1)
                  (if strictEq (f a) (JStr "others") then a - 4 + 4 else o)
                  ltac:(intros r Hr; apply Hmiss; lia)).
    cbn zeta in IH. destruct IH as [Hfst Hsnd].
    split; [exact Hfst|].
    destruct Hsnd as [[Ho Hnone] | (Hr & Hhit & Hlast)].
    + destruct (strictEq (f a) (JStr "others")) eqn:E.
      * right. rewrite Ho. replace (a - 4 + 4) with a by lia.
        split; [lia|]. split; [exact E|]. intros r Hr. apply Hnone. lia.
      * left. split; [exact Ho|]. intros r Hr.
        destruct (Z.eq_dec r a) as [->|Hne]; [exact E | apply Hnone; lia].
    + right. split; [lia|]. split; [exact Hhit|]. intros r Hr'. apply Hlast. lia.
Qed.

Lemma ledger_rows tasks L :
  4 <= L ->
  columnValues tasks (hostColumn "A") 4 L
  = map (fun r => values tasks (1, r)) (zrange 4 (Z.to_nat (L - 3))).
Proof.
  intros HL. unfold columnValues, rangeRows. change (hostColumn "A") with 1.
  rewrite Z.min_l by lia. do 2 f_equal. lia.
Qed.

(** A name the ledger does not list goes to the last "others" row. *)
Lemma resolveTask_others now tasks s taskName r :
  4 <= r <= weekly_taskl s ->
  (forall r', 4 <= r' <= weekly_taskl s -> strictEq (values tasks (1, r')) taskName = false) ->
  strictEq (values tasks (1, r)) (JStr "others") = true ->
  (forall r', r < r' <= weekly_taskl s ->
              strictEq (values tasks (1, r')) (JStr "others") = false) ->
  resolveTask now tasks s taskName = (r, weightAt tasks r, tasks, s).
Proof.
  intros Hr Hmiss Hhit Hlast. unfold resolveTask.
  rewrite ledger_rows by lia.
  pose proof (findTask_missing (fun r => values tasks (1, r)) taskName
                (Z.to_nat (weekly_taskl s - 3)) 4 (-1)) as Hfind.
  cbn zeta in Hfind. change (4 - 4) with 0 in Hfind.
  rewrite Z2Nat.id in Hfind by lia.
  destruct (findTask _ _ _ _) as [found othersIndex]. cbn [fst snd] in Hfind.
  destruct Hfind as [-> Ho]; [intros r' Hr'; apply Hmiss; lia|].
  assert (othersIndex = r) as ->.
  { destruct Ho as [[_ Hnone] | (Hrange & Hhit' & Hlast')].
    - rewrite Hnone in Hhit by lia. discriminate.
    - destruct (Z.lt_trichotomy othersIndex r) as [Hlt | [Heq | Hgt]]; [|exact Heq|].
      + rewrite Hlast' in Hhit by lia. discriminate.
      + rewrite Hlast in Hhit' by lia. discriminate. }
  cbn [Z.eqb negb].
  destruct (r =? -1) eqn:E; [apply Z.eqb_eq in E; lia|]. reflexivity.
Qed.

(** With no "others" row either, one is appended to the ledger. *)
Lemma resolveTask_created now tasks s taskName :
  4 <= weekly_taskl s ->
  (forall r', 4 <= r' <= weekly_taskl s -> strictEq (values tasks (1, r')) taskName = false) ->
  (forall r', 4 <= r' <= weekly_taskl s ->
              strictEq (values tasks (1, r')) (JStr "others") = false) ->
  resolveTask now tasks s taskName
  = (weekly_taskl s + 1, 1%Q,
     setValue
       (setValue (setValue tasks (1, weekly_taskl s + 1) (JStr "others"))
          (2, weekly_taskl s + 1) (JNum 1))
       (3, weekly_taskl s + 1) (JStr (formatDateTime now)),
     set_taskl s (weekly_taskl s + 1)).
Proof.
  intros HL Hmiss Hnone. unfold resolveTask.
  rewrite ledger_rows by lia.
  pose proof (findTask_missing (fun r => values tasks (1, r)) taskName
                (Z.to_nat (weekly_taskl s - 3)) 4 (-1)) as Hfind.
  cbn zeta in Hfind. change (4 - 4) with 0 in Hfind.
  rewrite Z2Nat.id in Hfind by lia.
  destruct (findTask _ _ _ _) as [found othersIndex]. cbn [fst snd] in Hfind.
  destruct Hfind as [-> Ho]; [intros r' Hr'; apply Hmiss; lia|].
  assert (othersIndex = -1) as ->.
  { destruct Ho as [[Ho _] | (Hrange & Hhit' & _)]; [exact Ho|].
    rewrite Hnone in Hhit' by lia. discriminate. }
  reflexivity.
Qed.

(** What one processed score entry does, given the ledger row and weight
    the scan settles on. *)
Lemma processWeeklyScoreChange_via now row col newScore w tasks lastMonday
      r weight tasks1 st1 :
  2 <= col ->
  tasksSheet (wb w) = Some tasks ->
  weekly_lastMonday (st w) = Some lastMonday ->
  truthy (values (weeklySheet (wb w)) (col - 1, row)) = true ->
  resolveTask now tasks (st w) (values (weeklySheet (wb w)) (col - 1, row))
  = (r, weight, tasks1, st1) ->
  let w' := processWeeklyScoreChange now row col newScore w in
  let ws := (weight * newScore)%Q in
  let weekly := weeklySheet (wb w) in
  let total := (numberIn (values weekly (col, 38)%Z) + ws)%Q in
  out w'
  = (out w ++ [ShowStatus (Scored (values weekly (col - 1, row)) ws total)])%list
  /\ values (weeklySheet (wb w')) (col, 38) = JNum total
  /\ (forall c, c <> (col, 38) -> values (weeklySheet (wb w')) c = values weekly c)
  /\ fill (weeklySheet (wb w')) (col, row) = Some (scoreColor ws)
  /\ fill (weeklySheet (wb w')) (col - 1, row) = Some (scoreColor ws)
  /\ (forall c, c <> (col, row) -> c <> (col - 1, row) ->
                fill (weeklySheet (wb w')) c = fill weekly c)
  /\ habitsSheet (wb w') = habitsSheet (wb w)
  /\ weekly_taskl (st w') = weekly_taskl st1
  /\ (weekly_summaryL st1 = weekly_summaryL (st w) ->
      summarySheet (wb w')
      = summarySheet
          (wb (updateSummary now (if Qgtb ws 0 then ws else 0%Q)
                 (if Qltb ws 0 then ws else 0%Q) w)))
  /\ exists tasks',
      tasksSheet (wb w') = Some tasks'
      /\ values tasks' (4, r) = JStr (formatDateTime now)
      /\ values tasks' (6, r) = JNum (inject_Z (countIn (values tasks1 (6, r)) + 1))
      /\ values tasks' (7, r) = JNum (numberIn (values tasks1 (7, r)%Z) + ws)%Q
      /\ (forall c, ~ (snd c = r /\ (fst c = 4 \/ fst c = 6 \/ fst c = 7)) ->
                    values tasks' c = values tasks1 c)
      /\ fill tasks' = fill tasks1.
Proof.
  intros Hcol Htasks Hmon Htruthy Hres. cbn zeta.
  assert (Htc : at_ (indexToColumnLetter (col - 2)) row = (col - 1, row)).
  { unfold at_. rewrite ColumnFacts.hostColumn_indexToColumnLetter by lia.
    f_equal. lia. }
  assert (Hsc : forall x, at_ (indexToColumnLetter (col - 1)) x = (col, x)).
  { intros x. unfold at_. rewrite ColumnFacts.hostColumn_indexToColumnLetter by lia.
    f_equal. lia. }
  unfold processWeeklyScoreChange. rewrite Htasks. cbv zeta.
  rewrite !Htc, !Hsc. rewrite Htruthy. cbn [negb]. rewrite Hmon, Hres.
  set (ws := (weight * newScore)%Q).
  change (at_ "D" r) with (4, r). change (at_ "F" r) with (6, r).
  change (at_ "G" r) with (7, r). change CONFIG.WEEKLY.scoreLine with 38.
  set (weekly := weeklySheet (wb w)).
  set (weekly2 := setFill (setFill weekly (col, row) _) (col - 1, row) _).
  set (weekly3 := setValue weekly2 (col, 38) _).
  set (w1 := withTasks (withSession (withWeekly w weekly3) st1) tasks1).
  destruct (updateSummary_frame now (if Qgtb ws 0 then ws else 0%Q)
              (if Qltb ws 0 then ws else 0%Q) w1)
    as (Hwk & Hhb & _ & Hout & _ & _ & _ & _ & _ & Htl & _ & _).
  cbn zeta in *.
  set (w2 := updateSummary now _ _ w1) in *.
  cbn [wb st out emit withTasks weeklySheet habitsSheet summarySheet tasksSheet].
  rewrite Hwk, Hhb, Hout, Htl.
  unfold w1 at 1 2 3 4 5 6 7.
  cbn [wb st out withTasks withSession withWeekly weeklySheet habitsSheet].
  split; [reflexivity|].
  split; [unfold weekly3; apply GridFacts.values_setValue_same|].
  split.
  { intros c Hc. unfold weekly3. rewrite GridFacts.values_setValue_other by exact Hc.
    reflexivity. }
  split.
  { unfold weekly3, weekly2. cbn [fill setValue setFill].
    destruct (cell_eqb (col, row) (col - 1, row)); [reflexivity|].
    rewrite GridFacts.cell_eqb_refl. reflexivity. }
  split.
  { unfold weekly3, weekly2. cbn [fill setValue setFill].
    rewrite GridFacts.cell_eqb_refl. reflexivity. }
  split.
  { intros c Hc1 Hc2. unfold weekly3, weekly2. cbn [fill setValue setFill].
    rewrite (GridFacts.cell_eqb_neq _ _ Hc1), (GridFacts.cell_eqb_neq _ _ Hc2).
    reflexivity. }
  split; [reflexivity|].
  split; [reflexivity|].
  split.
  { intros HL. unfold w2. apply updateSummary_ext; [reflexivity | exact HL]. }
  eexists. split; [reflexivity|].
  assert (Hne : forall a b : Z, a <> b -> cell_eqb (a, r) (b, r) = false).
  { intros a b Hab. apply GridFacts.cell_eqb_neq. intros [= E]. contradiction. }
  cbn [values fill setValue].
  rewrite ?GridFacts.cell_eqb_refl, ?(Hne 4 6), ?(Hne 4 7), ?(Hne 6 7), ?(Hne 6 4),
    ?(Hne 7 4), ?(Hne 7 6) by lia.
  repeat (split; [reflexivity|]).
  split; [|reflexivity].
  intros [cc cr] Hc. cbn [fst snd] in Hc. unfold cell_eqb. cbn [fst snd].
  destruct (Z.eqb_spec cr r) as [->|Hr]; rewrite ?andb_false_r; [|reflexivity].
  rewrite !andb_true_r.
  replace (cc =? 7) with false by (symmetry; apply Z.eqb_neq; intros ->; apply Hc; tauto).
  replace (cc =? 6) with false by (symmetry; apply Z.eqb_neq; intros ->; apply Hc; tauto).
  replace (cc =? 4) with false by (symmetry; apply Z.eqb_neq; intros ->; apply Hc; tauto).
  reflexivity.
Qed.

End WithBuiltins.
End ScoreMoreFacts.

Module ScoreMoreSpec.
Import Js Utils Value Grid Weekly Examples MoreExamples.

(** X8.  A score entered next to a task name that no ledger row 4..taskl
    holds, while some row holds "others": [processWeeklyScoreChange] books
    it on the last such row [r], with that row's weight: the use count of
    row [r] grows by one and its cumulative score by the weighted score,
    which the status line reports; the ledger gets no new row and its name
    column stays as it is. *)
Theorem unlisted_task_is_booked_on_last_others_row :
  forall `{Builtins} (now : clock) (w : world) (row col : Z) (newScore : Q)
         (tasks : sheet) (lastMonday r : Z),
    let taskName := values (weeklySheet (wb w)) (col - 1, row) in
    2 <= col ->
    tasksSheet (wb w) = Some tasks ->
    weekly_lastMonday (st w) = Some lastMonday ->
    truthy taskName = true ->
    4 <= r <= weekly_taskl (st w) ->
    (forall r', 4 <= r' <= weekly_taskl (st w) ->
                strictEq (values tasks (1, r')) taskName = false) ->
    strictEq (values tasks (1, r)) (JStr "others") = true ->
    (forall r', r < r' <= weekly_taskl (st w) ->
                strictEq (values tasks (1, r')) (JStr "others") = false) ->
    let w' := processWeeklyScoreChange now row col newScore w in
    let ws := (weightAt tasks r * newScore)%Q in
    exists tasks',
      tasksSheet (wb w') = Some tasks'
      /\ values tasks' (6, r) = JNum (inject_Z (countIn (values tasks (6, r)) + 1))
      /\ values tasks' (7, r) = JNum (numberIn (values tasks (7, r)%Z) + ws)%Q
      /\ (forall r', values tasks' (1, r') = values tasks (1, r'))
      /\ weekly_taskl (st w') = weekly_taskl (st w)
      /\ out w'
         = (out w
            ++ [ShowStatus
                  (Scored taskName ws
                     (numberIn (values (weeklySheet (wb w)) (col, 38)%Z) + ws)%Q)])%list.
Proof.
  intros B now w row col newScore tasks lastMonday r taskName
         Hcol Htasks Hmon Htruthy Hr Hmiss Hhit Hlast. cbn zeta.
  pose proof (ScoreMoreFacts.resolveTask_others now tasks (st w) taskName r
                Hr Hmiss Hhit Hlast) as Hres.
  destruct (ScoreMoreFacts.processWeeklyScoreChange_via now row col newScore w tasks
              lastMonday r (weightAt tasks r) tasks (st w) Hcol Htasks Hmon Htruthy Hres)
    as (Hout & _ & _ & _ & _ & _ & _ & Htl & _ & tasks' & Ht' & _ & HF & HG & Hframe & _).
  exists tasks'. split; [exact Ht'|]. split; [exact HF|]. split; [exact HG|].
  split; [|split; [exact Htl | exact Hout]].
  intros r'. apply Hframe. cbn [fst snd]. lia.
Qed.

(** "Nap" is not in the ledger, whose rows 4 and 5 both hold "others". *)
Lemma unlisted_task_is_booked_on_last_others_row_witness :
  let w' := @processWeeklyScoreChange plainBuiltins tenOClock 5 4 2 othersWorld in
  let ws := (@weightAt plainBuiltins othersTasks 5 * 2)%Q in
  exists tasks',
    tasksSheet (wb w') = Some tasks'
    /\ values tasks' (6, 5)
       = JNum (inject_Z (@countIn plainBuiltins (values othersTasks (6, 5)) + 1))
    /\ values tasks' (7, 5)
       = JNum (@numberIn plainBuiltins (values othersTasks (7, 5)%Z) + ws)%Q
    /\ (forall r', values tasks' (1, r') = values othersTasks (1, r'))
    /\ weekly_taskl (st w') = weekly_taskl (st othersWorld)
    /\ out w'
       = (out othersWorld
          ++ [ShowStatus
                (Scored (values (weeklySheet (wb othersWorld)) (4 - 1, 5)) ws
                   (@numberIn plainBuiltins
                      (values (weeklySheet (wb othersWorld)) (4, 38)%Z) + ws)%Q)])%list.
Proof.
  apply (@unlisted_task_is_booked_on_last_others_row plainBuiltins tenOClock othersWorld
           5 4 2 othersTasks (newDate 2024 11 16) 5).
  - lia.
  - reflexivity.
  - reflexivity.
  - reflexivity.
  - cbn. lia.
  - intros r' Hr'. cbn in Hr'.
    assert (Hc : r' = 4 \/ r' = 5) by lia. destruct Hc as [-> | ->]; reflexivity.
  - reflexivity.
  - intros r' Hr'. cbn in Hr'. lia.
Defined.

(** X9.  A score entered next to a task name that no ledger row 4..taskl
    holds, when none holds "others" either: [processWeeklyScoreChange]
    appends the row taskl + 1 with the name "others", the weight 1 and the
    time of creation, raises the row counter to it, and books the entry
    there, unweighted: last use, use count and cumulative score.  The rows
    before it keep their values, so the next unlisted task finds this
    "others" row as the last one within the counter. *)
Theorem unlisted_task_creates_the_others_row :
  forall `{Builtins} (now : clock) (w : world) (row col : Z) (newScore : Q)
         (tasks : sheet) (lastMonday : Z),
    let taskName := values (weeklySheet (wb w)) (col - 1, row) in
    let r := weekly_taskl (st w) + 1 in
    2 <= col ->
    tasksSheet (wb w) = Some tasks ->
    weekly_lastMonday (st w) = Some lastMonday ->
    truthy taskName = true ->
    4 <= weekly_taskl (st w) ->
    (forall r', 4 <= r' <= weekly_taskl (st w) ->
                strictEq (values tasks (1, r')) taskName = false) ->
    (forall r', 4 <= r' <= weekly_taskl (st w) ->
                strictEq (values tasks (1, r')) (JStr "others") = false) ->
    let w' := processWeeklyScoreChange now row col newScore w in
    exists tasks',
      tasksSheet (wb w') = Some tasks'
      /\ weekly_taskl (st w') = r
      /\ values tasks' (1, r) = JStr "others"
      /\ values tasks' (2, r) = JNum 1
      /\ values tasks' (3, r) = JStr (formatDateTime now)
      /\ values tasks' (4, r) = JStr (formatDateTime now)
      /\ values tasks' (6, r) = JNum (inject_Z (countIn (values tasks (6, r)) + 1))
      /\ values tasks' (7, r) = JNum (numberIn (values tasks (7, r)%Z) + 1 * newScore)%Q
      /\ (forall c, snd c <> r -> values tasks' c = values tasks c)
      /\ strictEq (values tasks' (1, r)) (JStr "others") = true
      /\ out w'
         = (out w
            ++ [ShowStatus
                  (Scored taskName (1 * newScore)
                     (numberIn (values (weeklySheet (wb w)) (col, 38)%Z)
                      + 1 * newScore)%Q)])%list.
Proof.
  intros B now w row col newScore tasks lastMonday taskName r
         Hcol Htasks Hmon Htruthy HL Hmiss Hnone. cbn zeta.
  pose proof (ScoreMoreFacts.resolveTask_created now tasks (st w) taskName
                HL Hmiss Hnone) as Hres.
  fold r in Hres.
  set (tasks1 := setValue (setValue (setValue tasks (1, r) _) (2, r) _) (3, r) _) in Hres.
  destruct (ScoreMoreFacts.processWeeklyScoreChange_via now row col newScore w tasks
              lastMonday r 1%Q tasks1 (set_taskl (st w) r) Hcol Htasks Hmon Htruthy Hres)
    as (Hout & _ & _ & _ & _ & _ & _ & Htl & _ & tasks' & Ht' & HD & HF & HG & Hframe & _).
  assert (Hne : forall a b : Z, a <> b -> cell_eqb (a, r) (b, r) = false).
  { intros a b Hab. apply GridFacts.cell_eqb_neq. intros [= E]. contradiction. }
  assert (H1 : forall c, 3 < c -> values tasks1 (c, r) = values tasks (c, r)).
  { intros c Hc. unfold tasks1. cbn [values setValue].
    rewrite !Hne by lia. reflexivity. }
  exists tasks'. split; [exact Ht'|]. split; [exact Htl|].
  assert (HA : values tasks' (1, r) = JStr "others").
  { rewrite Hframe by (cbn [fst snd]; lia). unfold tasks1. cbn [values setValue].
    rewrite !Hne by lia. rewrite GridFacts.cell_eqb_refl. reflexivity. }
  split; [exact HA|].
  split.
  { rewrite Hframe by (cbn [fst snd]; lia). unfold tasks1. cbn [values setValue].
    rewrite !Hne by lia. rewrite GridFacts.cell_eqb_refl. reflexivity. }
  split.
  { rewrite Hframe by (cbn [fst snd]; lia). unfold tasks1. cbn [values setValue].
    rewrite GridFacts.cell_eqb_refl. reflexivity. }
  split; [exact HD|].
  split; [rewrite HF, H1 by lia; reflexivity|].
  split; [rewrite HG, H1 by lia; reflexivity|].
  split.
  { intros [cc cr] Hc. cbn [snd] in Hc. rewrite Hframe by (cbn [fst snd]; tauto).
    unfold tasks1. cbn [values setValue]. unfold cell_eqb. cbn [fst snd].
    replace (cr =? r) with false by (symmetry; apply Z.eqb_neq; exact Hc).
    rewrite !andb_false_r. reflexivity. }
  split; [rewrite HA; reflexivity | exact Hout].
Qed.

(** "Nap" is not in the ledger of "Deep Work" and "Read". *)
Lemma unlisted_task_creates_the_others_row_witness :
  let w' := @processWeeklyScoreChange plainBuiltins tenOClock 5 4 2 napWorld in
  exists tasks',
    tasksSheet (wb w') = Some tasks'
    /\ weekly_taskl (st w') = 6
    /\ values tasks' (1, 6) = JStr "others"
    /\ values tasks' (2, 6) = JNum 1
    /\ values tasks' (3, 6) = JStr (formatDateTime tenOClock)
    /\ values tasks' (4, 6) = JStr (formatDateTime tenOClock)
    /\ values tasks' (6, 6)
       = JNum (inject_Z (@countIn plainBuiltins (values deepTasks (6, 6)) + 1))
    /\ values tasks' (7, 6)
       = JNum (@numberIn plainBuiltins (values deepTasks (7, 6)%Z) + 1 * 2)%Q
    /\ (forall c, snd c <> 6 -> values tasks' c = values deepTasks c)
    /\ strictEq (values tasks' (1, 6)) (JStr "others") = true
    /\ out w'
       = (out napWorld
          ++ [ShowStatus
                (Scored (values napWeekly (4 - 1, 5)) (1 * 2)
                   (@numberIn plainBuiltins (values napWeekly (4, 38)%Z) + 1 * 2)%Q)])%list.
Proof.
  apply (@unlisted_task_creates_the_others_row plainBuiltins tenOClock napWorld
           5 4 2 deepTasks (newDate 2024 11 16)).
  - lia.
  - reflexivity.
  - reflexivity.
  - reflexivity.
  - cbn. lia.
  - intros r' Hr'. cbn in Hr'.
    assert (Hc : r' = 4 \/ r' = 5) by lia. destruct Hc as [-> | ->]; reflexivity.
  - intros r' Hr'. cbn in Hr'.
    assert (Hc : r' = 4 \/ r' = 5) by lia. destruct Hc as [-> | ->]; reflexivity.
Defined.

End ScoreMoreSpec.

Module ScoreSignSpec.
Import Js Utils Value Grid Weekly Examples MoreExamples.

Lemma Qltb_false a b : Qltb a b = false <-> (b <= a)%Q.
Proof. unfold Qltb. rewrite negb_false_iff. apply Qle_bool_iff. Qed.

(** X10.  The sign of the weighted score of a listed task decides the
    colour and the Summary column.  The score cell and the task cell are
    both filled with the colour of the sign.  A positive score is added to
    the positive column of today's Summary row and leaves the negative one;
    a negative score is added to the negative column and leaves the positive
    one; a zero score leaves both.  The total column grows by the score in
    every case. *)
Theorem score_sign_decides_colour_and_summary_column :
  forall `{Builtins} (now : clock) (w : world) (row col : Z) (newScore : Q)
         (tasks summary : sheet) (lastMonday r : Z),
    let taskName := values (weeklySheet (wb w)) (col - 1, row) in
    2 <= col ->
    tasksSheet (wb w) = Some tasks ->
    summarySheet (wb w) = Some summary ->
    weekly_lastMonday (st w) = Some lastMonday ->
    truthy taskName = true ->
    4 <= r <= weekly_taskl (st w) ->
    strictEq (values tasks (1, r)) taskName = true ->
    (forall r', 4 <= r' < r -> strictEq (values tasks (1, r')) taskName = false) ->
    let w' := processWeeklyScoreChange now row col newScore w in
    let ws := (weightAt tasks r * newScore)%Q in
    let sr := summaryRowFor now w summary in
    exists summary',
      summarySheet (wb w') = Some summary'
      /\ fill (weeklySheet (wb w')) (col, row) = Some (scoreColor ws)
      /\ fill (weeklySheet (wb w')) (col - 1, row) = Some (scoreColor ws)
      /\ ((0 < ws)%Q ->
          scoreColor ws = CONFIG.COLORS.POSITIVE
          /\ values summary' (4, sr) = JNum (numberIn (values summary (4, sr)%Z) + ws)%Q
          /\ values summary' (5, sr) = values summary (5, sr))
      /\ ((ws < 0)%Q ->
          scoreColor ws = CONFIG.COLORS.NEGATIVE
          /\ values summary' (4, sr) = values summary (4, sr)
          /\ values summary' (5, sr) = JNum (numberIn (values summary (5, sr)%Z) + ws)%Q)
      /\ ((ws == 0)%Q ->
          scoreColor ws = CONFIG.COLORS.NEUTRAL
          /\ values summary' (4, sr) = values summary (4, sr)
          /\ values summary' (5, sr) = values summary (5, sr))
      /\ (numberIn (values summary' (6, sr)%Z) == numberIn (values summary (6, sr)%Z) + ws)%Q.
Proof.
  intros B now w row col newScore tasks summary lastMonday r taskName
         Hcol Htasks Hsum Hmon Htruthy Hr Hhit Hmiss. cbn zeta.
  pose proof (ScoreFacts.resolveTask_found now tasks (st w) taskName r Hr Hhit Hmiss) as Hres.
  destruct (ScoreMoreFacts.processWeeklyScoreChange_via now row col newScore w tasks
              lastMonday r (weightAt tasks r) tasks (st w) Hcol Htasks Hmon Htruthy Hres)
    as (_ & _ & _ & Hf1 & Hf2 & _ & _ & _ & Hsummary & _).
  specialize (Hsummary eq_refl). cbn zeta in Hsummary.
  set (ws := (weightAt tasks r * newScore)%Q) in *.
  destruct (ScoreFacts.updateSummary_effect now (if Qgtb ws 0 then ws else 0%Q)
              (if Qltb ws 0 then ws else 0%Q) w summary Hsum)
    as (summary' & Hs' & _ & _ & _ & _ & HD & HE & HF).
  cbn zeta in HD, HE, HF.
  set (sr := summaryRowFor now w summary) in *.
  exists summary'. split; [rewrite Hsummary; exact Hs'|].
  split; [exact Hf1|]. split; [exact Hf2|].
  unfold scoreColor.
  split; [|split; [|split]].
  - intros Hpos.
    assert (Eg : Qgtb ws 0 = true) by (apply TimeRowFacts.Qgtb_lt; exact Hpos).
    assert (El : Qltb ws 0 = false) by (apply Qltb_false, Qlt_le_weak; exact Hpos).
    rewrite Eg, El in *. rewrite Eg in HD.
    replace (Qltb 0 0) with false in HE by reflexivity.
    split; [reflexivity|]. split; [exact HD | exact HE].
  - intros Hneg.
    assert (Eg : Qgtb ws 0 = false) by (apply TimeRowFacts.Qgtb_le, Qlt_le_weak; exact Hneg).
    assert (El : Qltb ws 0 = true) by (apply TimeRowFacts.Qltb_lt; exact Hneg).
    rewrite Eg, El in *. rewrite El in HE.
    replace (Qgtb 0 0) with false in HD by reflexivity.
    split; [reflexivity|]. split; [exact HD | exact HE].
  - intros Hzero.
    assert (Eg : Qgtb ws 0 = false).
    { apply TimeRowFacts.Qgtb_le. rewrite Hzero. apply Qle_refl. }
    assert (El : Qltb ws 0 = false).
    { apply Qltb_false. rewrite Hzero. apply Qle_refl. }
    rewrite Eg, El in *.
    replace (Qgtb 0 0) with false in HD by reflexivity.
    replace (Qltb 0 0) with false in HE by reflexivity.
    split; [reflexivity|]. split; [exact HD | exact HE].
  - rewrite HF, SummaryFacts.numberIn_JNum.
    destruct (Qgtb ws 0) eqn:Eg, (Qltb ws 0) eqn:El; try ring.
    + apply TimeRowFacts.Qgtb_lt in Eg. apply TimeRowFacts.Qltb_lt in El.
      exfalso. exact (Qlt_irrefl _ (Qlt_trans _ _ _ Eg El)).
    + apply TimeRowFacts.Qgtb_le in Eg. apply Qltb_false in El.
      assert (ws == 0)%Q as -> by (apply Qle_antisym; assumption). ring.
Qed.

(** "Deep Work" (weight 2) scored -1 in D5. *)
Lemma score_sign_decides_colour_and_summary_column_witness :
  let w' := @processWeeklyScoreChange plainBuiltins tenOClock 5 4 (-1) deepWorld in
  let ws := (@weightAt plainBuiltins deepTasks 4 * (-1))%Q in
  let sr := @summaryRowFor plainBuiltins tenOClock deepWorld emptySheet in
  (ws < 0)%Q
  /\ exists summary',
      summarySheet (wb w') = Some summary'
      /\ fill (weeklySheet (wb w')) (4, 5) = Some (scoreColor ws)
      /\ fill (weeklySheet (wb w')) (4 - 1, 5) = Some (scoreColor ws)
      /\ ((0 < ws)%Q ->
          scoreColor ws = CONFIG.COLORS.POSITIVE
          /\ values summary' (4, sr)
             = JNum (@numberIn plainBuiltins (values emptySheet (4, sr)%Z) + ws)%Q
          /\ values summary' (5, sr) = values emptySheet (5, sr))
      /\ ((ws < 0)%Q ->
          scoreColor ws = CONFIG.COLORS.NEGATIVE
          /\ values summary' (4, sr) = values emptySheet (4, sr)
          /\ values summary' (5, sr)
             = JNum (@numberIn plainBuiltins (values emptySheet (5, sr)%Z) + ws)%Q)
      /\ ((ws == 0)%Q ->
          scoreColor ws = CONFIG.COLORS.NEUTRAL
          /\ values summary' (4, sr) = values emptySheet (4, sr)
          /\ values summary' (5, sr) = values emptySheet (5, sr))
      /\ (@numberIn plainBuiltins (values summary' (6, sr)%Z)
          == @numberIn plainBuiltins (values emptySheet (6, sr)%Z) + ws)%Q.
Proof.
  split; [vm_compute; reflexivity|].
  apply (@score_sign_decides_colour_and_summary_column plainBuiltins tenOClock deepWorld
           5 4 (-1) deepTasks emptySheet (newDate 2024 11 16) 4).
  - lia.
  - reflexivity.
  - reflexivity.
  - reflexivity.
  - reflexivity.
  - cbn. lia.
  - reflexivity.
  - intros r' Hr'. lia.
Defined.

(** What one call may change, whatever the ledger holds. *)
Lemma processWeeklyScoreChange_frame :
  forall `{Builtins} (now : clock) (w : world) (row col : Z) (newScore : Q),
    2 <= col ->
    let w' := processWeeklyScoreChange now row col newScore w in
    (forall c, c <> (col, 38) ->
               values (weeklySheet (wb w')) c = values (weeklySheet (wb w)) c)
    /\ (forall c, c <> (col, row) -> c <> (col - 1, row) ->
                  fill (weeklySheet (wb w')) c = fill (weeklySheet (wb w)) c)
    /\ habitsSheet (wb w') = habitsSheet (wb w)
    /\ (out w' = out w
        \/ exists taskName ws total,
             out w' = (out w ++ [ShowStatus (Scored taskName ws total)])%list)
    /\ (truthy (values (weeklySheet (wb w)) (col - 1, row)) = false -> w' = w).
Proof.
  intros B now w row col newScore Hcol. cbn zeta.
  assert (Htc : at_ (indexToColumnLetter (col - 2)) row = (col - 1, row)).
  { unfold at_. rewrite ColumnFacts.hostColumn_indexToColumnLetter by lia.
    f_equal. lia. }
  destruct (tasksSheet (wb w)) as [tasks|] eqn:Htasks.
  2:{ unfold processWeeklyScoreChange. rewrite Htasks.
      repeat split; try reflexivity. left; reflexivity. }
  destruct (truthy (values (weeklySheet (wb w)) (col - 1, row))) eqn:Htruthy.
  2:{ unfold processWeeklyScoreChange. rewrite Htasks. cbv zeta.
      rewrite !Htc, Htruthy. cbn [negb].
      repeat split; try reflexivity. left; reflexivity. }
  destruct (weekly_lastMonday (st w)) as [lastMonday|] eqn:Hmon.
  2:{ unfold processWeeklyScoreChange. rewrite Htasks. cbv zeta.
      rewrite !Htc, Htruthy. cbn [negb]. rewrite Hmon.
      repeat split; try reflexivity; try discriminate. left; reflexivity. }
  destruct (resolveTask now tasks (st w) (values (weeklySheet (wb w)) (col - 1, row)))
    as [[[r weight] tasks1] st1] eqn:Hres.
  destruct (ScoreMoreFacts.processWeeklyScoreChange_via now row col newScore w tasks
              lastMonday r weight tasks1 st1 Hcol Htasks Hmon Htruthy Hres)
    as (Hout & _ & Hv & _ & _ & Hf & Hh & _).
  split; [exact Hv|]. split; [exact Hf|]. split; [exact Hh|].
  split; [right; eexists _, _, _; exact Hout | discriminate].
Qed.

(** X11.  Whatever the ledger holds, one [processWeeklyScoreChange] for a
    cell of column [col] (at least 2) changes no cell value of the Weekly
    sheet but the totals-row cell of that column, no fill colour but those
    of the score cell and the task cell to its left, nothing on the Habits
    sheet, and shows at most its one status line; next to an empty task cell
    it does nothing at all. *)
Theorem processWeeklyScoreChange_leaves_the_plan :
  forall `{Builtins} (now : clock) (w : world) (row col : Z) (newScore : Q),
    2 <= col ->
    let w' := processWeeklyScoreChange now row col newScore w in
    (forall c, c <> (col, 38) ->
               values (weeklySheet (wb w')) c = values (weeklySheet (wb w)) c)
    /\ (forall c, c <> (col, row) -> c <> (col - 1, row) ->
                  fill (weeklySheet (wb w')) c = fill (weeklySheet (wb w)) c)
    /\ habitsSheet (wb w') = habitsSheet (wb w)
    /\ (out w' = out w
        \/ exists taskName ws total,
             out w' = (out w ++ [ShowStatus (Scored taskName ws total)])%list)
    /\ (truthy (values (weeklySheet (wb w)) (col - 1, row)) = false -> w' = w).
Proof. intros B now w row col newScore Hcol. now apply processWeeklyScoreChange_frame. Qed.

Lemma processWeeklyScoreChange_leaves_the_plan_witness :
  let w' := @processWeeklyScoreChange plainBuiltins tenOClock 5 4 2 napWorld in
  (forall c, c <> (4, 38) ->
             values (weeklySheet (wb w')) c = values (weeklySheet (wb napWorld)) c)
  /\ (forall c, c <> (4, 5) -> c <> (4 - 1, 5) ->
                fill (weeklySheet (wb w')) c = fill (weeklySheet (wb napWorld)) c)
  /\ habitsSheet (wb w') = habitsSheet (wb napWorld)
  /\ (out w' = out napWorld
      \/ exists taskName ws total,
           out w' = (out napWorld ++ [ShowStatus (Scored taskName ws total)])%list)
  /\ (truthy (values (weeklySheet (wb napWorld)) (4 - 1, 5)) = false -> w' = napWorld).
Proof.
  apply (@processWeeklyScoreChange_leaves_the_plan plainBuiltins tenOClock napWorld 5 4 2).
  lia.
Defined.

End ScoreSignSpec.

(** ** events.js: changed and selected cells *)

Module EventsFacts.
Import Js Utils Value Grid Weekly.

Lemma includes_score_columns col :
  CONFIG.includes CONFIG.WEEKLY.SCORE_COLUMNS col = true ->
  In col CONFIG.WEEKLY.SCORE_COLUMNS /\ 4 <= col <= 16.
Proof.
  unfold CONFIG.includes, CONFIG.WEEKLY.SCORE_COLUMNS. cbn [existsb In].
  rewrite !orb_true_iff, !Z.eqb_eq. intros Hc. split; [|lia].
  repeat (destruct Hc as [->|Hc]; [tauto|]). discriminate.
Qed.

Lemma in_score_columns col :
  In col CONFIG.WEEKLY.SCORE_COLUMNS ->
  CONFIG.includes CONFIG.WEEKLY.SCORE_COLUMNS col = true.
Proof.
  intros Hcol. cbn in Hcol.
  repeat (destruct Hcol as [<-|Hcol]; [reflexivity|]). contradiction.
Qed.

Lemma append_empty (s : string) : s ++ "" = s.
Proof. induction s as [|c s IH]; cbn; [reflexivity | now rewrite IH]. Qed.

(** [randomPick] writes cell values of the Weekly sheet only. *)
Lemma randomPick_frame random w :
  let w' := randomPick random w in
  st w' = st w
  /\ fill (weeklySheet (wb w')) = fill (weeklySheet (wb w))
  /\ habitsSheet (wb w') = habitsSheet (wb w)
  /\ tasksSheet (wb w') = tasksSheet (wb w)
  /\ summarySheet (wb w') = summarySheet (wb w)
  /\ exists s, out w' = (out w ++ [ShowStatus s])%list.
Proof.
  cbn zeta. unfold randomPick.
  destruct (tasksSheet (wb w)) as [tasks|] eqn:Etasks.
  2:{ cbn. rewrite Etasks. repeat split; try reflexivity. eexists; reflexivity. }
  set (names := filter truthy _).
  destruct (List.length names =? 0)%nat.
  { cbn. rewrite Etasks. repeat split; try reflexivity. eexists; reflexivity. }
  unfold timeColumnValues, columnValues, rangeRows.
  change (hostColumn "B") with 2.
  change (Z.min CONFIG.WEEKLY.DATA_START_ROW CONFIG.WEEKLY.lastTimeLine) with 5.
  change (Z.to_nat (Z.abs (CONFIG.WEEKLY.lastTimeLine - CONFIG.WEEKLY.DATA_START_ROW) + 1))
    with 32%nat.
  set (weekly := weeklySheet (wb w)).
  set (taskCol := hostColumn (dayTaskColumn (weekly_dIndex (st w)))).
  pose proof (RandomPickFacts.randomPickLoop_frame random names
                (dayTaskColumn (weekly_dIndex (st w)))
                (fun r => values weekly (2, r)) (fun r => values weekly (taskCol, r))
                32 5 0%nat weekly 0 (0, 0)) as Hloop.
  cbn zeta in Hloop. change (5 - 5) with 0 in Hloop.
  destruct (randomPickLoop _ _ _ _ _ _ _ _ _) as [[weekly1 filledCount] finished].
  cbn [fst] in Hloop. destruct Hloop as [Hfill _].
  destruct (negb finished); [|destruct (0 <? filledCount)];
    cbn [wb st out emit withWeekly weeklySheet habitsSheet tasksSheet summarySheet];
    rewrite ?Etasks; repeat split; try assumption; eexists; reflexivity.
Qed.

End EventsFacts.

Module EventsSpec.
Import Js Utils Value Grid Weekly Events Examples MoreExamples.

(** X12.  Whatever the address and the world, [handleCellChanged] changes
    no cell value of the Weekly sheet outside the totals row 38, no fill
    colour outside rows 5..36, and nothing on the Habits sheet; when the
    current sheet is not the Weekly sheet, or the address holds no cell
    reference, it changes nothing at all. *)
Theorem handleCellChanged_changes_totals_only :
  forall `{Builtins} (now : clock) (addr : string) (w : world),
    let w' := handleCellChanged now addr w in
    (forall c, snd c <> 38 ->
               values (weeklySheet (wb w')) c = values (weeklySheet (wb w)) c)
    /\ (forall c, ~ 5 <= snd c <= 36 ->
                  fill (weeklySheet (wb w')) c = fill (weeklySheet (wb w)) c)
    /\ habitsSheet (wb w') = habitsSheet (wb w)
    /\ (currentSheet (st w) <> Some CONFIG.WEEKLY_SHEET -> w' = w)
    /\ (parseAddress addr = None -> w' = w).
Proof.
  intros B now addr w. cbn zeta. unfold handleCellChanged.
  destruct (currentSheet (st w)) as [name|] eqn:Ename;
    [|repeat split; reflexivity].
  destruct (String.eqb name CONFIG.WEEKLY_SHEET) eqn:Esheet; cbn [negb];
    [|repeat split; reflexivity].
  apply String.eqb_eq in Esheet. subst name.
  destruct (parseAddress addr) as [parsed|] eqn:Eparse;
    [|repeat split; try reflexivity; intros Hn; exfalso; apply Hn; reflexivity].
  destruct (CONFIG.includes CONFIG.WEEKLY.SCORE_COLUMNS (colIndex parsed)) eqn:Ecol;
    cbn [andb];
    [|repeat split; try reflexivity; try discriminate;
      intros Hn; exfalso; apply Hn; reflexivity].
  destruct (CONFIG.WEEKLY.DATA_START_ROW <=? row parsed) eqn:Er1; cbn [andb];
    [|repeat split; try reflexivity; try discriminate;
      intros Hn; exfalso; apply Hn; reflexivity].
  destruct (row parsed <=? CONFIG.WEEKLY.lastTimeLine) eqn:Er2;
    [|repeat split; try reflexivity; try discriminate;
      intros Hn; exfalso; apply Hn; reflexivity].
  destruct (parseFloat _) as [scoreValue|];
    [|repeat split; try reflexivity; try discriminate;
      intros Hn; exfalso; apply Hn; reflexivity].
  apply EventsFacts.includes_score_columns in Ecol as [_ Hcol].
  apply Z.leb_le in Er1, Er2.
  change CONFIG.WEEKLY.DATA_START_ROW with 5 in Er1.
  change CONFIG.WEEKLY.lastTimeLine with 36 in Er2.
  destruct (ScoreSignSpec.processWeeklyScoreChange_frame now w (row parsed) (colIndex parsed)
              scoreValue ltac:(lia)) as (Hv & Hf & Hh & _ & _).
  split; [|split; [|split; [exact Hh|split]]].
  - intros c Hc. apply Hv. intros ->. apply Hc. reflexivity.
  - intros c Hc. apply Hf; intros ->; apply Hc; cbn [snd]; lia.
  - intros Hn. exfalso. apply Hn. reflexivity.
  - discriminate.
Qed.

Lemma handleCellChanged_changes_totals_only_witness :
  let w' := @handleCellChanged plainBuiltins tenOClock "D5" deepWorld in
  values (weeklySheet (wb w')) (4, 5) = values (weeklySheet (wb deepWorld)) (4, 5)
  /\ fill (weeklySheet (wb w')) (4, 38) = fill (weeklySheet (wb deepWorld)) (4, 38)
  /\ @handleCellChanged plainBuiltins tenOClock "d5" deepWorld = deepWorld.
Proof.
  destruct (@handleCellChanged_changes_totals_only plainBuiltins tenOClock "D5" deepWorld)
    as (Hv & Hf & _).
  destruct (@handleCellChanged_changes_totals_only plainBuiltins tenOClock "d5" deepWorld)
    as (_ & _ & _ & _ & Hn).
  split; [|split].
  - apply Hv. cbn [snd]. lia.
  - apply Hf. cbn [snd]. lia.
  - apply Hn. reflexivity.
Defined.

(** X13.  The change handler identifies the column by the plain base-26
    value of the letters, in which a leading "A" counts as zero.  A number
    found in a changed cell of column "A" followed by the letters of a score
    column (AD, AF, ..., AP), rows 5..36, is therefore processed as a score
    entered in that score column of the same row, although the cell lies
    beyond column P. *)
Theorem change_right_of_Z_is_booked_in_a_score_column :
  forall `{Builtins} (now : clock) (w : world) (letters digits : string) (scoreValue : Q),
    let col := columnLetterToIndex letters + 1 in
    let row := digitsValue 0 digits in
    validColumn letters = true ->
    isDigits digits = true ->
    In col CONFIG.WEEKLY.SCORE_COLUMNS ->
    5 <= row <= 36 ->
    currentSheet (st w) = Some CONFIG.WEEKLY_SHEET ->
    parseFloat (values (weeklySheet (wb w)) (hostColumn (String "A" letters), row))
    = Some scoreValue ->
    handleCellChanged now (String "A" letters ++ digits) w
    = processWeeklyScoreChange now row col scoreValue w
    /\ hostColumn (String "A" letters)
       = 26 ^ Z.of_nat (String.length letters) + hostColumn letters
    /\ 16 < hostColumn (String "A" letters).
Proof.
  intros B now w letters digits scoreValue col row Hl Hd Hcol Hrow Hsheet Hval.
  assert (Hl' : validColumn (String "A" letters) = true).
  { unfold validColumn in *. apply andb_true_iff in Hl as [_ Hl].
    cbn [String.eqb negb allChars andb]. rewrite Hl. reflexivity. }
  pose proof (AddressSpec.parseAddress_at "" (String "A" letters) digits ""
                eq_refl Hl' Hd I) as Hparse.
  cbn [append] in Hparse. rewrite EventsFacts.append_empty in Hparse.
  assert (Hidx : columnLetterToIndex (String "A" letters) + 1 = col) by reflexivity.
  rewrite Hidx in Hparse.
  split; [|split].
  - unfold handleCellChanged. rewrite Hsheet, String.eqb_refl. cbn [negb].
    cbn [append]. rewrite Hparse. cbn [colIndex Utils.row column].
    rewrite (EventsFacts.in_score_columns col Hcol).
    fold row.
    change CONFIG.WEEKLY.DATA_START_ROW with 5.
    change CONFIG.WEEKLY.lastTimeLine with 36.
    replace (5 <=? row) with true by (symmetry; apply Z.leb_le; lia).
    replace (row <=? 36) with true by (symmetry; apply Z.leb_le; lia).
    cbn [andb]. unfold at_. rewrite Hval. reflexivity.
  - rewrite ColumnFacts.hostColumn_String. change (code "A") with 65. lia.
  - rewrite ColumnFacts.hostColumn_String. change (code "A") with 65.
    unfold validColumn in Hl. apply andb_true_iff in Hl as [Hne Hup].
    pose proof (ColumnSpec.hostColumn_minus_index letters 0 0) as Hd'.
    pose proof (ColumnSpec.columnLetterToIndex_bounds letters Hup) as Hb.
    unfold columnLetterToIndex, hostColumn in *.
    destruct letters as [|c t]; [discriminate|].
    cbn [String.length] in *. rewrite Nat2Z.inj_succ, Z.pow_succ_r in * by lia.
    assert (0 < 26 ^ Z.of_nat (String.length t)) by (apply Z.pow_pos_nonneg; lia).
    assert (0 <= MoreNotions.repunit26 (S (String.length t))).
    { clear. induction (S (String.length t)) as [|n IH]; cbn [MoreNotions.repunit26]; lia. }
    lia.
Qed.

(** The value 2 in AD5 is booked for "Nap" in C5, as a score of column D. *)
Lemma change_right_of_Z_is_booked_in_a_score_column_witness :
  let w := withWeekly napWorld (setValue napWeekly (30, 5) (JNum 2)) in
  @handleCellChanged plainBuiltins tenOClock "AD5" w
  = @processWeeklyScoreChange plainBuiltins tenOClock 5 4 2 w
  /\ hostColumn "AD" = 26 ^ Z.of_nat (String.length "D") + hostColumn "D"
  /\ 16 < hostColumn "AD".
Proof.
  apply (@change_right_of_Z_is_booked_in_a_score_column plainBuiltins tenOClock
           (withWeekly napWorld (setValue napWeekly (30, 5) (JNum 2))) "D" "5" 2).
  - reflexivity.
  - reflexivity.
  - cbn. auto.
  - change (5 <= 5 <= 36). lia.
  - reflexivity.
  - reflexivity.
Defined.

End EventsSpec.

(** ** habits.js: recording a completion *)

Module HabitsMoreFacts.
Import Js Utils Value Grid Weekly Habits.

Section WithBuiltins.
Context `{Builtins}.

(** What [recordHabitDone] may change. *)
Lemma recordHabitDone_frame now row w :
  let w' := recordHabitDone now row w in
  let habits := habitsSheet (wb w) in
  let habits' := habitsSheet (wb w') in
  let dayCell := dayCellOf (habits_currentDayIndex (st w)) row in
  weeklySheet (wb w') = weeklySheet (wb w)
  /\ tasksSheet (wb w') = tasksSheet (wb w)
  /\ (forall c, c <> dayCell -> c <> (18, row) -> values habits' c = values habits c)
  /\ (forall c, c <> (2, row) -> fill habits' c = fill habits c)
  /\ currentSheet (st w') = currentSheet (st w)
  /\ habits_currentDayIndex (st w') = habits_currentDayIndex (st w)
  /\ habits_lastRow (st w') = habits_lastRow (st w)
  /\ (habits_currentDayIndex (st w) < 0 ->
      wb w' = wb w /\ st w' = st w
      /\ out w' = (out w ++ [ShowStatus CurrentDateNotFound])%list)
  /\ (0 <= habits_currentDayIndex (st w) ->
      truthy (values habits (1, row)) = false -> w' = w).
Proof.
  cbn zeta. unfold recordHabitDone.
  destruct (habits_currentDayIndex (st w) <? 0) eqn:Ed.
  { apply Z.ltb_lt in Ed. repeat split; try reflexivity. intros; lia. }
  apply Z.ltb_ge in Ed.
  change (at_ "A" row) with (1, row).
  destruct (truthy (values (habitsSheet (wb w)) (1, row))) eqn:Ename; cbn [negb].
  2:{ repeat split; try reflexivity; intros; lia. }
  change (at_ "R" row) with (18, row). change (at_ "B" row) with (2, row).
  set (dayCell := dayCellOf (habits_currentDayIndex (st w)) row).
  set (habits := habitsSheet (wb w)).
  set (habits1 := setValue habits dayCell _).
  set (habits2 := setValue habits1 (18, row) _).
  set (habits3 := setFill habits2 (2, row) _).
  set (ws := (baseScoreOf habits row * _)%Q).
  destruct (ScoreMoreFacts.updateSummary_frame now ws 0 (withHabits w habits3))
    as (Hwk & Hhb & Hts & _ & Hcs & Hcd & Hlr & _).
  cbn zeta in *.
  cbn [wb st out emit weeklySheet habitsSheet tasksSheet].
  rewrite Hwk, Hhb, Hts, Hcs, Hcd, Hlr.
  cbn [wb st withHabits weeklySheet habitsSheet tasksSheet].
  split; [reflexivity|]. split; [reflexivity|].
  split.
  { intros c Hc1 Hc2. unfold habits3, habits2, habits1.
    rewrite GridFacts.values_setFill, !GridFacts.values_setValue_other by assumption.
    reflexivity. }
  split.
  { intros c Hc. unfold habits3. rewrite GridFacts.fill_setFill_other by exact Hc.
    reflexivity. }
  repeat split; try reflexivity; try (intros; lia); discriminate.
Qed.

End WithBuiltins.
End HabitsMoreFacts.

Module HabitsMoreSpec.
Import Js Utils Value Grid Weekly Habits Examples MoreExamples.

(** X14.  [recordHabitDone] for a habit row touches that row of the Habits
    sheet only: cell values change at most in today's day cell and in the
    row total (column R), the fill colour at most in column B; the Weekly
    and Tasks sheets and the Habits part of the session stay.  With no
    current day (index below 0) it only shows "current date not found",
    and on a row without a habit name it does nothing. *)
Theorem recordHabitDone_touches_its_row_only :
  forall `{Builtins} (now : clock) (row : Z) (w : world),
    let w' := recordHabitDone now row w in
    let habits := habitsSheet (wb w) in
    let habits' := habitsSheet (wb w') in
    (forall c, snd c <> row -> values habits' c = values habits c /\ fill habits' c = fill habits c)
    /\ (forall c, c <> dayCellOf (habits_currentDayIndex (st w)) row -> c <> (18, row) ->
                  values habits' c = values habits c)
    /\ (forall c, c <> (2, row) -> fill habits' c = fill habits c)
    /\ weeklySheet (wb w') = weeklySheet (wb w)
    /\ tasksSheet (wb w') = tasksSheet (wb w)
    /\ habits_currentDayIndex (st w') = habits_currentDayIndex (st w)
    /\ habits_lastRow (st w') = habits_lastRow (st w)
    /\ (habits_currentDayIndex (st w) < 0 ->
        wb w' = wb w /\ st w' = st w
        /\ out w' = (out w ++ [ShowStatus CurrentDateNotFound])%list)
    /\ (0 <= habits_currentDayIndex (st w) ->
        truthy (values habits (1, row)) = false -> w' = w).
Proof.
  intros B now row w. cbn zeta.
  destruct (HabitsMoreFacts.recordHabitDone_frame now row w)
    as (Hwk & Hts & Hv & Hf & _ & Hcd & Hlr & Hneg & Hname).
  cbn zeta in *.
  split.
  { intros c Hc. split.
    - apply Hv; intros ->; apply Hc; reflexivity.
    - apply Hf. intros ->. apply Hc. reflexivity. }
  repeat (split; [assumption|]). exact Hname.
Qed.

(** "Run" in row 4, and the row below it. *)
Lemma recordHabitDone_touches_its_row_only_witness :
  let w' := @recordHabitDone plainBuiltins tenOClock 4 runWorld in
  (values (habitsSheet (wb w')) (4, 5) = values runHabits (4, 5)
   /\ fill (habitsSheet (wb w')) (4, 5) = fill runHabits (4, 5))
  /\ @recordHabitDone plainBuiltins tenOClock 5 runWorld = runWorld.
Proof.
  destruct (@recordHabitDone_touches_its_row_only plainBuiltins tenOClock 4 runWorld)
    as (Hrow & _).
  destruct (@recordHabitDone_touches_its_row_only plainBuiltins tenOClock 5 runWorld)
    as (_ & _ & _ & _ & _ & _ & _ & _ & Hname).
  split.
  - apply Hrow. cbn [snd]. lia.
  - apply Hname; [cbn; lia | reflexivity].
Defined.

End HabitsMoreSpec.

(** ** events.js: selections *)

Module SelectionSpec.
Import Js Utils Value Grid Weekly Habits Events Examples MoreExamples.

(** X15.  A selection never writes to a sheet other than the current one,
    and hardly ever to that.  On the Weekly sheet only the Random button
    (row 2, column index 9) changes the workbook, and no selection changes
    the session, the fill colours or another sheet.  On the Habits sheet
    only a cell of column A changes anything, and never the Weekly or Tasks
    sheet.  On any other sheet, or for an address without a cell reference,
    nothing happens. *)
Theorem selection_writes_through_buttons_only :
  forall `{Builtins} (now : clock) (random : nat -> Q) (addr : string) (w : world),
    let w' := handleSelectionChanged now random addr w in
    (currentSheet (st w) = Some CONFIG.WEEKLY_SHEET ->
     st w' = st w
     /\ fill (weeklySheet (wb w')) = fill (weeklySheet (wb w))
     /\ habitsSheet (wb w') = habitsSheet (wb w)
     /\ tasksSheet (wb w') = tasksSheet (wb w)
     /\ summarySheet (wb w') = summarySheet (wb w)
     /\ (forall parsed,
           parseAddress addr = Some parsed ->
           ~ (row parsed = 2 /\ colIndex parsed = 9) ->
           wb w' = wb w))
    /\ (currentSheet (st w) = Some CONFIG.HABITS_SHEET ->
        weeklySheet (wb w') = weeklySheet (wb w)
        /\ tasksSheet (wb w') = tasksSheet (wb w)
        /\ (forall parsed,
              parseAddress addr = Some parsed -> column parsed <> "A" -> w' = w))
    /\ (currentSheet (st w) <> Some CONFIG.WEEKLY_SHEET ->
        currentSheet (st w) <> Some CONFIG.HABITS_SHEET ->
        w' = w)
    /\ (parseAddress addr = None -> w' = w).
Proof.
  intros B now random addr w. cbn zeta. unfold handleSelectionChanged.
  destruct (parseAddress addr) as [parsed|] eqn:Eparse.
  2:{ repeat split; try reflexivity; intros; discriminate. }
  split; [|split; [|split]].
  - intros Hsheet. rewrite Hsheet.
    change (String.eqb CONFIG.WEEKLY_SHEET CONFIG.HABITS_SHEET) with false.
    rewrite String.eqb_refl. cbv iota.
    assert (Hgoal :
      let w' := handleWeeklySelection random (column parsed) (colIndex parsed) (row parsed) w in
      st w' = st w
      /\ fill (weeklySheet (wb w')) = fill (weeklySheet (wb w))
      /\ habitsSheet (wb w') = habitsSheet (wb w)
      /\ tasksSheet (wb w') = tasksSheet (wb w)
      /\ summarySheet (wb w') = summarySheet (wb w)
      /\ (~ (row parsed = 2 /\ colIndex parsed = 9) -> wb w' = wb w)).
    { cbn zeta. unfold handleWeeklySelection.
      change CONFIG.WEEKLY.CONTROL_ROW with 2.
      change CONFIG.WEEKLY.BUTTON_RANDOM with 9.
      destruct (Z.eqb_spec (row parsed) 2) as [Er|Er].
      - destruct (colIndex parsed =? CONFIG.WEEKLY.BUTTON_HELP);
          [repeat split; reflexivity|].
        destruct (colIndex parsed =? CONFIG.WEEKLY.BUTTON_ADD);
          [repeat split; reflexivity|].
        destruct (colIndex parsed =? CONFIG.WEEKLY.BUTTON_DELETE);
          [repeat split; reflexivity|].
        destruct (Z.eqb_spec (colIndex parsed) 9) as [Ec|Ec].
        + destruct (EventsFacts.randomPick_frame random w)
            as (Hst & Hfill & Hh & Ht & Hs & _).
          repeat (split; [assumption|]). intros Hn. exfalso. apply Hn. split; assumption.
        + destruct (colIndex parsed =? CONFIG.WEEKLY.BUTTON_THANK);
            repeat split; reflexivity.
      - destruct (_ && _ && _); [repeat split; reflexivity|].
        destruct (_ && _ && _); [|repeat split; reflexivity].
        destruct (negb (truthy _)); [repeat split; reflexivity|].
        destruct (negb (isBlank _)); repeat split; reflexivity. }
    cbn zeta in Hgoal. destruct Hgoal as (H1 & H2 & H3 & H4 & H5 & H6).
    repeat (split; [assumption|]).
    intros parsed' [= <-]. exact H6.
  - intros Hsheet. rewrite Hsheet. rewrite String.eqb_refl. cbv iota.
    unfold handleHabitsSelection.
    destruct (String.eqb_spec (column parsed) "A") as [Ea|Ea]; cbn [andb].
    + destruct (_ && _).
      * destruct (HabitsMoreFacts.recordHabitDone_frame now (row parsed) w)
          as (Hwk & Hts & _).
        split; [exact Hwk|]. split; [exact Hts|].
        intros parsed' [= <-] Hn. contradiction.
      * destruct (row parsed =? 2); repeat split; try reflexivity;
          intros parsed' [= <-] Hn; contradiction.
    + repeat split; reflexivity.
  - intros Hw Hh.
    destruct (currentSheet (st w)) as [name|]; [|reflexivity].
    destruct (String.eqb_spec name CONFIG.HABITS_SHEET) as [->|_];
      [exfalso; apply Hh; reflexivity|].
    destruct (String.eqb_spec name CONFIG.WEEKLY_SHEET) as [->|_];
      [exfalso; apply Hw; reflexivity|].
    reflexivity.
  - discriminate.
Qed.

(** Selecting the score cell D5 of [deepWorld], and B4 while the Habits
    sheet is current. *)
Lemma selection_writes_through_buttons_only_witness :
  wb (@handleSelectionChanged plainBuiltins tenOClock (fun _ => 0%Q) "D5" deepWorld)
  = wb deepWorld
  /\ @handleSelectionChanged plainBuiltins tenOClock (fun _ => 0%Q) "B4" (onHabits runWorld)
     = onHabits runWorld
  /\ @handleSelectionChanged plainBuiltins tenOClock (fun _ => 0%Q) "d5" deepWorld
     = deepWorld.
Proof.
  destruct (@selection_writes_through_buttons_only plainBuiltins tenOClock (fun _ => 0%Q)
              "D5" deepWorld) as (Hweekly & _).
  destruct (@selection_writes_through_buttons_only plainBuiltins tenOClock (fun _ => 0%Q)
              "B4" (onHabits runWorld)) as (_ & Hhabits & _).
  destruct (@selection_writes_through_buttons_only plainBuiltins tenOClock (fun _ => 0%Q)
              "d5" deepWorld) as (_ & _ & _ & Hnone).
  split; [|split].
  - destruct (Hweekly eq_refl) as (_ & _ & _ & _ & _ & Hwb).
    apply (Hwb {| column := "D"; colIndex := 4; row := 5 |}); [reflexivity|].
    cbn [row colIndex]. lia.
  - destruct (Hhabits eq_refl) as (_ & _ & Hcol).
    apply (Hcol {| column := "B"; colIndex := 2; row := 4 |}); [reflexivity|].
    cbn [column]. discriminate.
  - apply Hnone. reflexivity.
Defined.

End SelectionSpec.

(** ** weekly.js: the random fill *)

Module RandomPickMoreFacts.
Import Js Utils Value Grid Weekly.

(** [Math.floor(Math.random() * n)] is an index below [n]. *)
Lemma randomIndex_range (q : Q) (n : nat) :
  (0 <= q)%Q -> (q < 1)%Q -> (0 < n)%nat ->
  0 <= Qfloor (q * inject_Z (Z.of_nat n))%Q < Z.of_nat n.
Proof.
  intros H0 H1 Hn.
  assert (Hpos : (0 < inject_Z (Z.of_nat n))%Q).
  { change 0%Q with (inject_Z 0). rewrite <- Zlt_Qlt. lia. }
  split.
  - change 0 with (Qfloor 0). apply Qfloor_resp_le.
    apply Qmult_le_0_compat; [exact H0 | apply Qlt_le_weak; exact Hpos].
  - rewrite Zlt_Qlt.
    apply (Qle_lt_trans _ (q * inject_Z (Z.of_nat n))); [apply Qfloor_le|].
    rewrite <- (Qmult_1_l (inject_Z (Z.of_nat n))) at 2.
    apply Qmult_lt_compat_r; assumption.
Qed.

(** With [Math.random()] in [0, 1) and a non-empty task list the loop runs
    to its end, counts the eligible rows and leaves a listed task in each. *)
Lemma randomPickLoop_complete random tasks tl (ft fk : Z -> jsval) n :
  tasks <> [] ->
  (forall k, (0 <= random k)%Q /\ (random k < 1)%Q) ->
  forall a k sh filled,
    let eligible := fun r => negb (isBlank (ft r)) && isBlank (fk r) in
    let r :=
      randomPickLoop random tasks tl (map ft (zrange a n)) (map fk (zrange a n))
        (a - 5) k sh filled in
    snd r = true
    /\ snd (fst r) = filled + Z.of_nat (List.length (filter eligible (zrange a n)))
    /\ forall row, In row (filter eligible (zrange a n)) ->
                   In (values (fst (fst r)) (at_ tl row)) tasks.
Proof.
  intros Htasks Hrandom.
  induction n as [|n IH]; intros a k sh filled; cbn zeta.
  - cbn. repeat split; [lia | contradiction].
  - cbn [zrange map randomPickLoop filter].
    rewrite negb_involutive.
    destruct (negb (isBlank (ft a)) && isBlank (fk a)) eqn:Econd.
    + destruct (Hrandom k) as [H0 H1].
      assert (Hlen : (0 < List.length tasks)%nat).
      { destruct tasks; [contradiction | cbn; lia]. }
      pose proof (randomIndex_range (random k) (List.length tasks) H0 H1 Hlen) as Hidx.
      set (randomIndex := Qfloor _) in *.
      replace (randomIndex <? 0) with false by (symmetry; apply Z.ltb_ge; lia).
      destruct (nth_error tasks (Z.to_nat randomIndex)) as [randomTask|] eqn:Enth.
      2:{ apply nth_error_None in Enth. lia. }
      change CONFIG.WEEKLY.DATA_START_ROW with 5.
      replace (5 + (a - 5)) with a by lia.
      replace (a - 5 + 1) with (a + 1 - 5) by lia.
      set (sh1 := setValue sh (at_ tl a) randomTask).
      specialize (IH (a + 1) (S k) sh1 (filled + 1)). cbn zeta in IH.
      pose proof (RandomPickFacts.randomPickLoop_frame random tasks tl ft fk n
                    (a + 1) (S k) sh1 (filled + 1) (at_ tl a)) as Hframe.
      cbn zeta in Hframe.
      destruct (randomPickLoop _ _ _ _ _ _ _ _ _) as [[sh' filled'] finished].
      cbn [fst snd] in *. destruct IH as (Hfin & Hcount & Hin).
      split; [exact Hfin|]. split.
      * rewrite Hcount. cbn [List.length]. lia.
      * intros row [<- | Hrow]; [|apply Hin; exact Hrow].
        destruct Hframe as [_ [Hsame | (_ & Hr & _)]]; [|cbn [at_ snd] in Hr; lia].
        rewrite Hsame. unfold sh1. rewrite GridFacts.values_setValue_same.
        eapply nth_error_In. exact Enth.
    + replace (a - 5 + 1) with (a + 1 - 5) by lia.
      specialize (IH (a + 1) k sh filled). cbn zeta in IH. exact IH.
Qed.

End RandomPickMoreFacts.

Module RandomPickMoreSpec.
Import Js Utils Value Grid Weekly Examples MoreNotions.

(** X16.  With a Tasks sheet: when no row 4..taskl of its name column holds
    a name, [randomPick] only reports that no tasks are available.
    Otherwise, with [Math.random()] in [0, 1) and a day index that is not
    negative, it fills every row 5..36 of today's task column that has a
    time and no task with a name of the ledger, and reports their number, or
    that there was no such row. *)
Theorem randomPick_fills_every_empty_slot :
  forall (random : nat -> Q) (w : world) (tasks : sheet),
    let weekly := weeklySheet (wb w) in
    let w' := randomPick random w in
    let weekly' := weeklySheet (wb w') in
    let taskCol := weekly_dIndex (st w) * 2 + 3 in
    let slots := emptySlots weekly taskCol in
    let ledgerRows := rangeRows 4 (weekly_taskl (st w)) in
    tasksSheet (wb w) = Some tasks ->
    ((forall r, In r ledgerRows -> truthy (values tasks (1, r)) = false) ->
     w' = emit w (ShowStatus NoTasksAvailable))
    /\ ((exists r, In r ledgerRows /\ truthy (values tasks (1, r)) = true) ->
        (forall k, (0 <= random k)%Q /\ (random k < 1)%Q) ->
        0 <= weekly_dIndex (st w) ->
        (forall r, In r slots ->
                   truthy (values weekly' (taskCol, r)) = true
                   /\ exists r', In r' ledgerRows
                                 /\ values weekly' (taskCol, r) = values tasks (1, r'))
        /\ out w'
           = (out w
              ++ [ShowStatus
                    (match slots with
                     | [] => NoEmptySlots
                     | _ => FilledSlots (Z.of_nat (List.length slots))
                     end)])%list).
Proof.
  intros random w tasks weekly w' weekly' taskCol slots ledgerRows Htasks.
  unfold weekly', w', randomPick. rewrite Htasks.
  unfold columnValues at 1. change (hostColumn "A") with 1. fold ledgerRows.
  set (names := filter truthy _).
  split.
  - intros Hnone.
    assert (Hnil : names = []).
    { unfold names. clear -Hnone. induction ledgerRows as [|r l IH]; [reflexivity|].
      cbn [map filter]. rewrite (Hnone r) by (left; reflexivity).
      apply IH. intros r' Hr'. apply Hnone. right. exact Hr'. }
    rewrite Hnil. reflexivity.
  - intros (r0 & Hr0 & Hname) Hrandom Hd.
    assert (Hin0 : In (values tasks (1, r0)) names).
    { unfold names. apply filter_In. split; [|exact Hname].
      apply in_map_iff. exists r0. split; [reflexivity | exact Hr0]. }
    assert (Hne : names <> []) by (intros E; rewrite E in Hin0; contradiction).
    assert (Hlen : (List.length names =? 0)%nat = false).
    { apply Nat.eqb_neq. destruct names; [contradiction | cbn; lia]. }
    rewrite Hlen.
    assert (Hcol : hostColumn (dayTaskColumn (weekly_dIndex (st w))) = taskCol).
    { unfold dayTaskColumn, taskCol.
      rewrite ColumnFacts.hostColumn_indexToColumnLetter by lia. lia. }
    unfold timeColumnValues, columnValues, rangeRows.
    change (hostColumn "B") with 2.
    change (Z.min CONFIG.WEEKLY.DATA_START_ROW CONFIG.WEEKLY.lastTimeLine) with 5.
    change (Z.to_nat (Z.abs (CONFIG.WEEKLY.lastTimeLine - CONFIG.WEEKLY.DATA_START_ROW) + 1))
      with 32%nat.
    fold weekly. rewrite Hcol.
    pose proof (RandomPickMoreFacts.randomPickLoop_complete random names
                  (dayTaskColumn (weekly_dIndex (st w)))
                  (fun r => values weekly (2, r)) (fun r => values weekly (taskCol, r))
                  32 Hne Hrandom 5 0%nat weekly 0) as Hloop.
    cbv beta zeta in Hloop. change (5 - 5) with 0 in Hloop.
    assert (Hslots :
      slots
      = filter
          (fun r => negb (isBlank (values weekly (2, r)))
                    && isBlank (values weekly (taskCol, r)))
          (zrange 5 32)) by (unfold slots, emptySlots; reflexivity).
    clearbody slots. rewrite <- Hslots in Hloop. clear Hslots.
    destruct (randomPickLoop _ _ _ _ _ _ _ _ _) as [[weekly1 filledCount] finished].
    cbn [fst snd] in Hloop. destruct Hloop as (-> & -> & Hin).
    cbn [negb].
    assert (Hvals : forall r, In r slots ->
               truthy (values weekly1 (taskCol, r)) = true
               /\ exists r', In r' ledgerRows
                             /\ values weekly1 (taskCol, r) = values tasks (1, r')).
    { intros r Hr. specialize (Hin r Hr). unfold at_ in Hin. rewrite Hcol in Hin.
      unfold names in Hin. apply filter_In in Hin as [Hin Htruthy].
      split; [exact Htruthy|].
      apply in_map_iff in Hin as (r' & Hr' & Hrows).
      exists r'. split; [exact Hrows | symmetry; exact Hr']. }
    destruct slots as [|s0 rest] eqn:Eslots.
    + cbn [List.length Z.of_nat Z.add Z.ltb Z.compare].
      cbn [wb out emit withWeekly weeklySheet]. split; [exact Hvals | reflexivity].
    + replace (0 <? 0 + Z.of_nat (List.length (s0 :: rest))) with true
        by (symmetry; apply Z.ltb_lt; cbn [List.length]; lia).
      cbn [wb out emit withWeekly weeklySheet]. split; [exact Hvals | reflexivity].
Qed.

(** Tuesday's column of [pickWeekly]: row 6 has a time and no task. *)
Lemma randomPick_fills_every_empty_slot_witness :
  let w' := randomPick (fun _ => 0%Q) pickWorld in
  (forall r, In r (emptySlots pickWeekly 5) ->
             truthy (values (weeklySheet (wb w')) (5, r)) = true
             /\ exists r', In r' (rangeRows 4 5)
                           /\ values (weeklySheet (wb w')) (5, r) = values pickTasks (1, r'))
  /\ out w'
     = (out pickWorld
        ++ [ShowStatus
              (match emptySlots pickWeekly 5 with
               | [] => NoEmptySlots
               | _ => FilledSlots (Z.of_nat (List.length (emptySlots pickWeekly 5)))
               end)])%list.
Proof.
  apply (proj2 (randomPick_fills_every_empty_slot (fun _ => 0%Q) pickWorld pickTasks eq_refl)).
  - exists 4. split; [left; reflexivity | reflexivity].
  - intros k. split; [apply Qle_refl | reflexivity].
  - cbn. lia.
Defined.

End RandomPickMoreSpec.

(** ** weekly.js: highlighting *)

Module HighlightSpec.
Import Js Utils Value Grid Weekly Examples MoreExamples.

Lemma dayColumns d row :
  0 <= d ->
  at_ (dayTaskColumn d) row = (d * 2 + 3, row)
  /\ at_ (dayScoreColumn d) row = (d * 2 + 4, row).
Proof.
  intros Hd. unfold at_, dayTaskColumn, dayScoreColumn.
  rewrite !ColumnFacts.hostColumn_indexToColumnLetter by lia.
  split; f_equal; lia.
Qed.

(** The row found lies within the loaded time column. *)
Lemma bestTimeRow_range now sh : bestTimeRow now sh <= 31.
Proof.
  unfold bestTimeRow.
  pose proof (TimeRowFacts.bestTimeLoop_spec (currentTimeDecimal now)
                (timeColumnValues sh) 0 (-1) (-1)%Q) as Hscan.
  cbn zeta in Hscan.
  destruct Hscan as [(Hi & _) | (k & Hi & (v & Hnth & _) & _)]; [lia|].
  assert (Hk : (k < List.length (timeColumnValues sh))%nat).
  { apply nth_error_Some. rewrite Hnth. discriminate. }
  unfold timeColumnValues, columnValues in Hk. rewrite length_map in Hk.
  change (List.length (rangeRows CONFIG.WEEKLY.DATA_START_ROW CONFIG.WEEKLY.lastTimeLine))
    with 32%nat in Hk.
  lia.
Qed.

Lemma highlightCurrentDay_fill_at (w : world) (c : cell) :
  0 <= weekly_dIndex (st w) ->
  fill (weeklySheet (wb (highlightCurrentDay w))) c
  = (if (snd c =? 4)
        && ((fst c =? weekly_dIndex (st w) * 2 + 3) || (fst c =? weekly_dIndex (st w) * 2 + 4))
     then Some CONFIG.COLORS.TODAY_HIGHLIGHT
     else if (snd c =? 4) && (1 <=? fst c) && (fst c <=? 16) then None
     else fill (weeklySheet (wb w)) c).
Proof.
  destruct c as [cc cr]. intros Hd. unfold highlightCurrentDay.
  set (d := weekly_dIndex (st w)) in *.
  destruct (dayColumns d 4 Hd) as [-> ->].
  cbn [wb st out withWeekly weeklySheet habitsSheet tasksSheet summarySheet].
  cbn [fill setFill clearFillBox fst snd]. unfold cell_eqb, inBox. cbn [fst snd].
  change (hostColumn "A") with 1. change (hostColumn "P") with 16.
  destruct (Z.eqb_spec cr 4) as [->|Hr]; cbn [andb].
  - rewrite !andb_true_r.
    destruct (Z.eqb_spec cc (d * 2 + 4)) as [->|H4].
    + rewrite orb_true_r. reflexivity.
    + rewrite orb_false_r. destruct (cc =? d * 2 + 3); [reflexivity|].
      destruct (1 <=? cc), (cc <=? 16); reflexivity.
  - rewrite !andb_false_r. cbn [andb orb].
    destruct (Z.leb_spec 4 cr), (Z.leb_spec cr 4);
      rewrite ?andb_false_r, ?andb_true_r; try reflexivity.
    lia.
Qed.

(** The current-time highlight stays within rows 5..36. *)
Lemma highlightCurrentTimeRow_fill_outside (now : clock) (w : world) (c : cell) :
  ~ 5 <= snd c <= 36 ->
  fill (weeklySheet (wb (highlightCurrentTimeRow now w))) c = fill (weeklySheet (wb w)) c.
Proof.
  intros Hc. unfold highlightCurrentTimeRow.
  set (sheet1 := clearFillBox (weeklySheet (wb w)) _ _ _ _).
  assert (H1 : fill sheet1 c = fill (weeklySheet (wb w)) c).
  { unfold sheet1, clearFillBox, inBox. cbn [fill].
    change CONFIG.WEEKLY.lastTimeLine with 36.
    destruct (Z.leb_spec 5 (snd c)), (Z.leb_spec (snd c) 36);
      rewrite ?andb_false_r; try reflexivity.
    exfalso. apply Hc. lia. }
  pose proof (bestTimeRow_range now sheet1) as Hrange.
  destruct (0 <=? bestTimeRow now sheet1) eqn:Eb; [|exact H1].
  apply Z.leb_le in Eb.
  change CONFIG.WEEKLY.DATA_START_ROW with 5.
  assert (Hne : forall letters, c <> at_ letters (5 + bestTimeRow now sheet1)).
  { intros letters ->. apply Hc. cbn [at_ snd]. lia. }
  destruct (isBlank _); cbn [wb withWeekly weeklySheet];
    rewrite ?GridFacts.fill_setFill_other by apply Hne; exact H1.
Qed.

(** X17.  With a day index that is not negative, [highlightCurrentDay]
    leaves the header cells A4:P4 without fill except the two of today's
    task and score columns, which get the highlight colour (for the day
    indices 0..6 these lie within C4:P4); no other fill colour, no cell
    value, and nothing else in the world changes. *)
Theorem highlightCurrentDay_marks_todays_header :
  forall (w : world) (c : cell),
    let d := weekly_dIndex (st w) in
    let w' := highlightCurrentDay w in
    0 <= d ->
    fill (weeklySheet (wb w')) c
    = (if (snd c =? 4) && ((fst c =? d * 2 + 3) || (fst c =? d * 2 + 4))
       then Some CONFIG.COLORS.TODAY_HIGHLIGHT
       else if (snd c =? 4) && (1 <=? fst c) && (fst c <=? 16) then None
       else fill (weeklySheet (wb w)) c)
    /\ values (weeklySheet (wb w')) = values (weeklySheet (wb w))
    /\ habitsSheet (wb w') = habitsSheet (wb w)
    /\ tasksSheet (wb w') = tasksSheet (wb w)
    /\ summarySheet (wb w') = summarySheet (wb w)
    /\ st w' = st w
    /\ out w' = out w
    /\ (d <= 6 -> 3 <= d * 2 + 3 /\ d * 2 + 4 <= 16).
Proof.
  intros w c d w' Hd.
  split; [apply highlightCurrentDay_fill_at; exact Hd|].
  repeat split; try reflexivity; lia.
Qed.

(** Tuesday (index 1): E4 is highlighted, the fill of C4 is cleared. *)
Lemma highlightCurrentDay_marks_todays_header_witness :
  fill (weeklySheet (wb (highlightCurrentDay deepWorld))) (5, 4)
  = Some CONFIG.COLORS.TODAY_HIGHLIGHT
  /\ fill (weeklySheet (wb (highlightCurrentDay deepWorld))) (3, 4) = None.
Proof.
  split.
  - exact (proj1 (highlightCurrentDay_marks_todays_header deepWorld (5, 4)
                    ltac:(cbn; lia))).
  - exact (proj1 (highlightCurrentDay_marks_todays_header deepWorld (3, 4)
                    ltac:(cbn; lia))).
Defined.

(** X18.  [highlightCurrentTimeRow] clears the fill of the time cells
    B5:B36 only.  Every other cell keeps its fill colour or gets the
    current-time colour; the latter happens, with a day index that is not
    negative, only to cells of today's task and score columns in rows 5..36
    whose score cell is empty.  So the slot highlighted for an earlier time
    row stays highlighted.  No cell value and nothing else in the world
    changes. *)
Theorem highlightCurrentTimeRow_never_clears_a_slot :
  forall (now : clock) (w : world) (c : cell),
    let d := weekly_dIndex (st w) in
    let weekly := weeklySheet (wb w) in
    let w' := highlightCurrentTimeRow now w in
    let weekly' := weeklySheet (wb w') in
    0 <= d ->
    ~ (fst c = 2 /\ 5 <= snd c <= 36) ->
    (fill weekly' c = fill weekly c
     \/ (fill weekly' c = Some CONFIG.COLORS.CURRENT_TIME
         /\ (fst c = d * 2 + 3 \/ fst c = d * 2 + 4)
         /\ 5 <= snd c <= 36
         /\ isBlank (values weekly (d * 2 + 4, snd c)) = true))
    /\ values weekly' = values weekly
    /\ habitsSheet (wb w') = habitsSheet (wb w)
    /\ tasksSheet (wb w') = tasksSheet (wb w)
    /\ summarySheet (wb w') = summarySheet (wb w)
    /\ st w' = st w
    /\ out w' = out w.
Proof.
  intros now w c d weekly w' weekly' Hd Hc.
  unfold weekly', w', highlightCurrentTimeRow. fold d. fold weekly.
  set (sheet1 := clearFillBox weekly _ _ _ _).
  assert (H1 : fill sheet1 c = fill weekly c).
  { unfold sheet1, clearFillBox, inBox. cbn [fill].
    change (hostColumn "B") with 2. change CONFIG.WEEKLY.lastTimeLine with 36.
    destruct (Z.leb_spec 2 (fst c)), (Z.leb_spec (fst c) 2),
      (Z.leb_spec 5 (snd c)), (Z.leb_spec (snd c) 36); cbn [andb]; try reflexivity.
    exfalso. apply Hc. lia. }
  pose proof (bestTimeRow_range now sheet1) as Hrange.
  destruct (0 <=? bestTimeRow now sheet1) eqn:Eb.
  2:{ cbn [wb st out withWeekly weeklySheet habitsSheet tasksSheet summarySheet].
      split; [left; exact H1 | repeat split; reflexivity]. }
  apply Z.leb_le in Eb.
  change CONFIG.WEEKLY.DATA_START_ROW with 5.
  assert (Hrow : 5 <= 5 + bestTimeRow now sheet1 <= 36) by lia.
  clear Hrange Eb.
  set (row := 5 + bestTimeRow now sheet1) in *.
  destruct (dayColumns d row Hd) as [-> ->].
  change (at_ "B" row) with (2, row).
  assert (HB : c <> (2, row)).
  { intros ->. apply Hc. cbn [fst snd]. lia. }
  destruct (isBlank _) eqn:Eblank;
    cbn [wb st out withWeekly weeklySheet habitsSheet tasksSheet summarySheet];
    (split; [|repeat split; reflexivity]).
  - cbn [values setFill] in Eblank.
    destruct (GridFacts.cell_eqb_eq c (d * 2 + 4, row)) as [_ Hs].
    destruct (cell_eqb c (d * 2 + 4, row)) eqn:Es.
    + apply GridFacts.cell_eqb_eq in Es. subst c. right.
      rewrite GridFacts.fill_setFill_same. cbn [fst snd].
      split; [reflexivity|]. split; [right; reflexivity|]. split; [lia | exact Eblank].
    + assert (Hne : c <> (d * 2 + 4, row)).
      { intros E. apply Hs in E. congruence. }
      rewrite GridFacts.fill_setFill_other by exact Hne.
      destruct (cell_eqb c (d * 2 + 3, row)) eqn:Et.
      * apply GridFacts.cell_eqb_eq in Et. subst c. right.
        rewrite GridFacts.fill_setFill_same. cbn [fst snd].
        split; [reflexivity|]. split; [left; reflexivity|]. split; [lia | exact Eblank].
      * assert (Hne' : c <> (d * 2 + 3, row)).
        { intros E. apply GridFacts.cell_eqb_eq in E. congruence. }
        left.
        rewrite (GridFacts.fill_setFill_other _ _ _ c Hne'),
          (GridFacts.fill_setFill_other _ _ _ c HB).
        exact H1.
  - left. rewrite GridFacts.fill_setFill_other by exact HB. exact H1.
Qed.

(** The header cell E4 at ten o'clock. *)
Lemma highlightCurrentTimeRow_never_clears_a_slot_witness :
  let weekly' := weeklySheet (wb (highlightCurrentTimeRow tenOClock tieWorld)) in
  (fill weekly' (5, 4) = fill tieWeekly (5, 4)
   \/ (fill weekly' (5, 4) = Some CONFIG.COLORS.CURRENT_TIME
       /\ (5 = 1 * 2 + 3 \/ 5 = 1 * 2 + 4)
       /\ 5 <= 4 <= 36
       /\ isBlank (values tieWeekly (1 * 2 + 4, 4)) = true))
  /\ values weekly' = values tieWeekly.
Proof.
  destruct (highlightCurrentTimeRow_never_clears_a_slot tenOClock tieWorld (5, 4))
    as (Hf & Hv & _).
  - cbn. lia.
  - cbn [fst snd]. lia.
  - split; [exact Hf | exact Hv].
Defined.

End HighlightSpec.

(** ** weekly.js: clearing for a new week *)

Module ClearSpec.
Import Js Utils Value Grid Weekly Notions Examples MoreExamples.

Lemma clearForNewWeek_fill_at w c :
  fill (weeklySheet (wb (clearForNewWeek w))) c
  = if inBox c 3 5 26 38 then None else fill (weeklySheet (wb w)) c.
Proof.
  unfold clearForNewWeek. cbn [wb emit withWeekly weeklySheet].
  rewrite NewWeekFacts.clearDays_fill. reflexivity.
Qed.

Lemma clearForNewWeek_rest w :
  habitsSheet (wb (clearForNewWeek w)) = habitsSheet (wb w)
  /\ tasksSheet (wb (clearForNewWeek w)) = tasksSheet (wb w)
  /\ summarySheet (wb (clearForNewWeek w)) = summarySheet (wb w)
  /\ st (clearForNewWeek w) = st w.
Proof. repeat split; reflexivity. Qed.

(** After the clearing no score cell of a visited pair holds a value. *)
Lemma cleared_score_is_blank weekly c :
  inPairs c = true ->
  isBlank (clearedValue weekly (scoreCellOf c)) = true.
Proof.
  intros Hp. unfold clearedValue.
  destruct (inBox (scoreCellOf c) 3 38 16 38); [reflexivity|].
  rewrite NewWeekFacts.scoreCellOf_idem.
  assert (Hp' : inPairs (scoreCellOf c) = true).
  { unfold inPairs in *. unfold scoreCellOf at 3 4. cbn [snd].
    apply andb_true_iff in Hp as [Hp Hr2]. apply andb_true_iff in Hp as [Hp Hr1].
    rewrite Hr1, Hr2, !andb_true_r.
    pose proof (NewWeekFacts.scoreColumnOf_range (fst c)) as Hrange.
    rewrite Hp in Hrange. unfold scoreCellOf. cbn [fst].
    apply andb_true_iff in Hrange as [H4 H16]. rewrite H16, andb_true_r.
    apply Z.leb_le in H4. apply Z.leb_le. lia. }
  rewrite Hp'. cbn [andb].
  destruct (isBlank (values weekly (scoreCellOf c))) eqn:E; cbn [negb]; [exact E | reflexivity].
Qed.

(** X19.  [clearForNewWeek] only empties: a cell value that changes becomes
    the empty string, and only within C5:P38; afterwards no score cell of
    D5:P37 holds a value, so clearing a second time changes neither a value
    nor a fill colour.  Fill colours change within C5:Z38 only, and the
    other sheets and the session not at all. *)
Theorem clearForNewWeek_only_empties_and_is_idempotent :
  forall (w : world) (c : cell),
    let weekly := weeklySheet (wb w) in
    let w1 := clearForNewWeek w in
    let w2 := clearForNewWeek w1 in
    (values (weeklySheet (wb w1)) c = values weekly c
     \/ (values (weeklySheet (wb w1)) c = JStr "" /\ inBox c 3 5 16 38 = true))
    /\ (inPairs c = true -> isBlank (values (weeklySheet (wb w1)) (scoreCellOf c)) = true)
    /\ values (weeklySheet (wb w2)) c = values (weeklySheet (wb w1)) c
    /\ fill (weeklySheet (wb w2)) c = fill (weeklySheet (wb w1)) c
    /\ (inBox c 3 5 26 38 = false -> fill (weeklySheet (wb w1)) c = fill weekly c)
    /\ habitsSheet (wb w1) = habitsSheet (wb w)
    /\ tasksSheet (wb w1) = tasksSheet (wb w)
    /\ summarySheet (wb w1) = summarySheet (wb w)
    /\ st w1 = st w.
Proof.
  intros w c weekly w1 w2.
  assert (Hin : forall c', inPairs c' = true -> inBox c' 3 5 16 38 = true).
  { intros c' Hp. unfold inPairs, inBox in *.
    apply andb_true_iff in Hp as [Hp Hr2]. apply andb_true_iff in Hp as [Hp Hr1].
    rewrite Hp, Hr1. apply Z.ltb_lt in Hr2. cbn [andb]. apply Z.leb_le. lia. }
  assert (Hrow : forall c', inBox c' 3 38 16 38 = true -> inBox c' 3 5 16 38 = true).
  { intros c' Hp. unfold inBox in *.
    apply andb_true_iff in Hp as [Hp Hr2]. apply andb_true_iff in Hp as [Hp Hr1].
    rewrite Hp, Hr2, andb_true_r. apply Z.leb_le in Hr1. cbn [andb]. apply Z.leb_le. lia. }
  split; [|split; [|split; [|split; [|split]]]].
  - unfold w1. rewrite NewWeekFacts.clearForNewWeek_values. fold weekly.
    unfold clearedValue.
    destruct (inBox c 3 38 16 38) eqn:E38; [right; split; [reflexivity | now apply Hrow]|].
    destruct (inPairs c) eqn:Ep; cbn [andb]; [|left; reflexivity].
    destruct (negb _); [right; split; [reflexivity | now apply Hin] | left; reflexivity].
  - intros Hp. unfold w1. rewrite NewWeekFacts.clearForNewWeek_values.
    apply cleared_score_is_blank. exact Hp.
  - unfold w2. rewrite NewWeekFacts.clearForNewWeek_values.
    unfold clearedValue at 1.
    destruct (inBox c 3 38 16 38) eqn:E38.
    + unfold w1. rewrite NewWeekFacts.clearForNewWeek_values.
      unfold clearedValue. rewrite E38. reflexivity.
    + destruct (inPairs c) eqn:Ep; cbn [andb]; [|reflexivity].
      unfold w1 at 1. rewrite NewWeekFacts.clearForNewWeek_values.
      rewrite (cleared_score_is_blank _ c Ep). reflexivity.
  - unfold w2. rewrite !clearForNewWeek_fill_at.
    unfold w1. rewrite clearForNewWeek_fill_at.
    destruct (inBox c 3 5 26 38); reflexivity.
  - intros Hout. unfold w1. rewrite clearForNewWeek_fill_at, Hout. reflexivity.
  - apply clearForNewWeek_rest.
Qed.

(** The stale week: the scored "Deep Work" in C5 is emptied, the time in B5
    stays. *)
Lemma clearForNewWeek_only_empties_and_is_idempotent_witness :
  isBlank (values (weeklySheet (wb (clearForNewWeek staleWorld))) (scoreCellOf (3, 5))) = true
  /\ fill (weeklySheet (wb (clearForNewWeek staleWorld))) (2, 5) = fill staleWeekly (2, 5).
Proof.
  destruct (clearForNewWeek_only_empties_and_is_idempotent staleWorld (3, 5))
    as (_ & Hscore & _).
  destruct (clearForNewWeek_only_empties_and_is_idempotent staleWorld (2, 5))
    as (_ & _ & _ & _ & Hfill & _).
  split; [apply Hscore; reflexivity | apply Hfill; reflexivity].
Defined.

End ClearSpec.

(** ** weekly.js: the archive file *)

Module CsvFacts.
Import Js Utils Value Grid Weekly MoreNotions.

Lemma splitOn_length c s : forall cur, List.length (splitOn c s cur) = S (countChar c s).
Proof.
  induction s as [|d t IH]; intros cur; cbn [splitOn countChar]; [reflexivity|].
  destruct (Ascii.eqb c d); cbn [List.length]; rewrite IH; reflexivity.
Qed.

Lemma countChar_app c s t : countChar c (s ++ t) = (countChar c s + countChar c t)%nat.
Proof.
  induction s as [|d s IH]; cbn [append countChar]; [reflexivity|].
  rewrite IH. lia.
Qed.

Lemma countChar_concat c (l : list string) :
  countChar c (String.concat "" l) = list_sum (map (countChar c) l).
Proof.
  unfold list_sum. induction l as [|x l IH]; [reflexivity|].
  cbn [map fold_right]. rewrite <- IH.
  destruct l as [|y l].
  - cbn [String.concat countChar]. lia.
  - change (String.concat "" (x :: y :: l)) with (x ++ "" ++ String.concat "" (y :: l)).
    rewrite !countChar_app. reflexivity.
Qed.

Lemma includesChar_count c s : includesChar c s = negb (countChar c s =? 0)%nat.
Proof.
  induction s as [|d s IH]; cbn [includesChar countChar]; [reflexivity|].
  destruct (Ascii.eqb c d); [reflexivity | exact IH].
Qed.

Lemma csvHeader_newlines : countChar newline csvHeader = 1%nat.
Proof. vm_compute. reflexivity. Qed.

Lemma csvHeader_not_empty s : String.eqb (csvHeader ++ s) "" = false.
Proof.
  assert (H : exists t, csvHeader = String "T" t) by (vm_compute; eexists; reflexivity).
  destruct H as [t ->]. reflexivity.
Qed.

Section WithBuiltins.
Context `{Builtins}.

Lemma csvRow_newlines weekly i :
  let time := values weekly (2, 5 + i) in
  (isBlank time = true -> countChar newline (csvRow weekly i) = 0%nat)
  /\ (isBlank time = false -> (1 <= countChar newline (csvRow weekly i))%nat).
Proof.
  cbn zeta. unfold csvRow.
  change (hostColumn "B") with 2. change CONFIG.WEEKLY.DATA_START_ROW with 5.
  destruct (isBlank (values weekly (2, 5 + i))); split; try discriminate.
  - reflexivity.
  - intros _. rewrite countChar_app. cbn [countChar].
    rewrite Ascii.eqb_refl. lia.
Qed.

(** The number of lines of the CSV text tells whether some row has a
    time. *)
Lemma csvContent_lines weekly :
  ((exists r, 5 <= r <= 36 /\ isBlank (values weekly (2, r)) = false) ->
   (2 <? List.length (split newline (csvContentOf weekly)))%nat = true)
  /\ ((forall r, 5 <= r <= 36 -> isBlank (values weekly (2, r)) = true) ->
      (2 <? List.length (split newline (csvContentOf weekly)))%nat = false).
Proof.
  unfold split. rewrite splitOn_length. unfold csvContentOf.
  rewrite countChar_app, csvHeader_newlines, countChar_concat.
  assert (Hlen : List.length (timeColumnValues weekly) = 32%nat).
  { unfold timeColumnValues, columnValues. rewrite length_map. reflexivity. }
  rewrite Hlen.
  assert (Hsum : forall n a,
    ((exists i, a <= i < a + Z.of_nat n /\ isBlank (values weekly (2, 5 + i)) = false) ->
     (1 <= list_sum (map (countChar newline) (map (csvRow weekly) (zrange a n))))%nat)
    /\ ((forall i, a <= i < a + Z.of_nat n -> isBlank (values weekly (2, 5 + i)) = true) ->
        list_sum (map (countChar newline) (map (csvRow weekly) (zrange a n))) = 0%nat)).
  { unfold list_sum. induction n as [|n IH]; intros a; cbn [zrange map fold_right].
    - split; [intros (i & Hi & _); lia | reflexivity].
    - destruct (csvRow_newlines weekly a) as [Hb Hn]. cbn zeta in Hb, Hn.
      destruct (IH (a + 1)) as [IH1 IH0]. split.
      + intros (i & Hi & Hblank).
        destruct (Z.eq_dec i a) as [->|Hne]; [specialize (Hn Hblank); lia|].
        unfold list_sum in IH1.
        assert (1 <= fold_right Nat.add 0%nat
                       (map (countChar newline)
                          (map (csvRow weekly) (zrange (a + 1) n))))%nat
          by (apply IH1; exists i; split; [lia | exact Hblank]).
        lia.
      + intros Hall. rewrite Hb by (apply Hall; lia).
        unfold list_sum in IH0.
        rewrite IH0; [reflexivity|]. intros i Hi. apply Hall. lia. }
  destruct (Hsum 32%nat 0) as [H1 H0]. split.
  - intros (r & Hr & Hblank). apply Nat.ltb_lt.
    assert (1 <= list_sum (map (countChar newline)
                             (map (csvRow weekly) (zrange 0 32))))%nat.
    { apply H1. exists (r - 5). split; [lia|].
      replace (5 + (r - 5)) with r by lia. exact Hblank. }
    lia.
  - intros Hall. apply Nat.ltb_ge. rewrite H0; [lia|].
    intros i Hi. apply Hall. lia.
Qed.

End WithBuiltins.

(** [str.replace(/x/g, "xx")] loses nothing. *)
Lemma doubleQuotes_inj a : forall b, doubleQuotes a = doubleQuotes b -> a = b.
Proof.
  induction a as [|c a IH]; intros [|d b]; cbn [doubleQuotes].
  - reflexivity.
  - destruct (Ascii.eqb d dquote); discriminate.
  - destruct (Ascii.eqb c dquote); discriminate.
  - destruct (Ascii.eqb_spec c dquote) as [->|Hc], (Ascii.eqb_spec d dquote) as [->|Hd].
    + intros [= E]. f_equal. apply IH. exact E.
    + intros [= E _]. exfalso. apply Hd. symmetry. exact E.
    + intros [= E _]. exfalso. apply Hc. exact E.
    + intros [= -> E]. f_equal. apply IH. exact E.
Qed.

Lemma append_inv_tail (a b t : string) : a ++ t = b ++ t -> a = b.
Proof.
  intros E.
  assert (Hl : forall s u : string,
             String.length (s ++ u) = (String.length s + String.length u)%nat).
  { induction s as [|c s IHs]; intros u; cbn; [reflexivity | now rewrite IHs]. }
  revert b E. induction a as [|c a IH]; intros [|d b] E.
  - reflexivity.
  - apply (f_equal String.length) in E. cbn [append] in E.
    cbn [String.length] in E. rewrite Hl in E. lia.
  - apply (f_equal String.length) in E. cbn [append] in E.
    cbn [String.length] in E. rewrite Hl in E. lia.
  - cbn [append] in E. injection E as -> E. f_equal. apply IH. exact E.
Qed.

End CsvFacts.

Module ArchiveMoreSpec.
Import Js Utils Value Grid Weekly Notions Examples MoreExamples MoreNotions.

(** X20.  [archiveWeekAutomatically] never changes the workbook or the
    session.  It hands one CSV file to the browser, with the text and the
    file name built from the grid, exactly when some time cell of B5:B36
    is not empty; with an empty time column it does nothing. *)
Theorem archive_downloads_iff_some_time :
  forall `{Builtins} (w : world),
    let weekly := weeklySheet (wb w) in
    let w' := archiveWeekAutomatically w in
    wb w' = wb w
    /\ st w' = st w
    /\ ((exists r, 5 <= r <= 36 /\ isBlank (values weekly (2, r)) = false) ->
        out w'
        = (out w
           ++ [DownloadCSV (csvContentOf weekly)
                 ("Weekly_" ++ weekLabelOf weekly ++ ".csv")])%list)
    /\ ((forall r, 5 <= r <= 36 -> isBlank (values weekly (2, r)) = true) -> w' = w).
Proof.
  intros B w weekly w'.
  destruct (NewWeekFacts.archiveWeekAutomatically_effect w) as (Hwb & Hst & _).
  destruct (CsvFacts.csvContent_lines weekly) as [Hsome Hnone].
  split; [exact Hwb|]. split; [exact Hst|].
  unfold w', archiveWeekAutomatically. fold weekly.
  unfold csvContentOf at 1 3. rewrite !CsvFacts.csvHeader_not_empty. cbn [negb andb].
  fold (csvContentOf weekly).
  split.
  - intros Hex. rewrite (Hsome Hex). reflexivity.
  - intros Hall. rewrite (Hnone Hall). reflexivity.
Qed.

(** The stale week has a time in B5. *)
Lemma archive_downloads_iff_some_time_witness :
  out (@archiveWeekAutomatically plainBuiltins staleWorld)
  = (out staleWorld
     ++ [DownloadCSV (@csvContentOf plainBuiltins staleWeekly)
           ("Weekly_" ++ @weekLabelOf plainBuiltins staleWeekly ++ ".csv")])%list.
Proof.
  apply (@archive_downloads_iff_some_time plainBuiltins staleWorld).
  exists 5. split; [lia | reflexivity].
Defined.

(** X21.  [escapeCSV] returns a string without comma, double quote and
    newline as it is, and any other one between double quotes with every
    double quote inside doubled; no two strings are escaped to the same
    text. *)
Theorem escapeCSV_is_injective :
  forall a b : string,
    (includesChar "," a = false -> includesChar dquote a = false ->
     includesChar newline a = false -> escapeCSV a = a)
    /\ (escapeCSV a = a
        \/ escapeCSV a = String dquote (doubleQuotes a ++ String dquote EmptyString))
    /\ (escapeCSV a = escapeCSV b -> a = b).
Proof.
  intros a b. split; [|split].
  - intros H1 H2 H3. unfold escapeCSV. rewrite H1, H2, H3. reflexivity.
  - unfold escapeCSV. destruct (_ || _ || _); [right | left]; reflexivity.
  - assert (Hplain : forall s t : string,
               includesChar "," s || includesChar dquote s || includesChar newline s = false ->
               s = String dquote t -> False).
    { intros s t Hs ->. cbn [includesChar] in Hs.
      rewrite Ascii.eqb_refl in Hs. cbn [orb] in Hs.
      rewrite orb_true_r in Hs. discriminate. }
    unfold escapeCSV.
    destruct (includesChar "," a || includesChar dquote a || includesChar newline a) eqn:Ea,
      (includesChar "," b || includesChar dquote b || includesChar newline b) eqn:Eb.
    + intros [= E]. apply CsvFacts.append_inv_tail in E.
      apply CsvFacts.doubleQuotes_inj. exact E.
    + intros E. exfalso. exact (Hplain b _ Eb (eq_sym E)).
    + intros E. exfalso. exact (Hplain a _ Ea E).
    + intros E. exact E.
Qed.

Lemma escapeCSV_is_injective_witness :
  escapeCSV "Deep Work" = "Deep Work".
Proof.
  apply (proj1 (escapeCSV_is_injective "Deep Work" "")); reflexivity.
Defined.

End ArchiveMoreSpec.

Module TimeFormatSpec.
Import Js Utils Value Grid Weekly Examples.

Lemma Qfloor_unique (x : Q) (z : Z) :
  (inject_Z z <= x)%Q -> (x < inject_Z (z + 1))%Q -> Qfloor x = z.
Proof.
  intros Hle Hlt.
  assert (H1 : z <= Qfloor x).
  { rewrite <- (Qfloor_Z z). apply Qfloor_resp_le. exact Hle. }
  assert (H2 : Qfloor x < z + 1).
  { rewrite Zlt_Qlt. eapply Qle_lt_trans; [apply Qfloor_le | exact Hlt]. }
  lia.
Qed.

Lemma Qfloor_range (x : Q) (a b : Z) :
  (inject_Z a <= x)%Q -> (x < inject_Z b)%Q -> a <= Qfloor x < b.
Proof.
  intros Hle Hlt. split.
  - rewrite <- (Qfloor_Z a). apply Qfloor_resp_le. exact Hle.
  - rewrite Zlt_Qlt. eapply Qle_lt_trans; [apply Qfloor_le | exact Hlt].
Qed.

Lemma toStr_integer `{Builtins} (z : Z) :
  Z.abs z < 10 ^ 21 -> toStr (JNum (inject_Z z)) = intToString z.
Proof.
  intros Hz. unfold toStr, printsAsInteger, isInteger.
  rewrite Qfloor_Z.
  replace (Qeq_bool (inject_Z z) (inject_Z z)) with true
    by (symmetry; apply Qeq_bool_iff; reflexivity).
  replace (Z.abs z <? 10 ^ 21) with true by (symmetry; apply Z.ltb_lt; exact Hz).
  reflexivity.
Qed.

Lemma two_digits (z : Z) :
  0 <= z < 100 -> String.length (padStart0 2 (intToString z)) = 2%nat.
Proof.
  intros Hz.
  assert (Hall : forallb (fun z => (String.length (padStart0 2 (intToString z)) =? 2)%nat)
                   (zrange 0 100) = true) by (vm_compute; reflexivity).
  rewrite forallb_forall in Hall.
  apply Nat.eqb_eq, Hall, GridFacts.in_zrange. lia.
Qed.

Lemma length_append (s u : string) :
  String.length (s ++ u) = (String.length s + String.length u)%nat.
Proof. induction s as [|c s IH]; cbn; [reflexivity | now rewrite IH]. Qed.

(** X22.  For a time cell holding a fraction of a day (0 <= t < 1) the
    archive writes five characters, two digits of hours (00..23), a colon
    and two digits of minutes (00..60): hours and minutes together are the
    time of day rounded to the nearest minute, but a rounded-up 60 is not
    carried into the hours. *)
Theorem formatTime_of_a_day_fraction :
  forall `{Builtins} (t : Q),
    (0 <= t)%Q -> (t < 1)%Q ->
    let hours := Qfloor (t * 24)%Q in
    let mins := round ((t * 24 - inject_Z hours) * 60)%Q in
    formatTime (JNum t)
    = padStart0 2 (intToString hours) ++ ":" ++ padStart0 2 (intToString mins)
    /\ String.length (formatTime (JNum t)) = 5%nat
    /\ 0 <= hours <= 23
    /\ 0 <= mins <= 60
    /\ 60 * hours + mins = round (t * 1440)%Q.
Proof.
  intros B t H0 H1 hours mins.
  pose proof (Qfloor_le (t * 24)) as Hle. pose proof (Qlt_floor (t * 24)) as Hlt.
  fold hours in Hle, Hlt. rewrite inject_Z_plus in Hlt.
  change (inject_Z 1) with 1%Q in Hlt.
  assert (Hh : 0 <= hours < 24).
  { apply Qfloor_range.
    - change (inject_Z 0) with 0%Q. lra.
    - change (inject_Z 24) with 24%Q. lra. }
  assert (Hm : 0 <= mins < 61).
  { unfold mins, round. apply Qfloor_range.
    - change (inject_Z 0) with 0%Q. lra.
    - change (inject_Z 61) with 61%Q. lra. }
  assert (Hfmt : formatTime (JNum t)
                 = padStart0 2 (intToString hours) ++ ":" ++ padStart0 2 (intToString mins)).
  { unfold formatTime. fold hours. fold mins.
    rewrite !toStr_integer by lia. reflexivity. }
  split; [exact Hfmt|]. split; [|split; [lia|split; [lia|]]].
  - rewrite Hfmt, !length_append, !two_digits by lia. reflexivity.
  - unfold mins, round.
    pose proof (Qfloor_le (t * 1440 + (1 # 2))) as Hle'.
    pose proof (Qlt_floor (t * 1440 + (1 # 2))) as Hlt'.
    rewrite inject_Z_plus in Hlt'. change (inject_Z 1) with 1%Q in Hlt'.
    set (F := Qfloor (t * 1440 + (1 # 2))) in *.
    assert (E : Qfloor ((t * 24 - inject_Z hours) * 60 + (1 # 2)) = F - 60 * hours).
    { apply Qfloor_unique.
      - unfold Z.sub. rewrite inject_Z_plus, inject_Z_opp, inject_Z_mult.
        change (inject_Z 60) with 60%Q. lra.
      - unfold Z.sub. rewrite !inject_Z_plus, inject_Z_opp, inject_Z_mult.
        change (inject_Z 60) with 60%Q. change (inject_Z 1) with 1%Q. lra. }
    rewrite E. lia.
Qed.

(** 23:59:51 is written as 23:60. *)
Lemma formatTime_of_a_day_fraction_witness :
  @formatTime plainBuiltins (JNum (9999 # 10000)) = "23:60".
Proof.
  destruct (@formatTime_of_a_day_fraction plainBuiltins (9999 # 10000))
    as (Hfmt & _); [discriminate | reflexivity |].
  rewrite Hfmt. reflexivity.
Defined.

End TimeFormatSpec.

(** ** weekly.js: initialisation *)

Module InitFacts.
Import Js Utils Value Grid Weekly Notions MoreNotions.

Lemma kept_refl w : keptOutsideWeekly w w.
Proof. repeat split. Qed.

Lemma kept_trans w1 w2 w3 :
  keptOutsideWeekly w1 w2 -> keptOutsideWeekly w2 w3 -> keptOutsideWeekly w1 w3.
Proof.
  unfold keptOutsideWeekly.
  intros (A1 & A2 & A3 & A4 & A5 & A6 & A7 & A8) (B1 & B2 & B3 & B4 & B5 & B6 & B7 & B8).
  repeat split; congruence.
Qed.

Lemma kept_emit w e : keptOutsideWeekly w (emit w e).
Proof. repeat split. Qed.

Lemma kept_clearForNewWeek w : keptOutsideWeekly w (clearForNewWeek w).
Proof. repeat split. Qed.

Lemma kept_setNewWeekDates now w : keptOutsideWeekly w (setNewWeekDates now w).
Proof. repeat split. Qed.

Lemma kept_highlightCurrentDay w : keptOutsideWeekly w (highlightCurrentDay w).
Proof. repeat split. Qed.

Lemma kept_highlightCurrentTimeRow now w :
  keptOutsideWeekly w (highlightCurrentTimeRow now w).
Proof.
  unfold highlightCurrentTimeRow.
  destruct (0 <=? _); [destruct (isBlank _)|]; repeat split.
Qed.

Section WithBuiltins.
Context `{Builtins}.

Lemma kept_archive w : keptOutsideWeekly w (archiveWeekAutomatically w).
Proof.
  destruct (NewWeekFacts.archiveWeekAutomatically_effect w) as (Hwb & Hst & _).
  unfold keptOutsideWeekly. rewrite Hwb, Hst. repeat split.
Qed.

Lemma dIndex_set_lastInitDate s x :
  weekly_dIndex (set_lastInitDate s x) = weekly_dIndex s.
Proof. reflexivity. Qed.

Lemma lastMonday_set_lastInitDate s x :
  weekly_lastMonday (set_lastInitDate s x) = weekly_lastMonday s.
Proof. reflexivity. Qed.

Lemma lastInitDate_set_lastInitDate s x :
  weekly_lastInitDate (set_lastInitDate s x) = Some x.
Proof. reflexivity. Qed.

Lemma todays_header_fill w :
  let d := weekly_dIndex (st w) in
  0 <= d ->
  fill (weeklySheet (wb (highlightCurrentDay w))) (d * 2 + 3, 4)
  = Some CONFIG.COLORS.TODAY_HIGHLIGHT
  /\ fill (weeklySheet (wb (highlightCurrentDay w))) (d * 2 + 4, 4)
     = Some CONFIG.COLORS.TODAY_HIGHLIGHT.
Proof.
  intros d Hd. rewrite !HighlightSpec.highlightCurrentDay_fill_at by exact Hd.
  fold d. cbn [fst snd]. rewrite !Z.eqb_refl. cbn [andb orb]. rewrite orb_true_r.
  split; reflexivity.
Qed.

Lemma kept_set_lastInitDate w w' x :
  keptOutsideWeekly w w' ->
  keptOutsideWeekly w (withSession w' (set_lastInitDate (st w') x)).
Proof. intros K. exact K. Qed.

(** The tail of the initialisation: the Weekly part of the session and
    today's header cells. *)
Lemma finishInitialization_session now w :
  weekly_dIndex (st (finishInitialization now w)) = dayIndexOf (today now)
  /\ weekly_lastMonday (st (finishInitialization now w)) = Some (getMonday (today now))
  /\ weekly_lastInitDate (st (finishInitialization now w))
     = Some (formatDateYYYYMMDD (today now))
  /\ keptOutsideWeekly w (finishInitialization now w)
  /\ (0 <= dayIndexOf (today now) ->
      fill (weeklySheet (wb (finishInitialization now w)))
        (dayIndexOf (today now) * 2 + 3, 4)
      = Some CONFIG.COLORS.TODAY_HIGHLIGHT
      /\ fill (weeklySheet (wb (finishInitialization now w)))
           (dayIndexOf (today now) * 2 + 4, 4)
         = Some CONFIG.COLORS.TODAY_HIGHLIGHT).
Proof.
  unfold finishInitialization.
  set (d := dayIndexOf (today now)).
  set (w1 := withSession w (set_dIndex (st w) d)).
  set (w2 := withSession w1 (set_lastMonday (st w1) (getMonday (today now)))).
  assert (K2 : keptOutsideWeekly w w2) by (repeat split).
  assert (Hd2 : weekly_dIndex (st w2) = d) by reflexivity.
  assert (Hm2 : weekly_lastMonday (st w2) = Some (getMonday (today now))) by reflexivity.
  pose proof (todays_header_fill w2) as Hf3. cbn zeta in Hf3. rewrite Hd2 in Hf3.
  clearbody w2. clear w1.
  destruct (NewWeekFacts.highlightCurrentDay_effect w2) as (_ & _ & Hs3).
  pose proof (kept_highlightCurrentDay w2) as K3.
  set (w3 := highlightCurrentDay w2) in *. clearbody w3.
  destruct (NewWeekFacts.highlightCurrentTimeRow_effect now w3) as (_ & _ & Hs4).
  pose proof (kept_highlightCurrentTimeRow now w3) as K4.
  pose proof (HighlightSpec.highlightCurrentTimeRow_fill_outside now w3) as Hf4.
  set (w4 := highlightCurrentTimeRow now w3) in *. clearbody w4.
  pose proof (kept_trans _ _ _ K2 (kept_trans _ _ _ K3 K4)) as K.
  rewrite <- Hs3, <- Hs4 in Hd2, Hm2.
  rewrite NewWeekFacts.st_withSession, NewWeekFacts.weekly_withSession.
  rewrite dIndex_set_lastInitDate, lastMonday_set_lastInitDate,
    lastInitDate_set_lastInitDate.
  split; [exact Hd2|]. split; [exact Hm2|]. split; [reflexivity|].
  split.
  - apply kept_set_lastInitDate. exact K.
  - intros Hd. rewrite !Hf4 by (cbn [snd]; lia). exact (Hf3 Hd).
Qed.

(** The new-week check changes neither another sheet nor the rest of the
    session. *)
Lemma kept_initializeWeeklyOnOpen now w :
  keptOutsideWeekly w (initializeWeeklyOnOpen now w).
Proof.
  unfold initializeWeeklyOnOpen.
  set (w1 := match sheetLastMondayOf (weeklySheet (wb w)) with
             | Some _ => _
             | None => _
             end).
  assert (K1 : keptOutsideWeekly w w1).
  { unfold w1. destruct (sheetLastMondayOf _) as [[anchor|]|].
    - destruct (7 <=? daysBetween anchor (today now)); [|apply kept_refl].
      eapply kept_trans; [apply kept_emit|].
      eapply kept_trans; [apply kept_archive|].
      eapply kept_trans; [apply kept_clearForNewWeek|].
      eapply kept_trans; [apply kept_setNewWeekDates|].
      apply kept_emit.
    - apply kept_refl.
    - apply kept_setNewWeekDates. }
  destruct (finishInitialization_session now w1) as (_ & _ & _ & K2 & _).
  exact (kept_trans _ _ _ K1 K2).
Qed.

Lemma initializeWeeklyOnOpen_session now w :
  weekly_dIndex (st (initializeWeeklyOnOpen now w)) = dayIndexOf (today now)
  /\ weekly_lastMonday (st (initializeWeeklyOnOpen now w)) = Some (getMonday (today now))
  /\ weekly_lastInitDate (st (initializeWeeklyOnOpen now w))
     = Some (formatDateYYYYMMDD (today now))
  /\ (0 <= dayIndexOf (today now) ->
      fill (weeklySheet (wb (initializeWeeklyOnOpen now w)))
        (dayIndexOf (today now) * 2 + 3, 4)
      = Some CONFIG.COLORS.TODAY_HIGHLIGHT
      /\ fill (weeklySheet (wb (initializeWeeklyOnOpen now w)))
           (dayIndexOf (today now) * 2 + 4, 4)
         = Some CONFIG.COLORS.TODAY_HIGHLIGHT).
Proof.
  unfold initializeWeeklyOnOpen.
  set (w1 := match sheetLastMondayOf (weeklySheet (wb w)) with
             | Some _ => _
             | None => _
             end).
  destruct (finishInitialization_session now w1) as (H1 & H2 & H3 & _ & H5).
  repeat (split; [assumption|]). exact H5.
Qed.

End WithBuiltins.
End InitFacts.

Module InitSpec.
Import Js Utils Value Grid Weekly Commands Notions MoreNotions Examples MoreExamples.

(** X23.  Whatever the sheet holds, [initializeWeeklyOnOpen] leaves the
    session with the day index of today (0 for Monday to 6 for Sunday, the
    days since the Monday of today's week), that Monday as last Monday and
    today as the day of initialisation; [initializeWeeklySheet] sets the
    same day index and Monday.  Today's two header cells in row 4 end up
    highlighted.  The other sheets and the rest of the session are not
    touched. *)
Theorem initializeWeeklyOnOpen_sets_the_session :
  forall `{Builtins} (now : clock) (w : world),
    let w' := initializeWeeklyOnOpen now w in
    let d := daysBetween (getMonday (today now)) (today now) in
    0 <= d <= 6
    /\ weekly_dIndex (st w') = d
    /\ weekly_lastMonday (st w') = Some (getMonday (today now))
    /\ weekly_lastInitDate (st w') = Some (formatDateYYYYMMDD (today now))
    /\ weekly_dIndex (st (initializeWeeklySheet now w)) = d
    /\ weekly_lastMonday (st (initializeWeeklySheet now w)) = Some (getMonday (today now))
    /\ fill (weeklySheet (wb w')) (d * 2 + 3, 4) = Some CONFIG.COLORS.TODAY_HIGHLIGHT
    /\ fill (weeklySheet (wb w')) (d * 2 + 4, 4) = Some CONFIG.COLORS.TODAY_HIGHLIGHT
    /\ keptOutsideWeekly w w'.
Proof.
  intros B now w w' d.
  assert (Hd : dayIndexOf (today now) = d).
  { rewrite WeekSpec.dayIndexOf_offset. unfold d.
    rewrite WeekSpec.getMonday_offset. reflexivity. }
  assert (Hrange : 0 <= d <= 6).
  { rewrite <- Hd. apply WeekSpec.dayIndexOf_range. }
  pose proof (InitFacts.kept_initializeWeeklyOnOpen now w) as K. fold w' in K.
  destruct (InitFacts.initializeWeeklyOnOpen_session now w) as (H1 & H2 & H3 & H5).
  fold w' in H1, H2, H3, H5. rewrite Hd in H1, H5.
  destruct (H5 ltac:(lia)) as [H6 H7].
  split; [exact Hrange|].
  split; [exact H1|]. split; [exact H2|]. split; [exact H3|].
  split; [exact Hd|]. split; [reflexivity|].
  split; [exact H6|]. split; [exact H7|]. exact K.
Qed.

End InitSpec.

(** ** events.js: sheet activation *)

Module ActivationFacts.
Import Js Utils Value Grid Weekly Commands Notions MoreNotions.

Lemma news_same (w w' : world) : out w' = out w -> news w w' = [].
Proof. intros E. unfold news. rewrite E, skipn_all. reflexivity. Qed.

Lemma news_app (w w' : world) (l : list effect) :
  out w' = (out w ++ l)%list -> news w w' = map Script l.
Proof.
  intros E. unfold news. rewrite E, skipn_app, skipn_all, Nat.sub_diag.
  reflexivity.
Qed.

Lemma news_withSession (w w' : world) s : news w (withSession w' s) = news w w'.
Proof. reflexivity. Qed.

Lemma currentSheet_set s name : currentSheet (set_currentSheet s name) = Some name.
Proof. reflexivity. Qed.

Lemma lastInitDate_set_currentSheet s name :
  weekly_lastInitDate (set_currentSheet s name) = weekly_lastInitDate s.
Proof. reflexivity. Qed.

Lemma wb_withSession w s : wb (withSession w s) = wb w.
Proof. reflexivity. Qed.

Section WithBuiltins.
Context `{Builtins}.

(** After the new-day check the Weekly sheet is initialised for today. *)
Lemma activateWeekly_effect now w :
  weekly_lastInitDate (st (activateWeekly now w)) = Some (formatDateYYYYMMDD (today now))
  /\ (weekly_lastInitDate (st w) = Some (formatDateYYYYMMDD (today now)) ->
      values (weeklySheet (wb (activateWeekly now w))) = values (weeklySheet (wb w))
      /\ st (activateWeekly now w) = st w
      /\ out (activateWeekly now w) = out w
      /\ activateWeekly now w = highlightCurrentTimeRow now w)
  /\ (weekly_lastInitDate (st w) <> Some (formatDateYYYYMMDD (today now)) ->
      activateWeekly now w = initializeWeeklyOnOpen now w).
Proof.
  unfold activateWeekly. cbv zeta.
  destruct (NewWeekFacts.highlightCurrentTimeRow_effect now w) as (Hv & Ho & Hs).
  destruct (InitFacts.initializeWeeklyOnOpen_session now w) as (_ & _ & Hi & _).
  destruct (weekly_lastInitDate (st w)) as [lastInit|] eqn:El.
  - destruct (String.eqb_spec lastInit (formatDateYYYYMMDD (today now))) as [->|Hne];
      cbn [negb].
    + split; [rewrite Hs; exact El|]. split.
      * intros _. repeat split; assumption.
      * intros Hn. exfalso. apply Hn. reflexivity.
    + split; [exact Hi|]. split; [|reflexivity].
      intros [= E]. contradiction.
  - split; [exact Hi|]. split; [discriminate | reflexivity].
Qed.

End WithBuiltins.
End ActivationFacts.

Module ActivationSpec.
Import Js Utils Value Grid Weekly Commands Notions MoreNotions Examples MoreExamples.

Lemma handleSheetActivated_initialises_once_a_day_aux :
  forall `{Builtins} (now : clock) (name : string) (w : world),
    let w' := fst (handleSheetActivated now name w) in
    let log := snd (handleSheetActivated now name w) in
    let todayStr := formatDateYYYYMMDD (today now) in
    currentSheet (st w') = Some name
    /\ (name <> CONFIG.WEEKLY_SHEET ->
        wb w' = wb w
        /\ weekly_lastInitDate (st w') = weekly_lastInitDate (st w)
        /\ log = [UpdateUI; Notice (SwitchedTo (Some name))])
    /\ (name = CONFIG.WEEKLY_SHEET ->
        weekly_lastInitDate (st w') = Some todayStr
        /\ (weekly_lastInitDate (st w) = Some todayStr ->
            wb w' = wb (highlightCurrentTimeRow now w)
            /\ values (weeklySheet (wb w')) = values (weeklySheet (wb w))
            /\ log = [UpdateUI; Notice (SwitchedTo (Some name))])
        /\ (weekly_lastInitDate (st w) <> Some todayStr ->
            wb w' = wb (initializeWeeklyOnOpen now w)
            /\ log
               = (news w (initializeWeeklyOnOpen now w)
                  ++ [UpdateUI; Notice (SwitchedTo (Some name))])%list)).
Proof.
  intros B now name w w' log todayStr.
  unfold w', log, handleSheetActivated. cbv zeta. cbn [fst snd].
  rewrite !NewWeekFacts.st_withSession, !ActivationFacts.wb_withSession.
  rewrite !ActivationFacts.currentSheet_set, !ActivationFacts.lastInitDate_set_currentSheet.
  split; [reflexivity|].
  destruct (String.eqb_spec name CONFIG.WEEKLY_SHEET) as [->|Hne].
  - split; [intros Hn; exfalso; apply Hn; reflexivity|]. intros _.
    destruct (ActivationFacts.activateWeekly_effect now w) as (Hinit & Hsame & Hnew).
    fold todayStr in Hinit, Hsame, Hnew.
    split; [exact Hinit|]. split.
    + intros Hl. destruct (Hsame Hl) as (Hv & Hs & Ho & E).
      split; [rewrite E; reflexivity|]. split; [exact Hv|].
      rewrite ActivationFacts.news_withSession, ActivationFacts.news_same;
        [reflexivity|]. exact Ho.
    + intros Hl. rewrite ActivationFacts.news_withSession, (Hnew Hl).
      split; reflexivity.
  - split; [|intros E; contradiction]. intros _.
    split; [reflexivity|]. split; [reflexivity|].
    rewrite ActivationFacts.news_withSession, ActivationFacts.news_same; reflexivity.
Qed.

(** X24.  [handleSheetActivated] stores the activated sheet's name as the
    current sheet and reports the switch.  For a sheet other than the
    Weekly sheet it changes nothing else.  For the Weekly sheet it compares
    the day of the last initialisation with today: on the same day only the
    time highlight is refreshed and no cell value changes, on a new day (or
    before any initialisation) [initializeWeeklyOnOpen] runs; either way
    the day of the last initialisation is today afterwards. *)
Theorem handleSheetActivated_initialises_once_a_day :
  forall `{Builtins} (now : clock) (name : string) (w : world),
    let w' := fst (handleSheetActivated now name w) in
    let log := snd (handleSheetActivated now name w) in
    let todayStr := formatDateYYYYMMDD (today now) in
    currentSheet (st w') = Some name
    /\ (name <> CONFIG.WEEKLY_SHEET ->
        wb w' = wb w
        /\ weekly_lastInitDate (st w') = weekly_lastInitDate (st w)
        /\ log = [UpdateUI; Notice (SwitchedTo (Some name))])
    /\ (name = CONFIG.WEEKLY_SHEET ->
        weekly_lastInitDate (st w') = Some todayStr
        /\ (weekly_lastInitDate (st w) = Some todayStr ->
            wb w' = wb (highlightCurrentTimeRow now w)
            /\ values (weeklySheet (wb w')) = values (weeklySheet (wb w))
            /\ log = [UpdateUI; Notice (SwitchedTo (Some name))])
        /\ (weekly_lastInitDate (st w) <> Some todayStr ->
            wb w' = wb (initializeWeeklyOnOpen now w)
            /\ log
               = (news w (initializeWeeklyOnOpen now w)
                  ++ [UpdateUI; Notice (SwitchedTo (Some name))])%list)).
Proof. exact @handleSheetActivated_initialises_once_a_day_aux. Qed.

(** Switching to the Habits sheet, and to the Weekly sheet before any
    initialisation. *)
Lemma handleSheetActivated_initialises_once_a_day_witness :
  wb (fst (@handleSheetActivated plainBuiltins tenOClock "Habits" staleWorld)) = wb staleWorld
  /\ weekly_lastInitDate
       (st (fst (@handleSheetActivated plainBuiltins tenOClock "Weekly" staleWorld)))
     = Some (formatDateYYYYMMDD (today tenOClock)).
Proof.
  destruct (@handleSheetActivated_initialises_once_a_day plainBuiltins tenOClock "Habits"
              staleWorld) as (_ & Hother & _).
  destruct (@handleSheetActivated_initialises_once_a_day plainBuiltins tenOClock "Weekly"
              staleWorld) as (_ & _ & Hweekly).
  split.
  - apply Hother. discriminate.
  - apply Hweekly. reflexivity.
Defined.

(** X25.  Activating the Weekly sheet a second time on the same day changes
    no cell value: whatever the first activation did, the second one finds
    today as the day of the last initialisation and only refreshes the
    time highlight. *)
Theorem second_activation_on_a_day_only_highlights :
  forall `{Builtins} (now1 now2 : clock) (w : world),
    today now2 = today now1 ->
    let w1 := fst (handleSheetActivated now1 CONFIG.WEEKLY_SHEET w) in
    let w2 := fst (handleSheetActivated now2 CONFIG.WEEKLY_SHEET w1) in
    values (weeklySheet (wb w2)) = values (weeklySheet (wb w1))
    /\ wb w2 = wb (highlightCurrentTimeRow now2 w1)
    /\ snd (handleSheetActivated now2 CONFIG.WEEKLY_SHEET w1)
       = [UpdateUI; Notice (SwitchedTo (Some CONFIG.WEEKLY_SHEET))]
    /\ weekly_lastInitDate (st w2) = weekly_lastInitDate (st w1).
Proof.
  intros B now1 now2 w Hday w1 w2.
  destruct (handleSheetActivated_initialises_once_a_day_aux now1 CONFIG.WEEKLY_SHEET w)
    as (_ & _ & H1).
  destruct (H1 eq_refl) as (Hinit1 & _). fold w1 in Hinit1.
  destruct (handleSheetActivated_initialises_once_a_day_aux now2 CONFIG.WEEKLY_SHEET w1)
    as (_ & _ & H2).
  destruct (H2 eq_refl) as (Hinit2 & Hsame & _). fold w2 in Hinit2, Hsame.
  rewrite Hday in Hsame, Hinit2.
  destruct (Hsame Hinit1) as (Hwb & Hv & Hlog).
  split; [exact Hv|]. split; [exact Hwb|]. split; [exact Hlog|].
  rewrite Hinit1, Hinit2. reflexivity.
Qed.

(** The stale week, activated twice on Tuesday 2024-12-17. *)
Lemma second_activation_on_a_day_only_highlights_witness :
  let w1 := fst (@handleSheetActivated plainBuiltins tenOClock CONFIG.WEEKLY_SHEET staleWorld) in
  let w2 := fst (@handleSheetActivated plainBuiltins tenOClock CONFIG.WEEKLY_SHEET w1) in
  values (weeklySheet (wb w2)) = values (weeklySheet (wb w1))
  /\ wb w2 = wb (highlightCurrentTimeRow tenOClock w1)
  /\ snd (@handleSheetActivated plainBuiltins tenOClock CONFIG.WEEKLY_SHEET w1)
     = [UpdateUI; Notice (SwitchedTo (Some CONFIG.WEEKLY_SHEET))]
  /\ weekly_lastInitDate (st w2) = weekly_lastInitDate (st w1).
Proof.
  exact (@second_activation_on_a_day_only_highlights plainBuiltins tenOClock tenOClock
           staleWorld eq_refl).
Defined.

End ActivationSpec.

(** ** weekly.js: starting a new week by hand *)

Module NewWeekMoreFacts.
Import Js Utils Value Grid Weekly Commands Notions MoreNotions.

Lemma weekly_emit w e : weeklySheet (wb (emit w e)) = weeklySheet (wb w).
Proof. reflexivity. Qed.

(** The dates written depend on today only, the other cells on the sheet
    as it was. *)
Lemma setNewWeekDates_values_ext now w1 w2 :
  (forall c, values (weeklySheet (wb w1)) c = values (weeklySheet (wb w2)) c) ->
  forall c,
    values (weeklySheet (wb (setNewWeekDates now w1))) c
    = values (weeklySheet (wb (setNewWeekDates now w2))) c.
Proof.
  intros Hsame c. unfold setNewWeekDates.
  cbn [wb withSession withWeekly weeklySheet].
  change (zrange 0 CONFIG.WEEKLY.DAYS_IN_WEEK) with [0; 1; 2; 3; 4; 5; 6].
  rewrite !NewWeekFacts.fold_left_cons. cbn [fold_left]. unfold setDayHeader.
  cbn [values setValue].
  repeat match goal with
         | |- context [cell_eqb ?a ?b] => destruct (cell_eqb a b)
         end; try reflexivity.
  apply Hsame.
Qed.

Lemma setNewWeekDates_session now w :
  weekly_dIndex (st (setNewWeekDates now w)) = weekly_dIndex (st w)
  /\ weekly_lastInitDate (st (setNewWeekDates now w)) = weekly_lastInitDate (st w).
Proof. split; reflexivity. Qed.

Section WithBuiltins.
Context `{Builtins}.

Lemma initializeWeeklyOnOpen_stale now w anchor :
  sheetLastMondayOf (weeklySheet (wb w)) = Some (Some anchor) ->
  7 <= daysBetween anchor (today now) ->
  initializeWeeklyOnOpen now w
  = finishInitialization now
      (emit
         (setNewWeekDates now
            (clearForNewWeek
               (archiveWeekAutomatically (emit w (ShowStatus NewWeekDetected)))))
         (ShowStatus WeekArchivedAndStarted)).
Proof.
  intros Hanchor Hstale. unfold initializeWeeklyOnOpen. rewrite Hanchor.
  replace (7 <=? daysBetween anchor (today now)) with true
    by (symmetry; apply Z.leb_le; exact Hstale).
  reflexivity.
Qed.

(** The cell values the automatic rollover leaves. *)
Lemma rollover_values now w anchor :
  sheetLastMondayOf (weeklySheet (wb w)) = Some (Some anchor) ->
  7 <= daysBetween anchor (today now) ->
  forall c,
    values (weeklySheet (wb (initializeWeeklyOnOpen now w))) c
    = values (weeklySheet (wb (setNewWeekDates now (clearForNewWeek w)))) c.
Proof.
  intros Hanchor Hstale c.
  rewrite (initializeWeeklyOnOpen_stale now w anchor Hanchor Hstale).
  set (wa := emit w (ShowStatus NewWeekDetected)).
  destruct (NewWeekFacts.archiveWeekAutomatically_effect wa) as (Hwb & _ & _).
  set (w_archived := archiveWeekAutomatically wa) in *.
  set (w_dated := setNewWeekDates now (clearForNewWeek w_archived)).
  destruct (NewWeekFacts.finishInitialization_effect now
              (emit w_dated (ShowStatus WeekArchivedAndStarted))) as (Hv & _ & _).
  rewrite Hv, weekly_emit. unfold w_dated.
  apply setNewWeekDates_values_ext. intros c'.
  rewrite !NewWeekFacts.clearForNewWeek_values, Hwb. reflexivity.
Qed.

End WithBuiltins.

(** What the hand-started new week leaves. *)
Lemma startNewWeekFromUI_effect `{Builtins} now w :
  (forall c,
      values (weeklySheet (wb (fst (startNewWeekFromUI now w)))) c
      = values (weeklySheet (wb (setNewWeekDates now (clearForNewWeek w)))) c)
  /\ out (fst (startNewWeekFromUI now w)) = (out w ++ [ShowStatus ClearedForNewWeek])%list
  /\ st (fst (startNewWeekFromUI now w)) = st (setNewWeekDates now (clearForNewWeek w))
  /\ keptOutsideWeekly w (fst (startNewWeekFromUI now w)).
Proof.
  unfold startNewWeekFromUI. cbv zeta. cbn [fst].
  set (w2 := setNewWeekDates now (clearForNewWeek w)).
  destruct (NewWeekFacts.setNewWeekDates_effect now (clearForNewWeek w)) as (Ho2 & _).
  cbv zeta in Ho2. fold w2 in Ho2. rewrite NewWeekFacts.clearForNewWeek_out in Ho2.
  assert (K2 : keptOutsideWeekly w w2).
  { eapply InitFacts.kept_trans;
      [apply InitFacts.kept_clearForNewWeek | apply InitFacts.kept_setNewWeekDates]. }
  clearbody w2.
  destruct (NewWeekFacts.highlightCurrentDay_effect w2) as (Hv3 & Ho3 & Hs3).
  pose proof (InitFacts.kept_highlightCurrentDay w2) as K3.
  set (w3 := highlightCurrentDay w2) in *. clearbody w3.
  destruct (NewWeekFacts.highlightCurrentTimeRow_effect now w3) as (Hv4 & Ho4 & Hs4).
  pose proof (InitFacts.kept_highlightCurrentTimeRow now w3) as K4.
  set (w4 := highlightCurrentTimeRow now w3) in *. clearbody w4.
  split; [intros c; rewrite Hv4, Hv3; reflexivity|].
  split; [rewrite Ho4, Ho3; exact Ho2|].
  split; [rewrite Hs4, Hs3; reflexivity|].
  exact (InitFacts.kept_trans _ _ _ K2 (InitFacts.kept_trans _ _ _ K3 K4)).
Qed.

Lemma startNewWeekFromUI_log `{Builtins} now w :
  snd (startNewWeekFromUI now w)
  = ([Notice StartingNewWeek] ++ news w (fst (startNewWeekFromUI now w))
     ++ [Notice NewWeekStarted])%list.
Proof. unfold startNewWeekFromUI. cbv zeta. cbn [fst snd]. exact eq_refl. Qed.

End NewWeekMoreFacts.

Module StartNewWeekSpec.
Import Js Utils Value Grid Weekly Commands Notions MoreNotions Examples MoreExamples.

(** X26.  [startNewWeekFromUI] clears the grid and writes the dates of
    today's week like the automatic rollover, and where that rollover is due
    both leave the same cell values; but it downloads no archive (its only
    messages are the start notice, the clearing status and the end notice),
    and it keeps the session's day index and day of initialisation, setting
    only the last Monday.  Nothing outside the Weekly sheet changes. *)
Theorem startNewWeekFromUI_is_the_rollover_without_archive :
  forall `{Builtins} (now : clock) (w : world),
    let weekly := weeklySheet (wb w) in
    let w' := fst (startNewWeekFromUI now w) in
    let weekly' := weeklySheet (wb w') in
    let monday := getMonday (today now) in
    (forall c, snd c <> 4 -> values weekly' c = clearedValue weekly c)
    /\ values weekly' (2, 4) = JStr (yearMonthOf monday)
    /\ (forall i, 0 <= i < 7 ->
                  values weekly' (2 * i + 4, 4) = JNum (inject_Z (getDate (monday + i))))
    /\ snd (startNewWeekFromUI now w)
       = [Notice StartingNewWeek; Script (ShowStatus ClearedForNewWeek);
          Notice NewWeekStarted]
    /\ weekly_lastMonday (st w') = Some monday
    /\ weekly_dIndex (st w') = weekly_dIndex (st w)
    /\ weekly_lastInitDate (st w') = weekly_lastInitDate (st w)
    /\ keptOutsideWeekly w w'
    /\ (forall anchor,
          sheetLastMondayOf weekly = Some (Some anchor) ->
          7 <= daysBetween anchor (today now) ->
          forall c,
            values weekly' c = values (weeklySheet (wb (initializeWeeklyOnOpen now w))) c).
Proof.
  intros B now w weekly w' weekly' monday.
  destruct (NewWeekMoreFacts.startNewWeekFromUI_effect now w) as (Hv & Ho & Hs & K).
  fold w' in Hv, Ho, Hs, K. fold weekly' in Hv.
  destruct (NewWeekFacts.setNewWeekDates_effect now (clearForNewWeek w))
    as (_ & Hmon & HB4 & Hhdr & Hrest).
  cbv zeta in Hmon, HB4, Hhdr, Hrest. fold monday in Hmon, HB4, Hhdr.
  destruct (NewWeekMoreFacts.setNewWeekDates_session now (clearForNewWeek w)) as (Hd & Hi).
  split; [|split; [|split; [|split; [|split; [|split; [|split; [|split]]]]]]].
  - intros c Hc. rewrite Hv, Hrest by exact Hc.
    apply NewWeekFacts.clearForNewWeek_values.
  - rewrite Hv. exact HB4.
  - intros i Hi'. rewrite Hv. apply Hhdr. exact Hi'.
  - rewrite NewWeekMoreFacts.startNewWeekFromUI_log. fold w'.
    rewrite (ActivationFacts.news_app w w' [ShowStatus ClearedForNewWeek] Ho).
    reflexivity.
  - rewrite Hs. exact Hmon.
  - rewrite Hs. exact Hd.
  - rewrite Hs. exact Hi.
  - exact K.
  - intros anchor Hanchor Hstale c.
    rewrite (NewWeekMoreFacts.rollover_values now w anchor Hanchor Hstale c).
    apply Hv.
Qed.

(** The stale week of Monday 2024-12-09 on Tuesday 2024-12-17. *)
Lemma startNewWeekFromUI_is_the_rollover_without_archive_witness :
  values (weeklySheet (wb (fst (startNewWeekFromUI tenOClock staleWorld))))
    (3, 5)
  = clearedValue staleWeekly (3, 5)
  /\ values (weeklySheet (wb (fst (startNewWeekFromUI tenOClock staleWorld))))
       (2 * 1 + 4, 4)
     = JNum (inject_Z (getDate (getMonday (today tenOClock) + 1)))
  /\ values (weeklySheet (wb (fst (startNewWeekFromUI tenOClock staleWorld))))
       (5, 6)
     = values (weeklySheet (wb (@initializeWeeklyOnOpen plainBuiltins tenOClock staleWorld)))
         (5, 6).
Proof.
  destruct (@startNewWeekFromUI_is_the_rollover_without_archive plainBuiltins tenOClock
              staleWorld) as (Hclear & _ & Hhdr & _ & _ & _ & _ & _ & Hroll).
  split; [|split].
  - apply Hclear. cbn [snd]. lia.
  - apply Hhdr. lia.
  - apply (Hroll (newDate 2024 11 9)); [reflexivity | vm_compute; discriminate].
Defined.

End StartNewWeekSpec.

(** ** The calendar: day numbers of consecutive days *)

Module CalendarFacts.
Import Js Utils Value Grid Weekly MoreNotions.

Lemma getDate_steps z : getDate z = domOf (doyOf (doeOf z)).
Proof.
  unfold getDate, civilFromDays. cbv zeta beta iota.
  unfold domOf, doyOf, yoeOf, doeOf.
  rewrite Z.mod_eq by lia.
  replace ((z + 719468) / 146097 * 146097) with (146097 * ((z + 719468) / 146097)) by lia.
  reflexivity.
Qed.

Lemma doeOf_range z : 0 <= doeOf z < 146097.
Proof. unfold doeOf. apply Z.mod_pos_bound. lia. Qed.

Lemma doeOf_step z :
  (doeOf (z + 1) = doeOf z + 1 /\ doeOf z < 146096)
  \/ (doeOf (z + 1) = 0 /\ doeOf z = 146096).
Proof.
  unfold doeOf.
  pose proof (Z.mod_pos_bound (z + 719468) 146097 ltac:(lia)) as H1.
  pose proof (Z.mod_pos_bound (z + 1 + 719468) 146097 ltac:(lia)) as H2.
  pose proof (Z.div_mod (z + 719468) 146097 ltac:(lia)) as E1.
  pose proof (Z.div_mod (z + 1 + 719468) 146097 ltac:(lia)) as E2.
  lia.
Qed.

(** The year of the era is the one whose days include the day. *)
Lemma yoeOf_spec doe y :
  0 <= y < 400 -> yearStart y <= doe < yearStart (y + 1) -> yoeOf doe = y.
Proof.
  intros Hy Hd. unfold yoeOf, yearStart in *.
  Z.div_mod_to_equations. lia.
Qed.

Lemma yoeOf_range doe :
  0 <= doe < 146096 ->
  0 <= yoeOf doe < 400 /\ yearStart (yoeOf doe) <= doe < yearStart (yoeOf doe + 1).
Proof.
  intros Hd. unfold yoeOf, yearStart in *.
  Z.div_mod_to_equations. lia.
Qed.

Lemma doyOf_eq doe : doyOf doe = doe - yearStart (yoeOf doe).
Proof. reflexivity. Qed.

Lemma yearStart_next y : 0 <= y -> 365 <= yearStart (y + 1) - yearStart y <= 366.
Proof. intros Hy. unfold yearStart. Z.div_mod_to_equations. lia. Qed.

Lemma doyOf_step doe :
  0 <= doe < 146096 ->
  doyOf (doe + 1) = doyOf doe + 1
  \/ (doyOf (doe + 1) = 0 /\ 364 <= doyOf doe <= 365).
Proof.
  intros Hd. destruct (yoeOf_range doe Hd) as (Hy & Hlo & Hhi).
  rewrite !doyOf_eq.
  pose proof (yearStart_next (yoeOf doe) ltac:(lia)) as Hlen.
  destruct (Z.lt_ge_cases (doe + 1) (yearStart (yoeOf doe + 1))) as [Hin | Hout].
  - left. rewrite (yoeOf_spec (doe + 1) (yoeOf doe)) by lia. lia.
  - assert (Hnext : doe + 1 = yearStart (yoeOf doe + 1)) by lia.
    destruct (Z.eq_dec (yoeOf doe) 399) as [E399 | Hne].
    + left. rewrite E399 in *. change (yearStart (399 + 1)) with 146096 in Hnext.
      assert (doe = 146095) as -> by lia. vm_compute. reflexivity.
    + right.
      pose proof (yearStart_next (yoeOf doe + 1) ltac:(lia)) as Hlen'.
      rewrite (yoeOf_spec (doe + 1) (yoeOf doe + 1)) by lia. lia.
Qed.

Lemma doyOf_range doe : 0 <= doe < 146097 -> 0 <= doyOf doe <= 365.
Proof.
  intros Hd. destruct (Z.eq_dec doe 146096) as [->|Hne]; [vm_compute; split; discriminate|].
  destruct (yoeOf_range doe ltac:(lia)) as (Hy & Hlo & Hhi).
  pose proof (yearStart_next (yoeOf doe) ltac:(lia)).
  rewrite doyOf_eq. lia.
Qed.

Lemma domOf_step doy :
  0 <= doy < 365 ->
  domOf (doy + 1) = domOf doy + 1 \/ (domOf (doy + 1) = 1 /\ 28 <= domOf doy).
Proof.
  intros Hd.
  assert (Hall : forallb (fun d => (domOf (d + 1) =? domOf d + 1)
                                   || ((domOf (d + 1) =? 1) && (28 <=? domOf d)))
                   (zrange 0 365) = true) by (vm_compute; reflexivity).
  rewrite forallb_forall in Hall. specialize (Hall doy).
  rewrite GridFacts.in_zrange in Hall. specialize (Hall ltac:(lia)).
  apply orb_true_iff in Hall as [E|E]; [left; apply Z.eqb_eq; exact E|].
  apply andb_true_iff in E as [E1 E2]. right.
  split; [apply Z.eqb_eq; exact E1 | apply Z.leb_le; exact E2].
Qed.

Lemma domOf_range doy : 0 <= doy <= 365 -> 1 <= domOf doy <= 31.
Proof. intros Hd. unfold domOf. Z.div_mod_to_equations. lia. Qed.

(** The day after: the next day number, or the first after at least 28. *)
Lemma getDate_step z :
  getDate (z + 1) = getDate z + 1 \/ (getDate (z + 1) = 1 /\ 28 <= getDate z).
Proof.
  rewrite !getDate_steps.
  pose proof (doeOf_range z) as Hr.
  destruct (doeOf_step z) as [[E Hlt] | [E Hlast]]; rewrite E.
  - pose proof (doyOf_range (doeOf z) Hr) as Hdoy.
    destruct (doyOf_step (doeOf z) ltac:(lia)) as [E' | [E' Hend]]; rewrite E'.
    + pose proof (doyOf_range (doeOf z + 1) ltac:(lia)) as Hdoy'.
      apply domOf_step. lia.
    + right. split; [reflexivity|].
      assert (Hc : doyOf (doeOf z) = 364 \/ doyOf (doeOf z) = 365) by lia.
      destruct Hc as [-> | ->]; vm_compute; discriminate.
  - right. rewrite Hlast. split; [reflexivity | vm_compute; discriminate].
Qed.

Lemma getDate_range z : 1 <= getDate z <= 31.
Proof.
  rewrite getDate_steps. apply domOf_range, doyOf_range, doeOf_range.
Qed.

Lemma getDate_run z (j : nat) :
  (j <= 27)%nat ->
  getDate (z + Z.of_nat j) = getDate z + Z.of_nat j
  \/ (getDate (z + Z.of_nat j) <= Z.of_nat j
      /\ 28 + getDate (z + Z.of_nat j) <= getDate z + Z.of_nat j).
Proof.
  induction j as [|j IH]; intros Hj.
  - left. rewrite Z.add_0_r. lia.
  - specialize (IH ltac:(lia)).
    replace (z + Z.of_nat (S j)) with (z + Z.of_nat j + 1) by lia.
    pose proof (getDate_range (z + Z.of_nat j)) as Hr.
    destruct (getDate_step (z + Z.of_nat j)) as [E | [E Hend]]; rewrite E.
    + destruct IH as [IH | [IH1 IH2]]; [left; lia | right; lia].
    + destruct IH as [IH | [IH1 IH2]]; right; lia.
Qed.

(** No two days less than four weeks apart have the same day number. *)
Lemma getDate_distinct z j : 0 < j <= 27 -> getDate (z + j) <> getDate z.
Proof.
  intros Hj E.
  pose proof (getDate_run z (Z.to_nat j) ltac:(lia)) as Hrun.
  rewrite Z2Nat.id in Hrun by lia. lia.
Qed.

End CalendarFacts.

(** ** habits.js: the window of days *)

Module HabitsDatesFacts.
Import Js Utils Value Grid Weekly Habits Commands MoreNotions.

Section WithBuiltins.
Context `{Builtins}.

Lemma parseInt_day (n : Z) : Z.abs n < 10 ^ 21 -> parseInt (JNum (inject_Z n)) = Some n.
Proof.
  intros Hn. unfold parseInt, printsAsInteger, isInteger.
  rewrite Qfloor_Z.
  replace (Qeq_bool (inject_Z n) (inject_Z n)) with true
    by (symmetry; apply Qeq_bool_iff; reflexivity).
  replace (Z.abs n <? 10 ^ 21) with true by (symmetry; apply Z.ltb_lt; exact Hn).
  reflexivity.
Qed.

(** The scan of the header stops at the first cell that reads as today's
    day number. *)
Lemma findDayLoop_spec (f : Z -> jsval) todayDay n :
  forall a,
    0 <= a ->
    let i := findDayLoop (map f (zrange a n)) a todayDay in
    (i = -1 /\ forall k, a <= k < a + Z.of_nat n -> parseInt (f k) <> Some todayDay)
    \/ (a <= i < a + Z.of_nat n
        /\ parseInt (f i) = Some todayDay
        /\ forall k, a <= k < i -> parseInt (f k) <> Some todayDay).
Proof.
  induction n as [|n IH]; intros a Ha; cbn zeta; cbn [zrange map findDayLoop].
  - left. split; [reflexivity | intros k Hk; lia].
  - assert (Hhere : (match parseInt (f a) with
                     | Some z => z =? todayDay
                     | None => false
                     end) = true <-> parseInt (f a) = Some todayDay).
    { destruct (parseInt (f a)) as [z|]; [|split; discriminate].
      rewrite Z.eqb_eq. split; [intros ->; reflexivity | intros [= ->]; reflexivity]. }
    destruct (match parseInt (f a) with Some z => z =? todayDay | None => false end) eqn:E.
    + right. split; [lia|]. split; [apply Hhere; reflexivity | intros k Hk; lia].
    + assert (Hnot : parseInt (f a) <> Some todayDay).
      { intros Hp. apply Hhere in Hp. discriminate. }
      destruct (IH (a + 1) ltac:(lia)) as [[Hn Hall] | (Hr & Hs & Hall)].
      * left. split; [exact Hn|]. intros k Hk.
        destruct (Z.eq_dec k a) as [->|Hne]; [exact Hnot | apply Hall; lia].
      * right. split; [lia|]. split; [exact Hs|]. intros k Hk.
        destruct (Z.eq_dec k a) as [->|Hne]; [exact Hnot | apply Hall; lia].
Qed.

Lemma header_cells habits :
  rowValues habits 3 (hostColumn "D") (hostColumn "Q")
  = map (fun k => values habits (4 + k, 3)) (zrange 0 14).
Proof. reflexivity. Qed.

Lemma findHabitsDayIndex_spec now habits :
  let i := findHabitsDayIndex now habits in
  let todayDay := getDate (today now) in
  (i = -1 /\ forall k, 0 <= k < 14 -> parseInt (values habits (4 + k, 3)) <> Some todayDay)
  \/ (0 <= i < 14
      /\ parseInt (values habits (4 + i, 3)) = Some todayDay
      /\ forall k, 0 <= k < i -> parseInt (values habits (4 + k, 3)) <> Some todayDay).
Proof.
  cbn zeta. unfold findHabitsDayIndex. rewrite header_cells.
  exact (findDayLoop_spec (fun k => values habits (4 + k, 3)) (getDate (today now))
           14 0 ltac:(lia)).
Qed.

End WithBuiltins.

Lemma fold_setHabitsDay_values startDate (days : list Z) :
  forall habits c,
    NoDup days ->
    values (fold_left (setHabitsDay startDate) days habits) c
    = if (snd c =? 3) && existsb (fun i => fst c =? 4 + i) days
      then JNum (inject_Z (getDate (startDate + (fst c - 4))))
      else values habits c.
Proof.
  induction days as [|d days IH]; intros habits [cc cr] Hnd.
  - cbn [fold_left existsb]. rewrite andb_false_r. reflexivity.
  - inversion Hnd as [|? ? Hnotin Hnd']; subst.
    rewrite NewWeekFacts.fold_left_cons, NewWeekFacts.existsb_cons, IH by exact Hnd'.
    cbn [fst snd]. unfold setHabitsDay. change (hostColumn "D") with 4.
    cbn [values setValue]. unfold cell_eqb. cbn [fst snd].
    destruct (Z.eqb_spec cr 3) as [->|Hr]; cbn [andb]; [|rewrite andb_false_r; reflexivity].
    rewrite andb_true_r.
    destruct (existsb (fun i => cc =? 4 + i) days) eqn:Ex.
    + rewrite orb_true_r. reflexivity.
    + rewrite orb_false_r. destruct (Z.eqb_spec cc (4 + d)) as [->|Hc]; [|reflexivity].
      do 3 f_equal. lia.
Qed.

Lemma fill_clearContentsBox sh c1 r1 c2 r2 :
  fill (clearContentsBox sh c1 r1 c2 r2) = fill sh.
Proof. reflexivity. Qed.

Lemma fill_setValue sh c v : fill (setValue sh c v) = fill sh.
Proof. reflexivity. Qed.

Lemma fold_setHabitsDay_fill startDate (days : list Z) :
  forall habits, fill (fold_left (setHabitsDay startDate) days habits) = fill habits.
Proof.
  induction days as [|d days IH]; intros habits; [reflexivity|].
  rewrite NewWeekFacts.fold_left_cons, IH. reflexivity.
Qed.

End HabitsDatesFacts.

Module HabitsDatesSpec.
Import Js Utils Value Grid Weekly Habits Commands MoreNotions Examples MoreExamples.

Lemma existsb_window x :
  existsb (fun i => x =? 4 + i) (zrange 0 (Z.to_nat DAYS_COUNT)) = (4 <=? x) && (x <=? 17).
Proof.
  apply eq_true_iff_eq. rewrite existsb_exists, andb_true_iff, !Z.leb_le. split.
  - intros (i & Hi & E). apply Z.eqb_eq in E. apply GridFacts.in_zrange in Hi.
    change (Z.of_nat (Z.to_nat DAYS_COUNT)) with 14 in Hi. lia.
  - intros Hx. exists (x - 4). split.
    + apply GridFacts.in_zrange. change (Z.of_nat (Z.to_nat DAYS_COUNT)) with 14. lia.
    + apply Z.eqb_eq. lia.
Qed.

Section WithBuiltins.
Context `{Builtins}.

Lemma refreshed_sheet now w :
  habitsSheet (wb (fst (refreshHabitsDates now w)))
  = let sheet2 :=
      fold_left (setHabitsDay (getMonday (today now))) (zrange 0 (Z.to_nat DAYS_COUNT))
        (setValue (habitsSheet (wb w)) (at_ "B" 3)
           (JStr (yearMonthOf (getMonday (today now))))) in
    if 4 <=? habits_lastRow (st w)
    then clearContentsBox sheet2 4 4 17 (habits_lastRow (st w))
    else sheet2.
Proof. reflexivity. Qed.

Lemma refreshed_index now w :
  habits_currentDayIndex (st (fst (refreshHabitsDates now w)))
  = findHabitsDayIndex now (habitsSheet (wb (fst (refreshHabitsDates now w)))).
Proof. reflexivity. Qed.

Lemma initialized_index now rowCount w :
  habits_currentDayIndex (st (initializeHabitsSheet now rowCount w))
  = findHabitsDayIndex now (habitsSheet (wb w)).
Proof. reflexivity. Qed.

(** Every cell of the Habits sheet after [refreshHabitsDates]. *)
Lemma refreshed_values now w c :
  values (habitsSheet (wb (fst (refreshHabitsDates now w)))) c
  = if inBox c 4 4 17 (habits_lastRow (st w)) then JStr ""
    else if (snd c =? 3) && ((4 <=? fst c) && (fst c <=? 17))
    then JNum (inject_Z (getDate (getMonday (today now) + (fst c - 4))))
    else if cell_eqb c (2, 3) then JStr (yearMonthOf (getMonday (today now)))
    else values (habitsSheet (wb w)) c.
Proof.
  rewrite refreshed_sheet. cbv zeta.
  assert (Hinner :
    values (fold_left (setHabitsDay (getMonday (today now))) (zrange 0 (Z.to_nat DAYS_COUNT))
              (setValue (habitsSheet (wb w)) (at_ "B" 3)
                 (JStr (yearMonthOf (getMonday (today now)))))) c
    = if (snd c =? 3) && ((4 <=? fst c) && (fst c <=? 17))
      then JNum (inject_Z (getDate (getMonday (today now) + (fst c - 4))))
      else if cell_eqb c (2, 3) then JStr (yearMonthOf (getMonday (today now)))
      else values (habitsSheet (wb w)) c).
  { rewrite HabitsDatesFacts.fold_setHabitsDay_values by apply NewWeekFacts.NoDup_zrange.
    rewrite existsb_window. reflexivity. }
  destruct (4 <=? habits_lastRow (st w)) eqn:El.
  - cbn [values clearContentsBox]. rewrite Hinner. reflexivity.
  - rewrite Hinner.
    replace (inBox c 4 4 17 (habits_lastRow (st w))) with false; [reflexivity|].
    symmetry. unfold inBox. apply Z.leb_gt in El.
    destruct (Z.leb_spec 4 (snd c)), (Z.leb_spec (snd c) (habits_lastRow (st w)));
      rewrite ?andb_false_r; try reflexivity; lia.
Qed.

Lemma refreshed_header now w k :
  0 <= k < 14 ->
  values (habitsSheet (wb (fst (refreshHabitsDates now w)))) (4 + k, 3)
  = JNum (inject_Z (getDate (getMonday (today now) + k))).
Proof.
  intros Hk. rewrite refreshed_values. cbn [fst snd]. unfold inBox. cbn [fst snd].
  change (4 <=? 3) with false. rewrite andb_false_r. cbn [andb].
  change (3 =? 3) with true.
  replace (4 <=? 4 + k) with true by (symmetry; apply Z.leb_le; lia).
  replace (4 + k <=? 17) with true by (symmetry; apply Z.leb_le; lia).
  cbn [andb]. do 3 f_equal. lia.
Qed.

(** The header written by [refreshHabitsDates], read on a day [j] days
    after its Monday. *)
Lemma refreshed_window_index now later w :
  0 <= daysBetween (getMonday (today now)) (today later) <= 27 ->
  findHabitsDayIndex later (habitsSheet (wb (fst (refreshHabitsDates now w))))
  = if daysBetween (getMonday (today now)) (today later) <? 14
    then daysBetween (getMonday (today now)) (today later)
    else -1.
Proof.
  unfold daysBetween. intros Hj.
  assert (Hcell : forall k, 0 <= k < 14 ->
            parseInt (values (habitsSheet (wb (fst (refreshHabitsDates now w)))) (4 + k, 3))
            = Some (getDate (getMonday (today now) + k))).
  { intros k Hk. rewrite refreshed_header by exact Hk.
    apply HabitsDatesFacts.parseInt_day.
    pose proof (CalendarFacts.getDate_range (getMonday (today now) + k)). lia. }
  assert (Hsame : forall k, 0 <= k < 14 ->
            getDate (getMonday (today now) + k) = getDate (today later) ->
            k = today later - getMonday (today now)).
  { intros k Hk E.
    destruct (Z.lt_trichotomy k (today later - getMonday (today now))) as [Hlt|[Heq|Hgt]];
      [exfalso | exact Heq | exfalso].
    - apply (CalendarFacts.getDate_distinct (getMonday (today now) + k)
               (today later - getMonday (today now) - k)); [lia|].
      rewrite E. f_equal. lia.
    - apply (CalendarFacts.getDate_distinct (today later)
               (k - (today later - getMonday (today now)))); [lia|].
      rewrite <- E. f_equal. lia. }
  pose proof (HabitsDatesFacts.findHabitsDayIndex_spec later
                (habitsSheet (wb (fst (refreshHabitsDates now w))))) as Hspec.
  cbv zeta in Hspec.
  set (i := findHabitsDayIndex later _) in *. clearbody i.
  destruct Hspec as [[Hn Hall] | (Hr & Hs & _)].
  - rewrite Hn. destruct (Z.ltb_spec (today later - getMonday (today now)) 14) as [Hlt|Hge];
      [exfalso | reflexivity].
    apply (Hall (today later - getMonday (today now))); [lia|].
    rewrite Hcell by lia. do 2 f_equal. lia.
  - rewrite Hcell in Hs by exact Hr. injection Hs as Hs.
    apply Hsame in Hs; [|exact Hr].
    rewrite Hs. replace (today later - getMonday (today now) <? 14) with true; [reflexivity|].
    symmetry. apply Z.ltb_lt. lia.
Qed.

Lemma refreshed_fill now w c :
  fill (habitsSheet (wb (fst (refreshHabitsDates now w)))) c = fill (habitsSheet (wb w)) c.
Proof.
  rewrite refreshed_sheet. cbv zeta.
  destruct (4 <=? habits_lastRow (st w));
    rewrite ?HabitsDatesFacts.fill_clearContentsBox,
      HabitsDatesFacts.fold_setHabitsDay_fill, HabitsDatesFacts.fill_setValue;
    reflexivity.
Qed.

Lemma refreshed_B3 now w :
  values (habitsSheet (wb (fst (refreshHabitsDates now w)))) (2, 3)
  = JStr (yearMonthOf (getMonday (today now))).
Proof.
  rewrite refreshed_values. unfold inBox. cbn [fst snd].
  change (4 <=? 2) with false. cbn [andb]. rewrite andb_false_r. reflexivity.
Qed.

Lemma refreshed_box now w col row :
  4 <= col <= 17 -> 4 <= row <= habits_lastRow (st w) ->
  values (habitsSheet (wb (fst (refreshHabitsDates now w)))) (col, row) = JStr "".
Proof.
  intros Hc Hr. rewrite refreshed_values. unfold inBox. cbn [fst snd].
  replace (4 <=? col) with true by (symmetry; apply Z.leb_le; lia).
  replace (col <=? 17) with true by (symmetry; apply Z.leb_le; lia).
  replace (4 <=? row) with true by (symmetry; apply Z.leb_le; lia).
  replace (row <=? habits_lastRow (st w)) with true by (symmetry; apply Z.leb_le; lia).
  reflexivity.
Qed.

Lemma refreshed_outside now w col row :
  (col, row) <> (2, 3) ->
  col < 4 \/ 17 < col \/ row < 3 \/ (3 < row /\ habits_lastRow (st w) < row) ->
  values (habitsSheet (wb (fst (refreshHabitsDates now w)))) (col, row)
  = values (habitsSheet (wb w)) (col, row).
Proof.
  intros Hne Hout. rewrite refreshed_values. unfold inBox, cell_eqb. cbn [fst snd].
  destruct (Z.leb_spec 4 col), (Z.leb_spec col 17), (Z.leb_spec 4 row),
    (Z.leb_spec row (habits_lastRow (st w))), (Z.eqb_spec row 3), (Z.eqb_spec col 2);
    cbn [andb]; try reflexivity; try lia;
    subst; exfalso; apply Hne; reflexivity.
Qed.

Lemma refreshed_today_index now w :
  habits_currentDayIndex (st (fst (refreshHabitsDates now w))) = dayIndexOf (today now).
Proof.
  rewrite refreshed_index.
  pose proof (WeekSpec.getMonday_offset (today now)) as Hoff.
  pose proof (WeekSpec.dayIndexOf_offset (today now)) as Hdi.
  pose proof (Z.mod_pos_bound (today now + 3) 7 ltac:(lia)) as Hb.
  rewrite refreshed_window_index by (rewrite Hoff; lia).
  rewrite Hoff.
  replace ((today now + 3) mod 7 <? 14) with true by (symmetry; apply Z.ltb_lt; lia).
  symmetry. exact Hdi.
Qed.

Lemma refreshed_frame now w :
  snd (refreshHabitsDates now w) = [Notice (DatesRefreshed (getMonday (today now)))]
  /\ out (fst (refreshHabitsDates now w)) = out w
  /\ weeklySheet (wb (fst (refreshHabitsDates now w))) = weeklySheet (wb w)
  /\ tasksSheet (wb (fst (refreshHabitsDates now w))) = tasksSheet (wb w)
  /\ summarySheet (wb (fst (refreshHabitsDates now w))) = summarySheet (wb w)
  /\ habits_lastRow (st (fst (refreshHabitsDates now w))) = habits_lastRow (st w)
  /\ currentSheet (st (fst (refreshHabitsDates now w))) = currentSheet (st w).
Proof. repeat split. Qed.

(** X27.  [initializeHabitsSheet] changes nothing in the workbook and shows
    nothing; it sets [state.habits.lastRow] to the row count of the used
    range, but never below 4, and [state.habits.currentDayIndex] to the
    position (0..13) of the first cell of D3:Q3 that [parseInt] reads as
    today's day of the month, or to -1 when no cell of the header does. *)
Theorem initializeHabitsSheet_finds_first_matching_header now rowCount w :
  let w' := initializeHabitsSheet now rowCount w in
  let i := habits_currentDayIndex (st w') in
  let header := fun k => values (habitsSheet (wb w)) (4 + k, 3) in
  wb w' = wb w /\ out w' = out w
  /\ habits_lastRow (st w') = Z.max rowCount 4
  /\ 4 <= habits_lastRow (st w')
  /\ ((i = -1
       /\ forall k, 0 <= k < 14 -> parseInt (header k) <> Some (getDate (today now)))
      \/ (0 <= i < 14
          /\ parseInt (header i) = Some (getDate (today now))
          /\ forall k, 0 <= k < i -> parseInt (header k) <> Some (getDate (today now)))).
Proof.
  cbv zeta. rewrite initialized_index.
  split; [reflexivity|]. split; [reflexivity|]. split; [reflexivity|].
  split.
  - change (habits_lastRow (st (initializeHabitsSheet now rowCount w)))
      with (Z.max rowCount 4). lia.
  - exact (HabitsDatesFacts.findHabitsDayIndex_spec now (habitsSheet (wb w))).
Qed.

(** X28.  [refreshHabitsDates] writes the year and month of this week's
    Monday to B3 and the day numbers of the fourteen days from that Monday
    to D3:Q3, empties D4:Q[lastRow], and leaves every other cell, every fill
    and the other sheets as they were; it shows one status line.  The
    current day index it then finds is today's place in the week, 0 for
    Monday to 6 for Sunday. *)
Theorem refreshHabitsDates_writes_the_window now w :
  let monday := getMonday (today now) in
  let w' := fst (refreshHabitsDates now w) in
  let habits := habitsSheet (wb w) in
  let habits' := habitsSheet (wb w') in
  snd (refreshHabitsDates now w) = [Notice (DatesRefreshed monday)]
  /\ out w' = out w
  /\ weeklySheet (wb w') = weeklySheet (wb w)
  /\ tasksSheet (wb w') = tasksSheet (wb w)
  /\ summarySheet (wb w') = summarySheet (wb w)
  /\ (forall c, fill habits' c = fill habits c)
  /\ values habits' (2, 3) = JStr (yearMonthOf monday)
  /\ (forall k, 0 <= k < 14 ->
        values habits' (4 + k, 3) = JNum (inject_Z (getDate (monday + k))))
  /\ (forall col row, 4 <= col <= 17 -> 4 <= row <= habits_lastRow (st w) ->
        values habits' (col, row) = JStr "")
  /\ (forall col row,
        (col, row) <> (2, 3) ->
        col < 4 \/ 17 < col \/ row < 3 \/ (3 < row /\ habits_lastRow (st w) < row) ->
        values habits' (col, row) = values habits (col, row))
  /\ habits_currentDayIndex (st w') = dayIndexOf (today now)
  /\ 0 <= habits_currentDayIndex (st w') <= 6
  /\ habits_lastRow (st w') = habits_lastRow (st w)
  /\ currentSheet (st w') = currentSheet (st w).
Proof.
  cbv zeta.
  destruct (refreshed_frame now w) as (Hlog & Hout & Hwk & Htk & Hsm & Hlr & Hcs).
  split; [exact Hlog|]. split; [exact Hout|]. split; [exact Hwk|].
  split; [exact Htk|]. split; [exact Hsm|].
  split; [intros c; apply refreshed_fill|].
  split; [apply refreshed_B3|].
  split; [intros k Hk; apply refreshed_header; exact Hk|].
  split; [intros col row Hc Hr; apply refreshed_box; assumption|].
  split; [intros col row Hne Ho; apply refreshed_outside; assumption|].
  split; [apply refreshed_today_index|].
  split; [rewrite refreshed_today_index; apply WeekSpec.dayIndexOf_range|].
  split; [exact Hlr | exact Hcs].
Qed.

(** X29.  The window written by [refreshHabitsDates] serves its fourteen
    days and no others: when the Habits sheet is initialised [j] days after
    the Monday of the refresh, the current day index is [j] for the days of
    the window, and -1 (no column) for the two weeks after it. *)
Theorem refreshed_window_serves_its_fourteen_days now later rowCount w :
  let j := daysBetween (getMonday (today now)) (today later) in
  0 <= j <= 27 ->
  habits_currentDayIndex
    (st (initializeHabitsSheet later rowCount (fst (refreshHabitsDates now w))))
  = if j <? 14 then j else -1.
Proof.
  cbv zeta. intros Hj. rewrite initialized_index.
  apply refreshed_window_index. exact Hj.
Qed.

End WithBuiltins.

Lemma refreshed_window_serves_its_fourteen_days_witness :
  0 <= daysBetween (getMonday (today tenOClock)) (today nextTuesday) <= 27
  /\ habits_currentDayIndex
       (st (@initializeHabitsSheet plainBuiltins nextTuesday 6
              (fst (@refreshHabitsDates plainBuiltins tenOClock runWorld))))
     = 8.
Proof.
  split; [vm_compute; split; discriminate|].
  exact (@refreshed_window_serves_its_fourteen_days plainBuiltins tenOClock nextTuesday 6
           runWorld ltac:(vm_compute; split; discriminate)).
Defined.

End HabitsDatesSpec.
